(** * The MPF switch controller (mpf/core/switch_controller.py)

    A shallow embedding of [SwitchController] and of the collaborators it
    drives (the clock's one-shot timers, the switch devices, the asyncio
    futures of the wait primitive), followed by the properties of the
    controller that the specification states.

    Conventions.
    - Clock readings and deadlines are Python floats in the source.  In
      the model of the whole controller they are embedded as exact
      rationals [Q], and float keys of [active_timed_switches] are
      compared with [Qeq_bool]: this idealises the arithmetic, and is used
      for the statements that do not depend on how a sum or a product is
      rounded.  The module [Binary64] embeds the functions that do the
      clock arithmetic ([ms_since_change], the [is_state] family,
      [add_switch_handler] and what they call) once more, with IEEE-754
      binary64 readings and operations, for the statements that depend on
      the rounding.
    - Switch states and millisecond counts are Python ints, embedded as [Z].
    - Exceptions are the [Raise] results of the error type [result].
    - Handler callbacks, monitors and the event bus are code outside the
      controller: their effect on the world is given by the class
      [Environment]. *)

From Stdlib Require Import ZArith QArith Qround Lqa Lia Bool Wf_nat.
From Stdlib Require Import String Ascii DecimalString.
From Stdlib Require SpecFloat.
From stdpp Require Import base option list strings gmap.

Set Default Proof Using "Type".
Local Open Scope Z_scope.

(** ** Results and exceptions *)

Inductive exn : Type :=
  | KeyError
  | AssertionError
  | InvalidStateError
  | TypeError
  | OverflowError
  | OutOfFuel.

Inductive result (A : Type) : Type :=
  | Ok (a : A)
  | Raise (e : exn).
Arguments Ok {A} a.
Arguments Raise {A} e.

Definition rbind {A B : Type} (r : result A) (k : A -> result B) : result B :=
  match r with
  | Ok a => k a
  | Raise e => Raise e
  end.

Notation "x <- r ;; k" := (rbind r (fun x => k))
  (at level 100, r at next level, right associativity).

(** ** Python built-ins used by the controller *)

(** [round(x, 0)] of Python 3: the nearest integer, ties to the even one. *)
Definition py_round (x : Q) : Z :=
  let f := Qfloor x in
  match Qcompare (x - inject_Z f) (1 # 2) with
  | Lt => f
  | Gt => f + 1
  | Eq => if Z.even f then f else f + 1
  end.

(** The rounding that the specification words describe: half away from
    zero. *)
Definition round_half_away_from_zero (x : Q) : Z :=
  if Qle_bool 0 x then Qfloor (x + (1 # 2)) else Qceiling (x - (1 # 2)).

(** [str(n)] for an int. *)
Definition str_int (n : Z) : string := NilZero.string_of_int (Z.to_int n).

(** Modelled from the spec: [CaseInsensitiveDict]
    ([mpf.core.case_insensitive_dict]) is a wrapper that normalizes keys on
    lookup and insert; the normal form is [str.lower()], here on ASCII
    letters. *)
Definition lower_ascii (c : ascii) : ascii :=
  let n := nat_of_ascii c in
  if (65 <=? n)%nat && (n <=? 90)%nat then ascii_of_nat (n + 32) else c.

Fixpoint lower (s : string) : string :=
  match s with
  | EmptyString => EmptyString
  | String c s' => String (lower_ascii c) (lower s')
  end.

(** Truth value of an int ([if ms:], [if state:]). *)
Definition truthy (n : Z) : bool := negb (n =? 0).

(** [min(xs)]: the first least element. *)
Fixpoint py_min_from (m : Q) (xs : list Q) : Q :=
  match xs with
  | [] => m
  | x :: xs' => py_min_from (if Qlt_le_dec x m then x else m) xs'
  end.

Definition py_min (xs : list Q) : option Q :=
  match xs with
  | [] => None
  | x :: xs' => Some (py_min_from x xs')
  end.

(** ** A [dict] with float keys, in insertion order

    [active_timed_switches] is a [defaultdict(list)]: reading a missing
    key creates it with an empty list, at the end of the iteration order. *)

Section FloatDict.
Context {V : Type}.

Definition fdict : Type := list (Q * V).

Fixpoint fd_get (k : Q) (d : fdict) : option V :=
  match d with
  | [] => None
  | (k', v) :: d' => if Qeq_bool k' k then Some v else fd_get k d'
  end.

Fixpoint fd_set (k : Q) (v : V) (d : fdict) : fdict :=
  match d with
  | [] => [(k, v)]
  | (k', v') :: d' =>
      if Qeq_bool k' k then (k', v) :: d' else (k', v') :: fd_set k v d'
  end.

Fixpoint fd_del (k : Q) (d : fdict) : fdict :=
  match d with
  | [] => []
  | (k', v') :: d' => if Qeq_bool k' k then d' else (k', v') :: fd_del k d'
  end.

Definition fd_keys (d : fdict) : list Q := map fst d.

Definition fd_mem (k : Q) (d : fdict) : bool :=
  match fd_get k d with Some _ => true | None => false end.

Definition fd_map (f : V -> V) (d : fdict) : fdict :=
  map (fun kv => (fst kv, f (snd kv))) d.

(** The keys of a dict are pairwise different floats. *)
Fixpoint fd_wf (d : fdict) : bool :=
  match d with
  | [] => true
  | (k, _) :: d' => negb (fd_mem k d') && fd_wf d'
  end.
End FloatDict.
Arguments fdict V : clear implicits.

(** ** Data model *)

(** Callables are compared by [==] in the source, which for functions and
    [functools.partial] objects is identity: a partial carries the object
    identity [oid] it was allocated with.  [CbPartial] is the wrapper built
    by [add_switch_handler], [CbWait] is
    [partial(self._wait_handler, ms=, _future=, switch_name=)]. *)
Inductive Callback : Type :=
  | CbUser (id : nat)
  | CbPartial (oid : nat) (inner : Callback)
      (info : option (string * Z * Z)) (kwargs : list (string * string))
  | CbWait (oid : nat) (future : nat) (ms : Z) (switch_name : string).

Record MonitoredSwitchChange : Type := mkMonitoredSwitchChange {
  msc_name : string;
  msc_label : string;
  msc_platform : string;
  msc_num : string;
  msc_state : Z
}.

Record SwitchHandler : Type := mkSwitchHandler {
  sh_switch_name : string;
  sh_callback : Callback;
  sh_state : Z;
  sh_ms : Z
}.

Record RegisteredSwitch : Type := mkRegisteredSwitch {
  rs_ms : Z;
  rs_callback : Callback
}.

Record SwitchState : Type := mkSwitchState {
  ss_state : Z;
  ss_time : Q
}.

Record TimedSwitchHandler : Type := mkTimedSwitchHandler {
  tsh_callback : Callback;
  tsh_switch_name : string;
  tsh_state : Z;
  tsh_ms : Z
}.

#[global] Instance Callback_eq_dec : EqDecision Callback.
Proof. solve_decision. Defined.
#[global] Instance RegisteredSwitch_eq_dec : EqDecision RegisteredSwitch.
Proof. solve_decision. Defined.
#[global] Instance TimedSwitchHandler_eq_dec : EqDecision TimedSwitchHandler.
Proof. solve_decision. Defined.
#[global] Instance SwitchHandler_eq_dec : EqDecision SwitchHandler.
Proof. solve_decision. Defined.

(** Modelled from the spec: the switch device ([mpf.devices.switch.Switch]),
    with the attributes the controller reads and writes.  A platform handle is known by the string
    [str(platform)]; a hardware number by [str(number)]. *)
Record Switch : Type := mkSwitch {
  sw_name : string;
  sw_label : string;
  sw_platform : string;
  sw_number : string;
  sw_invert : bool;
  sw_state : Z;
  sw_hw_state : Z;
  sw_recycle_secs : Q;
  sw_recycle_clear_time : Q;
  sw_recycle_jitter_count : Z
}.

Definition with_state (v : Z) (o : Switch) : Switch :=
  mkSwitch (sw_name o) (sw_label o) (sw_platform o) (sw_number o)
    (sw_invert o) v (sw_hw_state o) (sw_recycle_secs o)
    (sw_recycle_clear_time o) (sw_recycle_jitter_count o).

Definition with_hw_state (v : Z) (o : Switch) : Switch :=
  mkSwitch (sw_name o) (sw_label o) (sw_platform o) (sw_number o)
    (sw_invert o) (sw_state o) v (sw_recycle_secs o)
    (sw_recycle_clear_time o) (sw_recycle_jitter_count o).

Definition with_recycle_clear_time (v : Q) (o : Switch) : Switch :=
  mkSwitch (sw_name o) (sw_label o) (sw_platform o) (sw_number o)
    (sw_invert o) (sw_state o) (sw_hw_state o) (sw_recycle_secs o)
    v (sw_recycle_jitter_count o).

Definition with_recycle_jitter_count (v : Z) (o : Switch) : Switch :=
  mkSwitch (sw_name o) (sw_label o) (sw_platform o) (sw_number o)
    (sw_invert o) (sw_state o) (sw_hw_state o) (sw_recycle_secs o)
    (sw_recycle_clear_time o) v.

(** What a one-shot timer of the clock runs when it fires:
    [self._process_active_timed_switches] or
    [partial(self._recycle_passed, obj, state, logical, hw_state)]. *)
Inductive TimerAction : Type :=
  | TimedWake
  | RecyclePassed (obj : nat) (state : Z) (logical : bool) (hw_state : Z).

Record Timer : Type := mkTimer {
  t_handle : nat;
  t_deadline : Q;
  t_action : TimerAction
}.

(** [asyncio.Future]: its state and its done-callbacks; a done-callback is
    [partial(self._future_done, handlers)], kept as the reference of the
    shared [handlers] list. *)
Record WaitResult : Type := mkWaitResult {
  wr_switch_name : string;
  wr_state : option Z;
  wr_ms : Z
}.

Inductive FutureState : Type :=
  | FutPending
  | FutResult (r : WaitResult)
  | FutCancelled.

Record Future : Type := mkFuture {
  fut_state : FutureState;
  fut_callbacks : list nat
}.

(** The controller together with the objects it shares with the machine. *)
Record World : Type := mkWorld {
  clock_time : Q;
  clock_timers : list Timer;
  clock_next_handle : nat;
  machine_switches : list Switch;
  registered_switches : gmap string (list RegisteredSwitch);
  timed_switch_handler_delay : option nat;
  active_timed_switches : fdict (list TimedSwitchHandler);
  switches : gmap string SwitchState;
  monitors : list nat;
  futures : list Future;
  handler_lists : list (list SwitchHandler);
  loop_ready : list (nat * nat);
  next_oid : nat
}.

Definition set_clock_time (t : Q) (w : World) : World :=
  mkWorld t (clock_timers w) (clock_next_handle w) (machine_switches w)
    (registered_switches w) (timed_switch_handler_delay w)
    (active_timed_switches w) (switches w) (monitors w) (futures w)
    (handler_lists w) (loop_ready w) (next_oid w).

Definition set_clock_timers (ts : list Timer) (w : World) : World :=
  mkWorld (clock_time w) ts (clock_next_handle w) (machine_switches w)
    (registered_switches w) (timed_switch_handler_delay w)
    (active_timed_switches w) (switches w) (monitors w) (futures w)
    (handler_lists w) (loop_ready w) (next_oid w).

Definition set_clock_next_handle (h : nat) (w : World) : World :=
  mkWorld (clock_time w) (clock_timers w) h (machine_switches w)
    (registered_switches w) (timed_switch_handler_delay w)
    (active_timed_switches w) (switches w) (monitors w) (futures w)
    (handler_lists w) (loop_ready w) (next_oid w).

Definition set_machine_switches (d : list Switch) (w : World) : World :=
  mkWorld (clock_time w) (clock_timers w) (clock_next_handle w) d
    (registered_switches w) (timed_switch_handler_delay w)
    (active_timed_switches w) (switches w) (monitors w) (futures w)
    (handler_lists w) (loop_ready w) (next_oid w).

Definition set_registered_switches
    (r : gmap string (list RegisteredSwitch)) (w : World) : World :=
  mkWorld (clock_time w) (clock_timers w) (clock_next_handle w)
    (machine_switches w) r (timed_switch_handler_delay w)
    (active_timed_switches w) (switches w) (monitors w) (futures w)
    (handler_lists w) (loop_ready w) (next_oid w).

Definition set_timed_switch_handler_delay (h : option nat) (w : World) : World :=
  mkWorld (clock_time w) (clock_timers w) (clock_next_handle w)
    (machine_switches w) (registered_switches w) h
    (active_timed_switches w) (switches w) (monitors w) (futures w)
    (handler_lists w) (loop_ready w) (next_oid w).

Definition set_active_timed_switches
    (a : fdict (list TimedSwitchHandler)) (w : World) : World :=
  mkWorld (clock_time w) (clock_timers w) (clock_next_handle w)
    (machine_switches w) (registered_switches w) (timed_switch_handler_delay w)
    a (switches w) (monitors w) (futures w)
    (handler_lists w) (loop_ready w) (next_oid w).

Definition set_switches (s : gmap string SwitchState) (w : World) : World :=
  mkWorld (clock_time w) (clock_timers w) (clock_next_handle w)
    (machine_switches w) (registered_switches w) (timed_switch_handler_delay w)
    (active_timed_switches w) s (monitors w) (futures w)
    (handler_lists w) (loop_ready w) (next_oid w).

Definition set_monitors (m : list nat) (w : World) : World :=
  mkWorld (clock_time w) (clock_timers w) (clock_next_handle w)
    (machine_switches w) (registered_switches w) (timed_switch_handler_delay w)
    (active_timed_switches w) (switches w) m (futures w)
    (handler_lists w) (loop_ready w) (next_oid w).

Definition set_futures (f : list Future) (w : World) : World :=
  mkWorld (clock_time w) (clock_timers w) (clock_next_handle w)
    (machine_switches w) (registered_switches w) (timed_switch_handler_delay w)
    (active_timed_switches w) (switches w) (monitors w) f
    (handler_lists w) (loop_ready w) (next_oid w).

Definition set_handler_lists (h : list (list SwitchHandler)) (w : World) : World :=
  mkWorld (clock_time w) (clock_timers w) (clock_next_handle w)
    (machine_switches w) (registered_switches w) (timed_switch_handler_delay w)
    (active_timed_switches w) (switches w) (monitors w) (futures w)
    h (loop_ready w) (next_oid w).

Definition set_loop_ready (r : list (nat * nat)) (w : World) : World :=
  mkWorld (clock_time w) (clock_timers w) (clock_next_handle w)
    (machine_switches w) (registered_switches w) (timed_switch_handler_delay w)
    (active_timed_switches w) (switches w) (monitors w) (futures w)
    (handler_lists w) r (next_oid w).

Definition set_next_oid (n : nat) (w : World) : World :=
  mkWorld (clock_time w) (clock_timers w) (clock_next_handle w)
    (machine_switches w) (registered_switches w) (timed_switch_handler_delay w)
    (active_timed_switches w) (switches w) (monitors w) (futures w)
    (handler_lists w) (loop_ready w) n.

(** Code outside the controller: the callables registered as handlers, the
    monitors, the pump of the event bus, and the class behind
    [asyncio.Future].  The pure-Python [Future] takes the argument of
    [set_result] by keyword; the C-accelerated class that CPython installs
    from 3.6 on takes it by position only and answers a keyword call with
    [TypeError]. *)
Class Environment : Type := {
  run_user : Callback -> World -> result World;
  run_monitor : nat -> MonitoredSwitchChange -> World -> result World;
  process_event_queue : World -> result World;
  set_result_by_keyword : bool
}.

(** ** The clock and the event loop *)

(** Modelled from the spec: [clock.get_time()] of [mpf.core.clock], the
    current reading in seconds; it does not move during a call of the
    controller. *)
Definition get_time (w : World) : Q := clock_time w.

(** Modelled from the spec: [clock.schedule_once(callback, timeout)] of
    [mpf.core.clock] returns a fresh handle; the timer is kept with the
    absolute time at which it fires. *)
Definition schedule_once (act : TimerAction) (timeout : Q) (w : World)
    : nat * World :=
  let h := clock_next_handle w in
  (h, set_clock_next_handle (S h)
        (set_clock_timers
           (clock_timers w ++ [mkTimer h (get_time w + timeout) act]) w)).

(** Modelled from the spec: [clock.unschedule(handle)] of [mpf.core.clock]
    cancels the timer; cancelling a spent or unknown handle does nothing. *)
Definition unschedule (h : nat) (w : World) : World :=
  set_clock_timers
    (filter (fun t => t_handle t ≠ h) (clock_timers w)) w.

(** [asyncio.Future]: [set_result] and [cancel] do not run the
    done-callbacks, they queue them on the loop ([call_soon]). *)
Definition get_future (f : nat) (w : World) : result Future :=
  match futures w !! f with
  | Some fu => Ok fu
  | None => Raise KeyError
  end.

Definition future_done (f : nat) (w : World) : result bool :=
  fu <- get_future f w ;;
  Ok (match fut_state fu with FutPending => false | _ => true end).

(** The state becomes [st] and the done-callbacks move to the loop. *)
Definition future_finish (f : nat) (st : FutureState) (fu : Future)
    (w : World) : World :=
  set_loop_ready (loop_ready w ++ map (fun h => (h, f)) (fut_callbacks fu))
    (set_futures (<[f := mkFuture st []]> (futures w)) w).

Definition future_set_result (f : nat) (r : WaitResult) (w : World)
    : result World :=
  fu <- get_future f w ;;
  match fut_state fu with
  | FutPending => Ok (future_finish f (FutResult r) fu w)
  | _ => Raise InvalidStateError
  end.

Definition future_cancel (f : nat) (w : World) : result World :=
  fu <- get_future f w ;;
  match fut_state fu with
  | FutPending => Ok (future_finish f FutCancelled fu w)
  | _ => Ok w
  end.

Definition future_add_done_callback (f : nat) (href : nat) (w : World)
    : result World :=
  fu <- get_future f w ;;
  match fut_state fu with
  | FutPending =>
      Ok (set_futures
            (<[f := mkFuture FutPending (fut_callbacks fu ++ [href])]>
               (futures w)) w)
  | _ => Ok (set_loop_ready (loop_ready w ++ [(href, f)]) w)
  end.

(** ** Loops over a list that is mutated while it is iterated

    A Python list iterator keeps an index; deleting the element just
    yielded moves its successor into that index, and the iterator steps
    past it.  [fuel] is the length of the list at loop entry, which the
    loop cannot exceed. *)

(** [for i, x in enumerate(l): if p x: del l[i]] *)
Fixpoint enumerate_del {A : Type} (p : A -> bool) (fuel i : nat) (l : list A)
    : list A :=
  match fuel with
  | O => l
  | S fuel' =>
      match l !! i with
      | None => l
      | Some x =>
          if p x then enumerate_del p fuel' (S i) (delete i l)
          else enumerate_del p fuel' (S i) l
      end
  end.

(** [l.remove(x)]: deletes the first element equal to [x]. *)
Fixpoint py_remove {A : Type} `{EqDecision A} (x : A) (l : list A) : list A :=
  match l with
  | [] => []
  | y :: l' => if bool_decide (y = x) then l' else y :: py_remove x l'
  end.

(** [for _, x in enumerate(l): if p x: l.remove(x)] *)
Fixpoint enumerate_remove {A : Type} `{EqDecision A} (p : A -> bool)
    (fuel i : nat) (l : list A) : list A :=
  match fuel with
  | O => l
  | S fuel' =>
      match l !! i with
      | None => l
      | Some x =>
          if p x then enumerate_remove p fuel' (S i) (py_remove x l)
          else enumerate_remove p fuel' (S i) l
      end
  end.

(** What the enumerate-and-delete loop computes, by recursion on the
    list: after a deleted element its successor is stepped over. *)
Fixpoint sweep {A : Type} (p : A -> bool) (l : list A) : list A :=
  match l with
  | [] => []
  | x :: l' =>
      if p x
      then match l' with
           | [] => []
           | y :: l'' => y :: sweep p l''
           end
      else x :: sweep p l'
  end.

(** No two neighbours of the list satisfy [p]. *)
Fixpoint no_adjacent {A : Type} (p : A -> bool) (l : list A) : bool :=
  match l with
  | [] => true
  | x :: l' =>
      match l' with
      | [] => true
      | y :: _ => negb (p x && p y) && no_adjacent p l'
      end
  end.

(** ** The switch controller *)

Definition lookup_switch (switch_name : string) (w : World)
    : result SwitchState :=
  match switches w !! lower switch_name with
  | Some s => Ok s
  | None => Raise KeyError
  end.

Definition lookup_registered (key : string) (w : World)
    : result (list RegisteredSwitch) :=
  match registered_switches w !! lower key with
  | Some l => Ok l
  | None => Raise KeyError
  end.

(** A device is referred to by its position in [machine.switches]. *)
Definition get_obj (obj : nat) (w : World) : result Switch :=
  match machine_switches w !! obj with
  | Some o => Ok o
  | None => Raise KeyError
  end.

Definition set_obj (obj : nat) (o : Switch) (w : World) : World :=
  set_machine_switches (<[obj := o]> (machine_switches w)) w.

(** Modelled from the spec: [self.machine.switches[name]], the device
    collection of the machine, compares names case-insensitively. *)
Fixpoint find_switch_from (i : nat) (name : string) (l : list Switch)
    : option nat :=
  match l with
  | [] => None
  | o :: l' =>
      if String.eqb (lower (sw_name o)) (lower name) then Some i
      else find_switch_from (S i) name l'
  end.

Definition find_switch (name : string) (w : World) : option nat :=
  find_switch_from 0 name (machine_switches w).

Definition switch_key (switch_name : string) (state : Z) : string :=
  (switch_name ++ "-" ++ str_int state)%string.

Definition set_state (switch_name : string) (state : Z) (reset_time : bool)
    (w : World) : World :=
  let timestamp := if reset_time then (-100000)%Q else get_time w in
  set_switches
    (<[lower switch_name := mkSwitchState state timestamp]> (switches w)) w.

Definition register_switch (name : string) (w : World) : World :=
  let w := set_registered_switches
             (<[lower (name ++ "-0") := []]> (registered_switches w)) w in
  let w := set_registered_switches
             (<[lower (name ++ "-1") := []]> (registered_switches w)) w in
  set_state name 0 true w.

Definition ms_since_change (switch_name : string) (w : World) : result Z :=
  s <- lookup_switch switch_name w ;;
  Ok (py_round ((get_time w - ss_time s) * 1000)).

Definition is_state (switch_name : string) (state : Z) (ms : option Z)
    (w : World) : result bool :=
  let ms := match ms with
            | Some m => if truthy m then m else 0
            | None => 0
            end in
  s <- lookup_switch switch_name w ;;
  if ss_state s =? state
  then (m <- ms_since_change switch_name w ;; Ok (ms <=? m))
  else Ok false.

Definition is_active (switch_name : string) (ms : option Z) (w : World)
    : result bool :=
  is_state switch_name 1 ms w.

Definition is_inactive (switch_name : string) (ms : option Z) (w : World)
    : result bool :=
  is_state switch_name 0 ms w.

Definition get_next_timed_switch_event (w : World) : result Q :=
  match py_min (fd_keys (active_timed_switches w)) with
  | None => Raise AssertionError
  | Some t => Ok t
  end.

Definition _add_timed_switch_handler (time : Q)
    (timed_switch_handler : TimedSwitchHandler) (w : World) : result World :=
  let bucket := default [] (fd_get time (active_timed_switches w)) in
  let w := set_active_timed_switches
             (fd_set time (bucket ++ [timed_switch_handler])
                (active_timed_switches w)) w in
  let w := match timed_switch_handler_delay w with
           | Some h => unschedule h w
           | None => w
           end in
  next <- get_next_timed_switch_event w ;;
  let '(h, w) := schedule_once TimedWake (next - get_time w) w in
  Ok (set_timed_switch_handler_delay (Some h) w).

Definition _check_recycle_time (obj : nat) (state : Z) (w : World)
    : result (bool * World) :=
  switch <- get_obj obj w ;;
  if Qle_bool (sw_recycle_clear_time switch) (get_time w) then Ok (true, w)
  else if truthy state
  then Ok (false,
           set_obj obj
             (with_recycle_jitter_count (sw_recycle_jitter_count switch + 1)
                switch) w)
  else Ok (false, w).

(** The pendings of one bucket that [_cancel_timed_handlers] deletes: the
    bucket is enumerated while entries are deleted from it by index.  The
    inner guard reads the bucket and the entry back from the dict; a
    [TimedSwitchHandler] tuple is never falsy. *)
Definition cancels (name : string) (state : Z) (item : TimedSwitchHandler)
    : bool :=
  String.eqb (tsh_switch_name item) name && (tsh_state item =? Z.lxor state 1).

Fixpoint cancel_bucket (name : string) (state : Z) (fuel k2 : nat)
    (v : list TimedSwitchHandler) : list TimedSwitchHandler :=
  match fuel with
  | O => v
  | S fuel' =>
      match v !! k2 with
      | None => v
      | Some item =>
          if cancels name state item
          then if negb (bool_decide (v = [])) && bool_decide (is_Some (v !! k2))
               then cancel_bucket name state fuel' (S k2) (delete k2 v)
               else cancel_bucket name state fuel' (S k2) v
          else cancel_bucket name state fuel' (S k2) v
      end
  end.

Definition _cancel_timed_handlers (name : string) (state : Z) (w : World)
    : World :=
  fold_left
    (fun w k =>
       let v := default [] (fd_get k (active_timed_switches w)) in
       set_active_timed_switches
         (fd_set k (cancel_bucket name state (length v) 0 v)
            (active_timed_switches w)) w)
    (fd_keys (active_timed_switches w)) w.

Definition add_monitor (monitor : nat) (w : World) : World :=
  if bool_decide (monitor ∈ monitors w) then w
  else set_monitors (monitors w ++ [monitor]) w.

Definition remove_monitor (monitor : nat) (w : World) : World :=
  if bool_decide (monitor ∈ monitors w)
  then set_monitors (py_remove monitor (monitors w)) w
  else w.

Definition remove_switch_handler (switch_name : string) (callback : Callback)
    (state : Z) (ms : Z) (w : World) : World :=
  let entry_key := switch_key switch_name state in
  let w :=
    match registered_switches w !! lower entry_key with
    | Some l =>
        set_registered_switches
          (<[lower entry_key :=
               enumerate_remove
                 (fun settings =>
                    (rs_ms settings =? ms)
                    && bool_decide (rs_callback settings = callback))
                 (length l) 0 l]> (registered_switches w)) w
    | None => w
    end in
  fold_left
    (fun w k =>
       let timed_entry := default [] (fd_get k (active_timed_switches w)) in
       set_active_timed_switches
         (fd_set k
            (enumerate_del
               (fun entry =>
                  String.eqb (tsh_switch_name entry) switch_name
                  && (tsh_state entry =? state)
                  && (tsh_ms entry =? ms)
                  && bool_decide (tsh_callback entry = callback))
               (length timed_entry) 0 timed_entry)
            (active_timed_switches w)) w)
    (fd_keys (active_timed_switches w)) w.

Definition remove_switch_handler_by_key (switch_handler : SwitchHandler)
    (w : World) : World :=
  remove_switch_handler (sh_switch_name switch_handler)
    (sh_callback switch_handler) (sh_state switch_handler)
    (sh_ms switch_handler) w.

Definition _future_done (handlers : nat) (w : World) : result World :=
  match handler_lists w !! handlers with
  | Some hs =>
      Ok (fold_left (fun w handler => remove_switch_handler_by_key handler w)
            hs w)
  | None => Raise KeyError
  end.

(** [_future.set_result(result=kwargs)]: the result is passed by keyword. *)
Definition _wait_handler `{Environment} (_future : nat) (ms : Z)
    (switch_name : string) (w : World) : result World :=
  d <- future_done _future w ;;
  if negb d
  then
    if set_result_by_keyword
    then future_set_result _future (mkWaitResult switch_name None ms) w
    else Raise TypeError
  else Ok w.

Definition add_switch_handler (switch_name : string) (callback : Callback)
    (state : Z) (ms : Z) (return_info : bool)
    (callback_kwargs : list (string * string)) (w : World)
    : result (SwitchHandler * World) :=
  let has_kwargs := negb (bool_decide (callback_kwargs = [])) in
  let '(callback, w) :=
    if has_kwargs && return_info
    then (CbPartial (next_oid w) callback (Some (switch_name, state, ms))
            callback_kwargs, set_next_oid (S (next_oid w)) w)
    else if return_info
    then (CbPartial (next_oid w) callback (Some (switch_name, state, ms)) [],
          set_next_oid (S (next_oid w)) w)
    else if has_kwargs
    then (CbPartial (next_oid w) callback None callback_kwargs,
          set_next_oid (S (next_oid w)) w)
    else (callback, w) in
  let entry_val := mkRegisteredSwitch ms callback in
  let entry_key := switch_key switch_name state in
  l <- lookup_registered entry_key w ;;
  let w := set_registered_switches
             (<[lower entry_key := l ++ [entry_val]]> (registered_switches w))
             w in
  w <- (if truthy ms
        then
          since <- ms_since_change switch_name w ;;
          if since <? ms
          then
            in_state <-
              (a <- (if state =? 1 then is_active switch_name (Some 0) w
                     else Ok false) ;;
               if a then Ok true
               else if state =? 0 then is_inactive switch_name (Some 0) w
               else Ok false) ;;
            if in_state
            then
              since <- ms_since_change switch_name w ;;
              let key := (get_time w + inject_Z (ms - since) / 1000)%Q in
              let value := mkTimedSwitchHandler callback switch_name state ms in
              _add_timed_switch_handler key value w
            else Ok w
          else Ok w
        else Ok w) ;;
  Ok (mkSwitchHandler switch_name callback state ms, w).

Section WithEnvironment.
Context `{Environment}.

(** [entry.callback()] *)
Definition run_callback (callback : Callback) (w : World) : result World :=
  match callback with
  | CbWait _ _future ms switch_name => _wait_handler _future ms switch_name w
  | _ => run_user callback w
  end.

Fixpoint call_handlers_loop (name : string) (state : Z)
    (entries : list RegisteredSwitch) (w : World) : result World :=
  match entries with
  | [] => Ok w
  | entry :: entries' =>
      live <- lookup_registered (switch_key name state) w ;;
      if negb (bool_decide (entry ∈ live))
      then call_handlers_loop name state entries' w
      else if truthy (rs_ms entry)
      then
        let key := (get_time w + inject_Z (rs_ms entry) / 1000)%Q in
        let value :=
          mkTimedSwitchHandler (rs_callback entry) name state (rs_ms entry) in
        w <- _add_timed_switch_handler key value w ;;
        call_handlers_loop name state entries' w
      else
        w <- run_callback (rs_callback entry) w ;;
        call_handlers_loop name state entries' w
  end.

Definition _call_handlers (name : string) (state : Z) (w : World)
    : result World :=
  match registered_switches w !! lower (switch_key name state) with
  | Some entries => call_handlers_loop name state entries w
  | None => Ok w
  end.

(** [for monitor in self.monitors: monitor(MonitoredSwitchChange(...))]:
    the list is read back at every step and the record is built afresh for
    every monitor; the monitors may grow the list, so the loop is bounded
    by [fuel]. *)
Fixpoint notify_monitors (fuel i : nat)
    (change : World -> result MonitoredSwitchChange) (w : World)
    : result World :=
  match monitors w !! i with
  | None => Ok w
  | Some monitor =>
      match fuel with
      | O => Raise OutOfFuel
      | S fuel' =>
          c <- change w ;;
          w <- run_monitor monitor c w ;;
          notify_monitors fuel' (S i) change w
      end
  end.

(** The record that [process_switch_obj] hands to the monitors. *)
Definition change_of (obj : nat) (state : Z) (w : World)
    : result MonitoredSwitchChange :=
  o <- get_obj obj w ;;
  Ok (mkMonitoredSwitchChange (sw_name o) (sw_label o) (sw_platform o)
        (sw_number o) state).

(** Lines 274-289: the logical state and the level on the wire. *)
Definition normalize (invert : bool) (state : Z) (logical : bool) : Z * Z :=
  let state := if truthy state then 1 else 0 in
  let hw_state := state in
  if invert
  then if logical then (state, Z.lxor hw_state 1)
       else (Z.lxor state 1, hw_state)
  else (state, hw_state).

Definition process_switch_obj (fuel : nat) (obj : nat) (state : Z)
    (logical : bool) (w : World) : result World :=
  o <- get_obj obj w ;;
  let '(state, hw_state) := normalize (sw_invert o) state logical in
  let w := set_obj obj (with_hw_state hw_state o) w in
  checked <- (if truthy state then _check_recycle_time obj state w
              else Ok (true, w)) ;;
  let '(passed, w) := checked in
  if truthy state && negb passed
  then
    o <- get_obj obj w ;;
    let '(_, w) :=
      schedule_once (RecyclePassed obj state logical (sw_hw_state o))
        (sw_recycle_clear_time o - get_time w) w in
    Ok w
  else
    o <- get_obj obj w ;;
    let w := set_obj obj (with_state state o) w in
    o <- get_obj obj w ;;
    let w := if truthy state
             then set_obj obj
                    (with_recycle_clear_time
                       (get_time w + sw_recycle_secs o) o) w
             else w in
    o <- get_obj obj w ;;
    s <- lookup_switch (sw_name o) w ;;
    if ss_state s =? state then Ok w
    else
      let w := set_state (sw_name o) state false w in
      w <- _call_handlers (sw_name o) state w ;;
      let w := _cancel_timed_handlers (sw_name o) state w in
      notify_monitors fuel 0 (change_of obj state) w.

Definition process_switch (fuel : nat) (name : string) (state : Z)
    (logical : bool) (w : World) : result World :=
  match find_switch name w with
  | Some obj => process_switch_obj fuel obj state logical w
  | None => Raise AssertionError
  end.

Definition _recycle_passed (fuel : nat) (obj : nat) (state : Z)
    (logical : bool) (hw_state : Z) (w : World) : result World :=
  o <- get_obj obj w ;;
  if sw_hw_state o =? hw_state
  then process_switch fuel (sw_name o) state logical w
  else Ok w.

Fixpoint find_by_num (i : nat) (num : string) (platform : string)
    (l : list Switch) : option nat :=
  match l with
  | [] => None
  | switch :: l' =>
      if String.eqb (sw_number switch) num
         && String.eqb (sw_platform switch) platform
      then Some i
      else find_by_num (S i) num platform l'
  end.

Definition process_switch_by_num (fuel : nat) (num : string) (state : Z)
    (platform : string) (logical : bool) (w : World) : result World :=
  match find_by_num 0 num platform (machine_switches w) with
  | Some obj => process_switch_obj fuel obj state logical w
  | None =>
      notify_monitors fuel 0
        (fun _ =>
           Ok (mkMonitoredSwitchChange num (platform ++ "-" ++ num)
                 platform num state))
        w
  end.

(** Reading [self.active_timed_switches[k]] creates a missing bucket. *)
Definition touch_bucket (k : Q) (w : World)
    : list TimedSwitchHandler * World :=
  match fd_get k (active_timed_switches w) with
  | Some v => (v, w)
  | None =>
      ([], set_active_timed_switches
             (fd_set k [] (active_timed_switches w)) w)
  end.

Fixpoint fire_entries (k : Q) (entries : list TimedSwitchHandler)
    (w : World) : result World :=
  match entries with
  | [] => Ok w
  | entry :: entries' =>
      let '(live, w) := touch_bucket k w in
      if negb (bool_decide (entry ∈ live))
      then fire_entries k entries' w
      else
        w <- run_callback (tsh_callback entry) w ;;
        fire_entries k entries' w
  end.

(** The truth value of [next_event_time], which is [False] or a float. *)
Definition truthy_time (t : option Q) : bool :=
  match t with
  | Some q => negb (Qeq_bool q 0)
  | None => false
  end.

Fixpoint drain_keys (keys : list Q) (next_event_time : option Q)
    (w : World) : result (option Q * World) :=
  match keys with
  | [] => Ok (next_event_time, w)
  | k :: keys' =>
      if Qle_bool k (get_time w)
      then
        let '(entries, w) := touch_bucket k w in
        w <- fire_entries k entries w ;;
        if fd_mem k (active_timed_switches w)
        then drain_keys keys' next_event_time
               (set_active_timed_switches
                  (fd_del k (active_timed_switches w)) w)
        else Raise KeyError
      else
        let later :=
          match next_event_time with
          | Some t => if Qlt_le_dec k t then true else false
          | None => false
          end in
        if negb (truthy_time next_event_time) || later
        then drain_keys keys' (Some k) w
        else drain_keys keys' next_event_time w
  end.

Definition _process_active_timed_switches (w : World) : result World :=
  drained <- drain_keys (fd_keys (active_timed_switches w)) None w ;;
  let '(next_event_time, w) := drained in
  w <- process_event_queue w ;;
  if truthy_time next_event_time
  then
    let w := match timed_switch_handler_delay w with
             | Some h => unschedule h w
             | None => w
             end in
    let '(h, w) :=
      schedule_once TimedWake
        (default 0%Q next_event_time - get_time w) w in
    Ok (set_timed_switch_handler_delay (Some h) w)
  else Ok w.
End WithEnvironment.

(** The wait primitive.  [handlers] is one list object, shared by the
    done-callback (registered first) and the loop that appends to it. *)

Fixpoint first_in_state (switch_names : list string) (state : Z) (ms : Z)
    (w : World) : result (option string) :=
  match switch_names with
  | [] => Ok None
  | switch_name :: switch_names' =>
      b <- is_state switch_name state (Some ms) w ;;
      if b then Ok (Some switch_name)
      else first_in_state switch_names' state ms w
  end.

Fixpoint add_wait_handlers (handlers future : nat) (switch_names : list string)
    (state : Z) (ms : Z) (w : World) : result World :=
  match switch_names with
  | [] => Ok w
  | switch_name :: switch_names' =>
      let callback := CbWait (next_oid w) future ms switch_name in
      let w := set_next_oid (S (next_oid w)) w in
      added <- add_switch_handler switch_name callback state ms false [] w ;;
      let '(handler, w) := added in
      let w := set_handler_lists
                 (alter (fun l => l ++ [handler]) handlers (handler_lists w))
                 w in
      add_wait_handlers handlers future switch_names' state ms w
  end.

Definition wait_for_any_switch (switch_names : list string) (state : Z)
    (only_on_change : bool) (ms : Z) (w : World) : result (nat * World) :=
  let future := length (futures w) in
  let w := set_futures (futures w ++ [mkFuture FutPending []]) w in
  hit <- (if negb only_on_change
          then first_in_state switch_names state ms w
          else Ok None) ;;
  match hit with
  | Some switch_name =>
      w <- future_set_result future
             (mkWaitResult switch_name (Some state) ms) w ;;
      Ok (future, w)
  | None =>
      let handlers := length (handler_lists w) in
      let w := set_handler_lists (handler_lists w ++ [[]]) w in
      w <- future_add_done_callback future handlers w ;;
      w <- add_wait_handlers handlers future switch_names state ms w ;;
      Ok (future, w)
  end.

Definition wait_for_switch (switch_name : string) (state : Z)
    (only_on_change : bool) (ms : Z) (w : World) : result (nat * World) :=
  wait_for_any_switch [switch_name] state only_on_change ms w.

(** The transient handler of a listed switch: the key returned for a
    fresh [_wait_handler] partial bound to the future and the switch. *)
Definition transient_for (future : nat) (state ms : Z)
    (handler : SwitchHandler) (switch_name : string) : Prop :=
  exists oid,
    handler = mkSwitchHandler switch_name
                (CbWait oid future ms switch_name) state ms.

(** One turn of the event loop: the oldest queued done-callback runs. *)
Definition run_ready (w : World) : result World :=
  match loop_ready w with
  | [] => Ok w
  | (handlers, _) :: ready' => _future_done handlers (set_loop_ready ready' w)
  end.

(** The clock fires the timer [h], which is spent. *)
Definition fire_timer `{Environment} (fuel : nat) (h : nat) (w : World)
    : result World :=
  match list_find (fun t => t_handle t = h) (clock_timers w) with
  | None => Ok w
  | Some (_, t) =>
      let w := unschedule h w in
      match t_action t with
      | TimedWake => _process_active_timed_switches w
      | RecyclePassed obj state logical hw_state =>
          _recycle_passed fuel obj state logical hw_state w
      end
  end.

(** The controller of a machine whose devices are [devices], at time [t],
    after [register_switch] has run for each device. *)
Definition empty_world (t : Q) : World :=
  mkWorld t [] 0%nat [] ∅ None [] ∅ [] [] [] [] 0%nat.

Definition new_switch (name : string) (number : string) (invert : bool)
    (recycle_secs : Q) : Switch :=
  mkSwitch name name "p" number invert 0 0 recycle_secs 0 0.

Definition init_world (t : Q) (devices : list Switch) : World :=
  fold_left (fun w o => register_switch (sw_name o) w) devices
    (set_machine_switches devices (empty_world t)).

(** An environment whose handlers, monitors and event pump do nothing,
    with the pure-Python [Future]. *)
Definition quiet : Environment :=
  {| run_user := fun _ w => Ok w;
     run_monitor := fun _ _ w => Ok w;
     process_event_queue := fun w => Ok w;
     set_result_by_keyword := true |}.

Definition unwrap (r : result World) (w : World) : World :=
  match r with Ok w' => w' | Raise _ => w end.

(** ** The wake timer of the timed queue *)

#[global] Instance TimerAction_eq_dec : EqDecision TimerAction.
Proof. solve_decision. Defined.



(** ** Frame conditions

    Handlers and monitors are arbitrary code; a statement about what the
    controller leaves behind names the observation [proj] of the world that
    they are assumed not to change. *)

Definition env_preserves `{Environment} {B : Type} (proj : World -> B) : Prop :=
  (forall callback w w', run_user callback w = Ok w' -> proj w' = proj w)
  /\ (forall monitor change w w',
        run_monitor monitor change w = Ok w' -> proj w' = proj w).

(** An observation that does not read the timed queue, the timers or the
    futures. *)
Definition untouched_by_queue {B : Type} (proj : World -> B) : Prop :=
  (forall a w, proj (set_active_timed_switches a w) = proj w)
  /\ (forall a w, proj (set_clock_timers a w) = proj w)
  /\ (forall a w, proj (set_clock_next_handle a w) = proj w)
  /\ (forall a w, proj (set_timed_switch_handler_delay a w) = proj w)
  /\ (forall a w, proj (set_futures a w) = proj w)
  /\ (forall a w, proj (set_loop_ready a w) = proj w).

(** The device after a call that the recycle gate let through. *)
Definition accepted_device (st hw : Z) (now : Q) (o : Switch) : Switch :=
  let o := with_state st (with_hw_state hw o) in
  if truthy st
  then with_recycle_clear_time (now + sw_recycle_secs o) o
  else o.

(** ** Scenarios *)

Definition after {A : Type} (r : result (A * World)) : result World :=
  x <- r ;; Ok (snd x).

(** One switch [s], known since time 0. *)
Definition one_switch : World := init_world 0 [new_switch "s" "1" false 0].

(** Three handlers registered with the same callback, state and dwell. *)
Definition three_identical : result World :=
  w <- after (add_switch_handler "s" (CbUser 7) 1 0 false [] one_switch) ;;
  w <- after (add_switch_handler "s" (CbUser 7) 1 0 false [] w) ;;
  after (add_switch_handler "s" (CbUser 7) 1 0 false [] w).

(** Two handlers with different callbacks on the same switch and state. *)
Definition two_distinct : result World :=
  w <- after (add_switch_handler "s" (CbUser 7) 1 0 false [] one_switch) ;;
  after (add_switch_handler "s" (CbUser 8) 1 0 false [] w).

(** Switch [pop] with a recycle time of half a second, activated at time 0;
    the clock now reads 0.2 s, inside the recycle window. *)
Definition pop_in_window : World :=
  set_clock_time (1 # 5)
    (unwrap
       (process_switch (H := quiet) 1 "pop" 1 false
          (init_world 0 [new_switch "pop" "2" false (1 # 2)]))
       (empty_world 0)).

(** The same switch at 0.7 s, after the recycle window. *)
Definition pop_after_window : World := set_clock_time (7 # 10) pop_in_window.

(** Switch [slingshot] was activated at time 0; the clock now reads 0.1 s. *)
Definition slingshot_active : World :=
  set_clock_time (1 # 10)
    (unwrap
       (process_switch (H := quiet) 1 "slingshot" 1 false
          (init_world 0 [new_switch "slingshot" "3" false 0]))
       (empty_world 0)).

(** A normally-closed switch [tilt], at time 0. *)
Definition tilt_closed : World := init_world 0 [new_switch "tilt" "4" true 0].


(** Two handlers with a dwell of 100 ms watch switch [s] for state 0.  The
    switch is activated at time 0 and released at 1.0 s, which queues both
    pendings in the bucket of 1.1 s. *)
Definition two_dwell_watchers : result World :=
  w <- process_switch (H := quiet) 1 "s" 1 false one_switch ;;
  w <- after (add_switch_handler "s" (CbUser 1) 0 100 false [] w) ;;
  w <- after (add_switch_handler "s" (CbUser 2) 0 100 false [] w) ;;
  process_switch (H := quiet) 1 "s" 0 false (set_clock_time 1 w).

(** An environment in which the handler [CbUser 1] registers a handler
    with a dwell of 2 s on switch [s2]. *)
Definition joining : Environment :=
  {| run_user := fun callback w =>
       match callback with
       | CbUser 1 =>
           after (add_switch_handler "s2" (CbUser 9) 1 2000 false [] w)
       | _ => Ok w
       end;
     run_monitor := fun _ _ w => Ok w;
     process_event_queue := fun w => Ok w;
     set_result_by_keyword := true |}.

(** Switches [s], [s2] and [s3] are activated at time 0; [s] is watched
    with a dwell of 1 s by [CbUser 1], [s3] with a dwell of 5 s.  The clock
    now reads 1.0 s and the wake timer (handle 1) is due. *)
Definition wake_due : result World :=
  let w := init_world 0 [new_switch "s" "1" false 0;
                         new_switch "s2" "2" false 0;
                         new_switch "s3" "3" false 0] in
  w <- after (add_switch_handler "s" (CbUser 1) 1 1000 false [] w) ;;
  w <- after (add_switch_handler "s3" (CbUser 5) 1 5000 false [] w) ;;
  w <- process_switch (H := joining) 1 "s" 1 false w ;;
  w <- process_switch (H := joining) 1 "s2" 1 false w ;;
  w <- process_switch (H := joining) 1 "s3" 1 false w ;;
  Ok (set_clock_time 1 w).

(** [wait_for_any_switch(["a", "a"], state=1, ms=100)], after which switch
    [a] is activated, released and activated again within one clock
    reading. *)
Definition repeated_wait : result (nat * World) :=
  let w := init_world 0 [new_switch "a" "1" false 0] in
  waiting <- wait_for_any_switch ["a"; "a"] 1 true 100 w ;;
  let '(future, w) := waiting in
  w <- process_switch (H := quiet) 1 "a" 1 false w ;;
  w <- process_switch (H := quiet) 1 "a" 0 false w ;;
  w <- process_switch (H := quiet) 1 "a" 1 false w ;;
  Ok (future, w).

(** ** Synchronisation with the hardware *)

(** [platform.get_hw_switch_states()] for every platform: the raw level of
    each hardware number, as read when the controller asks. *)
Definition read_level (hw : string -> gmap string Z) (switch : Switch)
    : option Z :=
  hw (sw_platform switch) !! sw_number switch.

(** [switch.state = switch_states[number] ^ switch.invert]; a number that
    the platform does not report is an [AssertionError]. *)
Definition read_switch (hw : string -> gmap string Z) (switch : Switch)
    : result Switch :=
  match read_level hw switch with
  | Some level =>
      Ok (with_state (Z.lxor level (if sw_invert switch then 1 else 0)) switch)
  | None => Raise AssertionError
  end.

Fixpoint read_switches (hw : string -> gmap string Z) (l : list Switch)
    : result (list Switch) :=
  match l with
  | [] => Ok []
  | switch :: l' =>
      switch' <- read_switch hw switch ;;
      l'' <- read_switches hw l' ;;
      Ok (switch' :: l'')
  end.

(** Every switch is assigned once, from the states of its own platform,
    so the order in which the platforms are visited does not matter. *)
Definition update_switches_from_hw (hw : string -> gmap string Z) (w : World)
    : result World :=
  l <- read_switches hw (machine_switches w) ;;
  Ok (set_machine_switches l w).

(** [switch.state != current_states[switch]] for some switch. *)
Fixpoint states_match (l : list Switch) (current_states : list Z) : bool :=
  match l, current_states with
  | switch :: l', state :: states' =>
      (sw_state switch =? state) && states_match l' states'
  | _, _ => true
  end.

Definition verify_switches (hw : string -> gmap string Z) (w : World)
    : result (bool * World) :=
  let current_states := map sw_state (machine_switches w) in
  w <- update_switches_from_hw hw w ;;
  Ok (states_match (machine_switches w) current_states, w).

Definition _initialize_switches (hw : string -> gmap string Z) (w : World)
    : result World :=
  w <- update_switches_from_hw hw w ;;
  Ok (fold_left
        (fun w switch => set_state (sw_name switch) (sw_state switch) true w)
        (machine_switches w) w).

(** The state that the hardware gives a switch: the raw level of its
    number, inverted for a normally-closed switch. *)
Definition hw_logical (hw : string -> gmap string Z) (switch : Switch) : Z :=
  Z.lxor (default 0 (read_level hw switch))
    (if sw_invert switch then 1 else 0).

(** Scenarios: a platform [p] that reports numbers 4 (level 0) and 1
    (level 1), and a machine with the normally-closed [tilt] on number 4
    and the normally-open [s] on number 1. *)
Definition two_levels (platform : string) : gmap string Z :=
  if String.eqb platform "p" then {["4" := 0; "1" := 1]} else ∅.

Definition tilt_and_s : World :=
  init_world 0 [new_switch "tilt" "4" true 0; new_switch "s" "1" false 0].

(** The machine [tilt_and_s] after initialisation from [two_levels]. *)
Definition tilt_and_s_initialized : World :=
  unwrap (_initialize_switches two_levels tilt_and_s) (empty_world 0).

(** Switch [a] is inactive and switch [b] has been active since time 0;
    the clock reads 0.5 s. *)
Definition a_off_b_on : World :=
  set_clock_time (1 # 2)
    (unwrap
       (process_switch (H := quiet) 1 "b" 1 false
          (init_world 0 [new_switch "a" "1" false 0;
                         new_switch "b" "2" false 0]))
       (empty_world 0)).

(** The world of [wake_due]: buckets 1.0 and 5.0, wake timer due at 1.0. *)
Definition wake_due_world : World := unwrap wake_due (empty_world 0).

(** The pendings that [remove_switch_handler] deletes from a bucket. *)
Definition removes (switch_name : string) (callback : Callback)
    (state ms : Z) (entry : TimedSwitchHandler) : bool :=
  String.eqb (tsh_switch_name entry) switch_name
  && (tsh_state entry =? state)
  && (tsh_ms entry =? ms)
  && bool_decide (tsh_callback entry = callback).

(** The records that [remove_switch_handler] removes from a bucket. *)
Definition unregisters (callback : Callback) (ms : Z)
    (settings : RegisteredSwitch) : bool :=
  (rs_ms settings =? ms) && bool_decide (rs_callback settings = callback).

(** Switch [pop] (recycle time half a second) right after its activation
    at time 0 was accepted. *)
Definition pop_activated : World :=
  unwrap
    (process_switch (H := quiet) 1 "pop" 1 false
       (init_world 0 [new_switch "pop" "2" false (1 # 2)]))
    (empty_world 0).

(** The normally-closed [tilt], inactive in the store, at 1.0 s; the wire
    level recorded on the device is 0. *)
Definition tilt_retry_due : World :=
  set_clock_time 1 (init_world 0 [new_switch "tilt" "4" true 0]).





(** The bucket of a deadline that is still ahead at [now]. *)
Definition ahead (now : Q) (bucket : Q * list TimedSwitchHandler) : Prop :=
  Qle_bool (fst bucket) now = false.

#[global] Instance ahead_dec now bucket : Decision (ahead now bucket).
Proof. unfold ahead. apply _. Defined.


(** The quiet environment with the C-accelerated [Future]. *)
Definition accelerated : Environment :=
  {| run_user := fun _ w => Ok w;
     run_monitor := fun _ _ w => Ok w;
     process_event_queue := fun w => Ok w;
     set_result_by_keyword := false |}.

(** Every monitor of [ms] in turn is called with the record [change]; the
    first exception ends the round. *)
Fixpoint run_each `{Environment} (ms : list nat)
    (change : MonitoredSwitchChange) (w : World) : result World :=
  match ms with
  | [] => Ok w
  | monitor :: ms' =>
      w <- run_monitor monitor change w ;;
      run_each ms' change w
  end.

(** An environment whose monitors write the state they are shown into the
    store, under the label of the record. *)
Definition recording : Environment :=
  {| run_user := fun _ w => Ok w;
     run_monitor := fun _ change w =>
       Ok (set_state (msc_label change) (msc_state change) false w);
     process_event_queue := fun w => Ok w;
     set_result_by_keyword := true |}.

(** Switch [s] with one monitor registered. *)
Definition one_monitor : World := add_monitor 5 one_switch.

(** ** The clock arithmetic in binary64

    The same functions as above, over the part of the controller state
    that they read and write, with clock readings, time stamps and queue
    keys as IEEE-754 binary64 numbers ([SpecFloat], precision 53, maximal
    exponent 1024) and every sum, difference, product and quotient rounded
    to nearest, ties to even, as the Python float operations are. *)
Module Binary64.

Definition prec : Z := 53.
Definition emax : Z := 1024.

Definition float : Type := SpecFloat.spec_float.

Definition fadd : float -> float -> float := SpecFloat.SFadd prec emax.
Definition fsub : float -> float -> float := SpecFloat.SFsub prec emax.
Definition fmul : float -> float -> float := SpecFloat.SFmul prec emax.
Definition fdiv : float -> float -> float := SpecFloat.SFdiv prec emax.
Definition feqb : float -> float -> bool := SpecFloat.SFeqb.
Definition fltb : float -> float -> bool := SpecFloat.SFltb.
Definition fleb : float -> float -> bool := SpecFloat.SFleb.

(** The float nearest to an int. *)
Definition of_Z (n : Z) : float :=
  SpecFloat.binary_normalize prec emax n 0 false.

(** The conversion of an int operand of a float operation: an int beyond
    the range of the floats is an [OverflowError]. *)
Definition float_of_int (n : Z) : result float :=
  match of_Z n with
  | SpecFloat.S754_infinity _ => Raise OverflowError
  | x => Ok x
  end.

(** The literal [1000.0]. *)
Definition thousand : float := Eval vm_compute in of_Z 1000.

(** The float nearest to [num / den], for ints that are floats: the value
    of a decimal literal such as [0.1]. *)
Definition decimal (num den : Z) : float := fdiv (of_Z num) (of_Z den).

(** The number that a finite float stands for. *)
Definition finite_value (s : bool) (m : positive) (e : Z) : Q :=
  match e with
  | Zneg p => Qmake (SpecFloat.cond_Zopp s (Zpos m)) (2 ^ p)
  | _ => inject_Z (SpecFloat.cond_Zopp s (Zpos m) * 2 ^ e)
  end.

Definition value (x : float) : option Q :=
  match x with
  | SpecFloat.S754_zero _ => Some 0%Q
  | SpecFloat.S754_finite s m e => Some (finite_value s m e)
  | _ => None
  end.

(** [round(x, 0)]: the float of the integer nearest to [x], a tie going to
    the even one; the sign of a zero result is the sign of [x]; infinities
    and NaN come back as they are.  A float with a non-negative exponent
    is an integer already. *)
Definition round0 (x : float) : float :=
  match x with
  | SpecFloat.S754_finite s m e =>
      if 0 <=? e then x
      else SpecFloat.binary_normalize prec emax
             (py_round (finite_value s m e)) 0 s
  | _ => x
  end.

(** Python compares a float with an int by their exact values. *)
Definition compare_int (x : float) (n : Z) : option comparison :=
  match x with
  | SpecFloat.S754_nan => None
  | SpecFloat.S754_infinity s => Some (if s then Lt else Gt)
  | SpecFloat.S754_zero _ => Some (0 ?= n)
  | SpecFloat.S754_finite s m e =>
      Some (Qcompare (finite_value s m e) (inject_Z n))
  end.

(** [x < n] *)
Definition float_lt_int (x : float) (n : Z) : bool :=
  match compare_int x n with
  | Some Lt => true
  | _ => false
  end.

(** [n <= x] *)
Definition int_le_float (n : Z) (x : float) : bool :=
  match compare_int x n with
  | Some Gt | Some Eq => true
  | _ => false
  end.

(** [min(xs)]: the first least element. *)
Fixpoint py_min_from (m : float) (xs : list float) : float :=
  match xs with
  | [] => m
  | x :: xs' => py_min_from (if fltb x m then x else m) xs'
  end.

Definition py_min (xs : list float) : option float :=
  match xs with
  | [] => None
  | x :: xs' => Some (py_min_from x xs')
  end.

(** A [dict] with float keys, in insertion order; keys are equal when [==]
    holds of them. *)
Section FloatDict.
Context {V : Type}.

Definition fdict : Type := list (float * V).

Fixpoint fd_get (k : float) (d : fdict) : option V :=
  match d with
  | [] => None
  | (k', v) :: d' => if feqb k' k then Some v else fd_get k d'
  end.

Fixpoint fd_set (k : float) (v : V) (d : fdict) : fdict :=
  match d with
  | [] => [(k, v)]
  | (k', v') :: d' =>
      if feqb k' k then (k', v) :: d' else (k', v') :: fd_set k v d'
  end.

Definition fd_keys (d : fdict) : list float := map fst d.
End FloatDict.
Arguments fdict V : clear implicits.

Record SwitchState : Type := mkSwitchState {
  ss_state : Z;
  ss_time : float
}.

Record Timer : Type := mkTimer {
  t_handle : nat;
  t_deadline : float;
  t_action : TimerAction
}.

(** The attributes of the controller and of the clock that the functions
    below use. *)
Record World : Type := mkWorld {
  clock_time : float;
  clock_timers : list Timer;
  clock_next_handle : nat;
  registered_switches : gmap string (list RegisteredSwitch);
  timed_switch_handler_delay : option nat;
  active_timed_switches : fdict (list TimedSwitchHandler);
  switches : gmap string SwitchState;
  next_oid : nat
}.

Definition set_clock_time (t : float) (w : World) : World :=
  mkWorld t (clock_timers w) (clock_next_handle w) (registered_switches w)
    (timed_switch_handler_delay w) (active_timed_switches w) (switches w)
    (next_oid w).

Definition set_clock_timers (ts : list Timer) (w : World) : World :=
  mkWorld (clock_time w) ts (clock_next_handle w) (registered_switches w)
    (timed_switch_handler_delay w) (active_timed_switches w) (switches w)
    (next_oid w).

Definition set_clock_next_handle (h : nat) (w : World) : World :=
  mkWorld (clock_time w) (clock_timers w) h (registered_switches w)
    (timed_switch_handler_delay w) (active_timed_switches w) (switches w)
    (next_oid w).

Definition set_registered_switches
    (r : gmap string (list RegisteredSwitch)) (w : World) : World :=
  mkWorld (clock_time w) (clock_timers w) (clock_next_handle w) r
    (timed_switch_handler_delay w) (active_timed_switches w) (switches w)
    (next_oid w).

Definition set_timed_switch_handler_delay (d : option nat) (w : World)
    : World :=
  mkWorld (clock_time w) (clock_timers w) (clock_next_handle w)
    (registered_switches w) d (active_timed_switches w) (switches w)
    (next_oid w).

Definition set_active_timed_switches
    (a : fdict (list TimedSwitchHandler)) (w : World) : World :=
  mkWorld (clock_time w) (clock_timers w) (clock_next_handle w)
    (registered_switches w) (timed_switch_handler_delay w) a (switches w)
    (next_oid w).

Definition set_switches (s : gmap string SwitchState) (w : World) : World :=
  mkWorld (clock_time w) (clock_timers w) (clock_next_handle w)
    (registered_switches w) (timed_switch_handler_delay w)
    (active_timed_switches w) s (next_oid w).

Definition set_next_oid (n : nat) (w : World) : World :=
  mkWorld (clock_time w) (clock_timers w) (clock_next_handle w)
    (registered_switches w) (timed_switch_handler_delay w)
    (active_timed_switches w) (switches w) n.

Definition get_time (w : World) : float := clock_time w.

(** The clock's one-shot timers, as in the model of the whole controller:
    a timer is kept with the absolute time at which it fires, the float
    sum of the reading and the timeout. *)
Definition schedule_once (act : TimerAction) (timeout : float) (w : World)
    : nat * World :=
  let h := clock_next_handle w in
  (h, set_clock_next_handle (S h)
        (set_clock_timers
           (clock_timers w ++ [mkTimer h (fadd (get_time w) timeout) act]) w)).

Definition unschedule (h : nat) (w : World) : World :=
  set_clock_timers
    (filter (fun t => t_handle t ≠ h) (clock_timers w)) w.

Definition lookup_switch (switch_name : string) (w : World)
    : result SwitchState :=
  match switches w !! lower switch_name with
  | Some s => Ok s
  | None => Raise KeyError
  end.

Definition lookup_registered (key : string) (w : World)
    : result (list RegisteredSwitch) :=
  match registered_switches w !! lower key with
  | Some l => Ok l
  | None => Raise KeyError
  end.

(** The sentinel time stamp [-100000] is an int. *)
Definition set_state (switch_name : string) (state : Z) (reset_time : bool)
    (w : World) : World :=
  let timestamp := if reset_time then of_Z (-100000) else get_time w in
  set_switches
    (<[lower switch_name := mkSwitchState state timestamp]> (switches w)) w.

Definition register_switch (name : string) (w : World) : World :=
  let w := set_registered_switches
             (<[lower (name ++ "-0") := []]> (registered_switches w)) w in
  let w := set_registered_switches
             (<[lower (name ++ "-1") := []]> (registered_switches w)) w in
  set_state name 0 true w.

(** [round((now - time) * 1000.0, 0)] *)
Definition ms_since_change (switch_name : string) (w : World)
    : result float :=
  s <- lookup_switch switch_name w ;;
  Ok (round0 (fmul (fsub (get_time w) (ss_time s)) thousand)).

Definition is_state (switch_name : string) (state : Z) (ms : option Z)
    (w : World) : result bool :=
  let ms := match ms with
            | Some m => if truthy m then m else 0
            | None => 0
            end in
  s <- lookup_switch switch_name w ;;
  if ss_state s =? state
  then (m <- ms_since_change switch_name w ;; Ok (int_le_float ms m))
  else Ok false.

Definition is_active (switch_name : string) (ms : option Z) (w : World)
    : result bool :=
  is_state switch_name 1 ms w.

Definition is_inactive (switch_name : string) (ms : option Z) (w : World)
    : result bool :=
  is_state switch_name 0 ms w.

Definition get_next_timed_switch_event (w : World) : result float :=
  match py_min (fd_keys (active_timed_switches w)) with
  | None => Raise AssertionError
  | Some t => Ok t
  end.

Definition _add_timed_switch_handler (time : float)
    (timed_switch_handler : TimedSwitchHandler) (w : World) : result World :=
  let bucket := default [] (fd_get time (active_timed_switches w)) in
  let w := set_active_timed_switches
             (fd_set time (bucket ++ [timed_switch_handler])
                (active_timed_switches w)) w in
  let w := match timed_switch_handler_delay w with
           | Some h => unschedule h w
           | None => w
           end in
  next <- get_next_timed_switch_event w ;;
  let '(h, w) := schedule_once TimedWake (fsub next (get_time w)) w in
  Ok (set_timed_switch_handler_delay (Some h) w).

Definition add_switch_handler (switch_name : string) (callback : Callback)
    (state : Z) (ms : Z) (return_info : bool)
    (callback_kwargs : list (string * string)) (w : World)
    : result (SwitchHandler * World) :=
  let has_kwargs := negb (bool_decide (callback_kwargs = [])) in
  let '(callback, w) :=
    if has_kwargs && return_info
    then (CbPartial (next_oid w) callback (Some (switch_name, state, ms))
            callback_kwargs, set_next_oid (S (next_oid w)) w)
    else if return_info
    then (CbPartial (next_oid w) callback (Some (switch_name, state, ms)) [],
          set_next_oid (S (next_oid w)) w)
    else if has_kwargs
    then (CbPartial (next_oid w) callback None callback_kwargs,
          set_next_oid (S (next_oid w)) w)
    else (callback, w) in
  let entry_val := mkRegisteredSwitch ms callback in
  let entry_key := switch_key switch_name state in
  l <- lookup_registered entry_key w ;;
  let w := set_registered_switches
             (<[lower entry_key := l ++ [entry_val]]> (registered_switches w))
             w in
  w <- (if truthy ms
        then
          since <- ms_since_change switch_name w ;;
          if float_lt_int since ms
          then
            in_state <-
              (a <- (if state =? 1 then is_active switch_name (Some 0) w
                     else Ok false) ;;
               if a then Ok true
               else if state =? 0 then is_inactive switch_name (Some 0) w
               else Ok false) ;;
            if in_state
            then
              since <- ms_since_change switch_name w ;;
              fms <- float_of_int ms ;;
              let key := fadd (get_time w) (fdiv (fsub fms since) thousand) in
              let value := mkTimedSwitchHandler callback switch_name state ms in
              _add_timed_switch_handler key value w
            else Ok w
          else Ok w
        else Ok w) ;;
  Ok (mkSwitchHandler switch_name callback state ms, w).

(** The controller at time [t] with no switch registered. *)
Definition empty_world (t : float) : World :=
  mkWorld t [] 0%nat ∅ None [] ∅ 0%nat.

(** Switch [slingshot], registered at time 0 and activated at once; the
    clock now reads [now]. *)
Definition slingshot_active (now : float) : World :=
  set_clock_time now
    (set_state "slingshot" 1 false
       (register_switch "slingshot" (empty_world (of_Z 0)))).

(** The deadlines of the timed queue after a handler with a dwell of
    300 ms has been registered on [slingshot] at [now]. *)
Definition late_join_deadlines (now : float) : result (list float) :=
  added <- add_switch_handler "slingshot" (CbUser 3) 1 300 false []
             (slingshot_active now) ;;
  Ok (fd_keys (active_timed_switches (snd added))).

End Binary64.

(** ** Rounding *)

Lemma py_round_near (x : Q) :
  (x - (1 # 2) <= inject_Z (py_round x) <= x + (1 # 2))%Q.
Proof.
  unfold py_round.
  pose proof (Qfloor_le x) as Hlo. pose proof (Qlt_floor x) as Hhi.
  rewrite inject_Z_plus in Hhi. change (inject_Z 1) with 1%Q in Hhi.
  destruct (Qcompare (x - inject_Z (Qfloor x)) (1 # 2)) eqn:Hc.
  - apply Qeq_alt in Hc.
    destruct (Z.even (Qfloor x));
      [| rewrite inject_Z_plus; change (inject_Z 1) with 1%Q]; lra.
  - apply Qlt_alt in Hc. lra.
  - apply Qgt_alt in Hc. rewrite inject_Z_plus.
    change (inject_Z 1) with 1%Q. lra.
Qed.

Lemma py_round_tie_even (x : Q) :
  (inject_Z (py_round x) == x - (1 # 2) \/ inject_Z (py_round x) == x + (1 # 2))%Q ->
  Z.even (py_round x) = true.
Proof.
  unfold py_round.
  pose proof (Qfloor_le x) as Hlo. pose proof (Qlt_floor x) as Hhi.
  rewrite inject_Z_plus in Hhi. change (inject_Z 1) with 1%Q in Hhi.
  destruct (Qcompare (x - inject_Z (Qfloor x)) (1 # 2)) eqn:Hc.
  - destruct (Z.even (Qfloor x)) eqn:He; [done |].
    intros _. rewrite Z.even_add, He. reflexivity.
  - apply Qlt_alt in Hc. intros [Ht | Ht]; lra.
  - apply Qgt_alt in Hc. rewrite inject_Z_plus.
    change (inject_Z 1) with 1%Q. intros [Ht | Ht]; lra.
Qed.

Lemma py_round_integer (n : Z) (x : Q) : (x == inject_Z n)%Q -> py_round x = n.
Proof.
  intros Hx. unfold py_round.
  assert (Qfloor x = n) as ->.
  { rewrite (Qfloor_comp _ _ Hx). apply Qfloor_Z. }
  assert (Qcompare (x - inject_Z n) (1 # 2) = Lt) as ->; [| done].
  apply (proj1 (Qlt_alt _ _)). lra.
Qed.

(** ** Loops that mutate the list they iterate *)

Section MutatingLoops.
Context {A : Type} `{EqDecision A}.
Implicit Types (l : list A) (p : A -> bool).

Lemma py_remove_notin (x : A) l : x ∉ l -> py_remove x l = l.
Proof.
  induction l as [| y l IH]; [done |].
  intros Hn. apply not_elem_of_cons in Hn as [Hne Hn]. simpl.
  rewrite bool_decide_eq_false_2 by congruence. by rewrite IH.
Qed.

Lemma py_remove_app (x : A) l1 l2 :
  x ∉ l1 -> py_remove x (l1 ++ l2) = l1 ++ py_remove x l2.
Proof.
  induction l1 as [| y l1 IH]; [done |].
  intros Hn. apply not_elem_of_cons in Hn as [Hne Hn]. simpl.
  rewrite bool_decide_eq_false_2 by congruence. by rewrite IH.
Qed.

Lemma py_remove_first (x : A) l1 l2 :
  x ∉ l1 -> py_remove x (l1 ++ x :: l2) = l1 ++ l2.
Proof.
  intros Hn. rewrite py_remove_app by done. simpl.
  by rewrite bool_decide_eq_true_2.
Qed.

Lemma length_py_remove (x : A) l : (length (py_remove x l) <= length l)%nat.
Proof.
  induction l as [| y l IH]; simpl; [lia |].
  destruct (bool_decide (y = x)); simpl; lia.
Qed.

Lemma iter_py_remove_app (x : A) (k : nat) l1 l2 :
  x ∉ l1 ->
  Nat.iter k (py_remove x) (l1 ++ l2) = l1 ++ Nat.iter k (py_remove x) l2.
Proof.
  intros Hn. induction k as [| k IH]; [done |].
  simpl. rewrite IH. by apply py_remove_app.
Qed.

Lemma iter_py_remove_notin (x : A) (k : nat) l :
  x ∉ l -> Nat.iter k (py_remove x) l = l.
Proof.
  intros Hn. induction k as [| k IH]; [done |].
  simpl. rewrite IH. by apply py_remove_notin.
Qed.

(** The fuel given at loop entry is never what stops the loop. *)
Lemma enumerate_remove_fuel p (extra fuel i : nat) l :
  (length l <= i + fuel)%nat ->
  enumerate_remove p (fuel + extra) i l = enumerate_remove p fuel i l.
Proof.
  revert i l. induction fuel as [| fuel IH]; intros i l Hlen.
  - simpl. destruct extra as [| extra]; [done |]. simpl.
    rewrite lookup_ge_None_2 by lia. done.
  - simpl. destruct (l !! i) as [x |] eqn:Hx; [| done].
    destruct (p x).
    + apply IH. pose proof (length_py_remove x l). lia.
    + apply IH. lia.
Qed.

Lemma enumerate_del_fuel p (extra fuel i : nat) l :
  (length l <= i + fuel)%nat ->
  enumerate_del p (fuel + extra) i l = enumerate_del p fuel i l.
Proof.
  revert i l. induction fuel as [| fuel IH]; intros i l Hlen.
  - simpl. destruct extra as [| extra]; [done |]. simpl.
    rewrite lookup_ge_None_2 by lia. done.
  - simpl. destruct (l !! i) as [x |] eqn:Hx; [| done].
    destruct (p x).
    + apply IH. rewrite length_delete by eauto. lia.
    + apply IH. lia.
Qed.

(** Every record the loop takes out is the first one equal to the target,
    so the loop amounts to some number of [remove] calls. *)
Lemma enumerate_remove_iter p (t : A) (fuel i : nat) l :
  (forall y, p y = true -> y = t) ->
  exists k, enumerate_remove p fuel i l = Nat.iter k (py_remove t) l.
Proof.
  intros Hp. revert i l. induction fuel as [| fuel IH]; intros i l.
  - by exists 0%nat.
  - simpl. destruct (l !! i) as [x |] eqn:Hx; [| by exists 0%nat].
    destruct (p x) eqn:Hpx.
    + apply Hp in Hpx as ->.
      destruct (IH (S i) (py_remove t l)) as [k Hk].
      exists (S k). rewrite Hk. by rewrite Nat.iter_succ_r.
    + apply IH.
Qed.

(** The loop walks over a prefix without a match unchanged. *)
Lemma enumerate_remove_prefix p (fuel : nat) l1 l2 (i : nat) :
  (forall y, y ∈ l2 -> p y = false) ->
  length l1 = i ->
  forall l3,
    enumerate_remove p (length l2 + fuel) i (l1 ++ l2 ++ l3)
    = enumerate_remove p fuel (i + length l2) (l1 ++ l2 ++ l3).
Proof.
  revert l1 i. induction l2 as [| y l2 IH]; intros l1 i Hp Hi l3.
  - simpl. by rewrite Nat.add_0_r.
  - simpl. rewrite lookup_app_r by lia.
    replace (i - length l1)%nat with 0%nat by lia. simpl.
    rewrite (Hp y) by apply list_elem_of_here.
    replace (l1 ++ y :: l2 ++ l3) with ((l1 ++ [y]) ++ l2 ++ l3)
      by (by rewrite <- (assoc_L (++))).
    rewrite (IH (l1 ++ [y]) (S i)).
    + f_equal. lia.
    + intros z Hz. apply Hp. by apply list_elem_of_further.
    + rewrite length_app. simpl. lia.
Qed.

(** What [remove_switch_handler] does to a bucket: the first record equal
    to the target goes, what stands before it stays, and behind it only
    records equal to the target can go. *)
Lemma enumerate_remove_spec p (t : A) l1 l2 :
  (forall y, p y = true <-> y = t) ->
  t ∉ l1 ->
  exists k,
    enumerate_remove p (length (l1 ++ t :: l2)) 0 (l1 ++ t :: l2)
    = l1 ++ Nat.iter k (py_remove t) l2.
Proof.
  intros Hp Hn.
  rewrite length_app. simpl length.
  pose proof (enumerate_remove_prefix p (S (length l2)) [] l1 0) as Hpre.
  simpl in Hpre. rewrite Hpre; [| | done].
  - simpl. rewrite lookup_app_r by lia.
    replace (length l1 - length l1)%nat with 0%nat by lia. simpl.
    rewrite (proj2 (Hp t) eq_refl).
    rewrite py_remove_first by done.
    destruct (enumerate_remove_iter p t (length l2) (S (length l1)) (l1 ++ l2))
      as [k Hk]; [intros y Hy; by apply Hp |].
    exists k. rewrite Hk. by apply iter_py_remove_app.
  - intros y Hy. destruct (p y) eqn:Hpy; [| done].
    apply Hp in Hpy as ->. done.
Qed.

Lemma enumerate_remove_none p l :
  (forall y, y ∈ l -> p y = false) ->
  enumerate_remove p (length l) 0 l = l.
Proof.
  intros Hp.
  pose proof (enumerate_remove_prefix p 0 [] l 0 Hp eq_refl []) as Hpre.
  rewrite Nat.add_0_r in Hpre. simpl in Hpre.
  rewrite app_nil_r in Hpre. by rewrite Hpre.
Qed.
(** The index loop is the recursion [sweep]. *)
Lemma enumerate_del_sweep p (fuel : nat) (pre l : list A) :
  (length l <= fuel)%nat ->
  enumerate_del p fuel (length pre) (pre ++ l) = pre ++ sweep p l.
Proof.
  revert pre l. induction fuel as [| fuel IH]; intros pre l Hlen.
  - destruct l; [done | simpl in Hlen; lia].
  - simpl. destruct l as [| x l].
    + rewrite lookup_ge_None_2 by (rewrite length_app; simpl; lia). done.
    + rewrite lookup_app_r by lia.
      replace (length pre - length pre)%nat with 0%nat by lia. simpl.
      destruct (p x).
      * replace (delete (length pre) (pre ++ x :: l)) with (pre ++ l).
        2:{ rewrite delete_middle. done. }
        destruct l as [| y l].
        -- destruct fuel; simpl; [done |].
           rewrite lookup_ge_None_2 by (rewrite length_app; simpl; lia). done.
        -- replace (pre ++ y :: l) with ((pre ++ [y]) ++ l)
             by (by rewrite <- (assoc_L (++))).
           replace (S (length pre)) with (length (pre ++ [y]))
             by (rewrite length_app; simpl; lia).
           rewrite IH by (simpl in Hlen; lia).
           by rewrite <- (assoc_L (++)).
      * replace (pre ++ x :: l) with ((pre ++ [x]) ++ l)
          by (by rewrite <- (assoc_L (++))).
        replace (S (length pre)) with (length (pre ++ [x]))
          by (rewrite length_app; simpl; lia).
        rewrite IH by (simpl in Hlen; lia).
        by rewrite <- (assoc_L (++)).
Qed.

Lemma enumerate_del_is_sweep p l : enumerate_del p (length l) 0 l = sweep p l.
Proof. apply (enumerate_del_sweep p (length l) [] l). done. Qed.

(** The loop never deletes an element that does not satisfy [p]... *)
Lemma sweep_keeps_others p l :
  filter (fun x => p x = false) (sweep p l) = filter (fun x => p x = false) l.
Proof.
  induction l as [l IH] using (induction_ltof1 _ (@length A)).
  unfold ltof in IH.
  destruct l as [| x l]; [done |]. simpl.
  destruct (p x) eqn:Hx.
  - rewrite (filter_cons_False _ x) by congruence.
    destruct l as [| y l]; [done |].
    rewrite !filter_cons. rewrite IH by (simpl; lia). done.
  - rewrite !filter_cons. rewrite IH by (simpl; lia). done.
Qed.

(** ... and deletes every one that does when no two of them are
    neighbours. *)
Lemma sweep_complete p l :
  no_adjacent p l = true -> sweep p l = filter (fun x => p x = false) l.
Proof.
  induction l as [l IH] using (induction_ltof1 _ (@length A)).
  unfold ltof in IH.
  destruct l as [| x l]; [done |]. simpl.
  destruct l as [| y l].
  - intros _. destruct (p x) eqn:Hx.
    + by rewrite filter_cons_False by congruence.
    + by rewrite filter_cons_True by done.
  - intros Hadj. apply andb_true_iff in Hadj as [Hxy Hrest].
    destruct (p x) eqn:Hx.
    + simpl in Hxy. apply negb_true_iff in Hxy.
      rewrite (filter_cons_False _ x) by congruence.
      rewrite (filter_cons_True _ y) by done.
      f_equal. apply IH; [simpl; lia |].
      simpl in Hrest. destruct l as [| z l]; [done |].
      by apply andb_true_iff in Hrest as [_ ?].
    + rewrite (filter_cons_True _ x) by done. f_equal.
      apply IH; [simpl; lia | done].
Qed.
End MutatingLoops.

Lemma cancel_bucket_enumerate_del (name : string) (state : Z) (fuel k2 : nat)
    (v : list TimedSwitchHandler) :
  cancel_bucket name state fuel k2 v
  = enumerate_del (cancels name state) fuel k2 v.
Proof.
  revert k2 v. induction fuel as [| fuel IH]; intros k2 v; [done |].
  simpl. destruct (v !! k2) as [item |] eqn:Hitem; [| done].
  destruct (cancels name state item); [| apply IH].
  assert (negb (bool_decide (v = [])) && bool_decide (is_Some (Some item))
          = true) as ->; [| apply IH].
  rewrite (bool_decide_eq_true_2 (is_Some (Some item))) by (by eexists).
  rewrite bool_decide_eq_false_2; [done |]. intros ->. done.
Qed.

(** ** The float-keyed dict *)

Section FloatDictFacts.
Context {V : Type}.
Implicit Types (d pre suf : fdict V) (k : Q).

Lemma fd_get_None_keys k d :
  fd_get k d = None -> Forall (fun k' => Qeq_bool k' k = false) (fd_keys d).
Proof.
  induction d as [| [k' v] d IH]; simpl; [constructor |].
  destruct (Qeq_bool k' k) eqn:He; [done |].
  intros Hn. constructor; [done | by apply IH].
Qed.

Lemma fd_get_app_notin k pre d :
  Forall (fun k' => Qeq_bool k' k = false) (fd_keys pre) ->
  fd_get k (pre ++ d) = fd_get k d.
Proof.
  induction pre as [| [k' v] pre IH]; simpl; [done |].
  intros Hall. apply Forall_cons in Hall as [-> Hall]. by apply IH.
Qed.

Lemma fd_set_app_notin k (v : V) pre d :
  Forall (fun k' => Qeq_bool k' k = false) (fd_keys pre) ->
  fd_set k v (pre ++ d) = pre ++ fd_set k v d.
Proof.
  induction pre as [| [k' v'] pre IH]; simpl; [done |].
  intros Hall. apply Forall_cons in Hall as [-> Hall]. by rewrite IH.
Qed.

Lemma fd_keys_set k (v : V) d :
  fd_keys (fd_set k v d)
  = if fd_mem k d then fd_keys d else fd_keys d ++ [k].
Proof.
  unfold fd_mem. induction d as [| [k' v'] d IH]; simpl; [done |].
  destruct (Qeq_bool k' k); simpl; [done |].
  rewrite IH. by destruct (fd_get k d).
Qed.

Lemma fd_get_set_eq k (v : V) d : fd_get k (fd_set k v d) = Some v.
Proof.
  induction d as [| [k' v'] d IH]; simpl.
  - by rewrite Qeq_bool_refl.
  - destruct (Qeq_bool k' k) eqn:He; simpl; rewrite He; done.
Qed.

Lemma fd_get_set_ne k k' (v : V) d :
  Qeq_bool k k' = false -> fd_get k' (fd_set k v d) = fd_get k' d.
Proof.
  intros Hne. induction d as [| [k0 v0] d IH]; simpl.
  - by rewrite Hne.
  - destruct (Qeq_bool k0 k) eqn:He; simpl; [| by rewrite IH].
    destruct (Qeq_bool k0 k') eqn:He'; [| done].
    apply Qeq_bool_sym in He.
    by rewrite (Qeq_bool_trans _ _ _ He He') in Hne.
Qed.

Lemma fd_wf_set k (v : V) d : fd_wf d = true -> fd_wf (fd_set k v d) = true.
Proof.
  induction d as [| [k' v'] d IH]; simpl; [done |].
  intros Hwf. apply andb_true_iff in Hwf as [Hk' Hwf].
  destruct (Qeq_bool k' k) eqn:He; simpl.
  - by rewrite Hk', Hwf.
  - rewrite IH by done. unfold fd_mem in *.
    rewrite fd_get_set_ne by (by rewrite Qeq_bool_comm).
    by rewrite Hk'.
Qed.

(** Rewriting every bucket through its key, one key after the other, is
    the map over the buckets. *)
Lemma fd_fold_buckets (f : V -> V) (dflt : V) suf pre :
  fd_wf suf = true ->
  Forall (fun k0 => Forall (fun k => Qeq_bool k0 k = false) (fd_keys suf))
    (fd_keys pre) ->
  fold_left (fun d k => fd_set k (f (default dflt (fd_get k d))) d)
    (fd_keys suf) (pre ++ suf)
  = pre ++ fd_map f suf.
Proof.
  revert pre. induction suf as [| [k v] suf IH]; intros pre Hwf Hpre; [done |].
  simpl in Hwf. apply andb_true_iff in Hwf as [Hk Hwf].
  assert (Forall (fun k0 => Qeq_bool k0 k = false) (fd_keys pre)) as Hprek.
  { eapply Forall_impl; [exact Hpre |]. simpl. intros k0 Hk0.
    by apply Forall_cons in Hk0 as [? _]. }
  simpl fd_keys. simpl fold_left.
  rewrite (fd_get_app_notin _ _ _ Hprek), (fd_set_app_notin _ _ _ _ Hprek).
  simpl. rewrite Qeq_bool_refl. simpl.
  replace (pre ++ (k, f v) :: suf) with ((pre ++ [(k, f v)]) ++ suf)
    by (by rewrite <- (assoc_L (++))).
  rewrite IH; [by rewrite <- (assoc_L (++)) | done |].
  unfold fd_keys. rewrite map_app. apply Forall_app. split.
  - eapply Forall_impl; [exact Hpre |]. simpl. intros k0 Hk0.
    by apply Forall_cons in Hk0 as [_ ?].
  - simpl. constructor; [| constructor].
    unfold fd_mem in Hk. destruct (fd_get k suf) eqn:Hget; [done |].
    apply fd_get_None_keys in Hget.
    eapply Forall_impl; [exact Hget |]. simpl. intros k'.
    by rewrite Qeq_bool_comm.
Qed.
End FloatDictFacts.

(** ** Frame lemmas for the record updates *)

Lemma fold_left_pointwise {A B : Type} (f g : A -> B -> A) (l : list B) (a : A) :
  (forall a b, f a b = g a b) -> fold_left f l a = fold_left g l a.
Proof.
  intros Hfg. revert a. induction l as [| b l IH]; intros a; [done |].
  simpl. by rewrite Hfg, IH.
Qed.

Lemma fold_active_world
    (g : fdict (list TimedSwitchHandler) -> Q -> fdict (list TimedSwitchHandler))
    (ks : list Q) (w : World) :
  fold_left (fun w k => set_active_timed_switches (g (active_timed_switches w) k) w)
    ks w
  = set_active_timed_switches (fold_left g ks (active_timed_switches w)) w.
Proof.
  revert w. induction ks as [| k ks IH]; intros w.
  - by destruct w.
  - simpl. by rewrite IH.
Qed.

Lemma fold_set_active_frame {B : Type} (proj : World -> B)
    (g : World -> Q -> fdict (list TimedSwitchHandler)) (ks : list Q) (w : World) :
  (forall a w, proj (set_active_timed_switches a w) = proj w) ->
  proj (fold_left (fun w k => set_active_timed_switches (g w k) w) ks w)
  = proj w.
Proof.
  intros Hproj. revert w. induction ks as [| k ks IH]; intros w; [done |].
  simpl. rewrite IH. apply Hproj.
Qed.

Lemma registered_match_iff (ms : Z) (callback : Callback) (y : RegisteredSwitch) :
  (rs_ms y =? ms) && bool_decide (rs_callback y = callback) = true
  <-> y = mkRegisteredSwitch ms callback.
Proof.
  destruct y as [m c]. simpl. rewrite andb_true_iff, Z.eqb_eq, bool_decide_eq_true.
  split; [intros [-> ->]; done | intros [= -> ->]; done].
Qed.

(** ** Removal of a registered handler *)

(** Claim C4, amended.  In the bucket of [(switch_name, state)],
    [remove_switch_handler] removes the first record equal to
    [(ms, callback)] and leaves every record before it in place; behind it,
    it removes nothing but further records equal to [(ms, callback)], and
    nothing at all when there is none.  Without a matching record the
    bucket is unchanged, and the buckets of other keys always are. *)
Theorem remove_switch_handler_registry
    (switch_name : string) (callback : Callback) (state ms : Z) (w : World)
    (l : list RegisteredSwitch) :
  registered_switches w !! lower (switch_key switch_name state) = Some l ->
  let t := mkRegisteredSwitch ms callback in
  let w' := remove_switch_handler switch_name callback state ms w in
  let l' := registered_switches w' !! lower (switch_key switch_name state) in
  (t ∉ l -> l' = Some l)
  /\ (forall l1 l2, l = l1 ++ t :: l2 -> t ∉ l1 ->
        (exists k, l' = Some (l1 ++ Nat.iter k (py_remove t) l2))
        /\ (t ∉ l2 -> l' = Some (l1 ++ l2)))
  /\ (forall key, key <> lower (switch_key switch_name state) ->
        registered_switches w' !! key = registered_switches w !! key).
Proof.
  intros Hl t w' l'.
  assert (registered_switches w'
          = <[lower (switch_key switch_name state) :=
                enumerate_remove
                  (fun settings =>
                     (rs_ms settings =? ms)
                     && bool_decide (rs_callback settings = callback))
                  (length l) 0 l]> (registered_switches w)) as Hreg.
  { subst w'. unfold remove_switch_handler. rewrite Hl.
    rewrite (fold_set_active_frame registered_switches
               (fun w k => fd_set k _ (active_timed_switches w))) by done.
    done. }
  subst l'. rewrite Hreg, lookup_insert_eq.
  split; [| split].
  - intros Hn. f_equal. apply enumerate_remove_none.
    intros y Hy. destruct (_ && _) eqn:Hm; [| done].
    apply registered_match_iff in Hm. subst y. done.
  - intros l1 l2 -> Hn1.
    destruct (enumerate_remove_spec
                (fun settings =>
                   (rs_ms settings =? ms)
                   && bool_decide (rs_callback settings = callback))
                t l1 l2) as [k Hk]; [apply registered_match_iff | done |].
    split.
    + exists k. by rewrite Hk.
    + intros Hn2. rewrite Hk. by rewrite iter_py_remove_notin.
  - intros key Hkey. by rewrite lookup_insert_ne.
Qed.

Lemma remove_switch_handler_registry_witness :
  exists w,
    two_distinct = Ok w
    /\ registered_switches
         (remove_switch_handler "s" (CbUser 7) 1 0 w) !! "s-1"
       = Some [mkRegisteredSwitch 0 (CbUser 8)].
Proof.
  eexists. split; [vm_compute; reflexivity |].
  refine (proj2 (proj1 (proj2
    (remove_switch_handler_registry "s" (CbUser 7) 1 0 _
       [mkRegisteredSwitch 0 (CbUser 7); mkRegisteredSwitch 0 (CbUser 8)] _))
    [] [mkRegisteredSwitch 0 (CbUser 8)] eq_refl _) _).
  - vm_compute. reflexivity.
  - apply not_elem_of_nil.
  - intros Hin. apply list_elem_of_singleton in Hin. discriminate.
Defined.

(** Claim C4 as stated fails: of three identical records two are removed. *)
Lemma remove_switch_handler_three_identical :
  exists w,
    three_identical = Ok w
    /\ registered_switches w !! "s-1"
       = Some [mkRegisteredSwitch 0 (CbUser 7); mkRegisteredSwitch 0 (CbUser 7);
               mkRegisteredSwitch 0 (CbUser 7)]
    /\ registered_switches
         (remove_switch_handler "s" (CbUser 7) 1 0 w) !! "s-1"
       = Some [mkRegisteredSwitch 0 (CbUser 7)].
Proof.
  eexists. split; [vm_compute; reflexivity |].
  split; vm_compute; reflexivity.
Qed.

(** ** Devices *)

Lemma get_obj_lookup (obj : nat) (o : Switch) (w : World) :
  machine_switches w !! obj = Some o -> get_obj obj w = Ok o.
Proof. intros Ho. unfold get_obj. by rewrite Ho. Qed.

Lemma get_obj_set_obj (obj : nat) (o o' : Switch) (w : World) :
  machine_switches w !! obj = Some o -> get_obj obj (set_obj obj o' w) = Ok o'.
Proof.
  intros Ho. unfold get_obj, set_obj. simpl.
  rewrite list_lookup_insert_eq; [done |]. by eapply lookup_lt_Some.
Qed.

Lemma set_obj_set_obj (obj : nat) (o1 o2 : Switch) (w : World) :
  set_obj obj o2 (set_obj obj o1 w) = set_obj obj o2 w.
Proof. unfold set_obj. simpl. by rewrite list_insert_insert_eq. Qed.

Lemma find_switch_from_spec (name : string) (l : list Switch) (i obj : nat) :
  find_switch_from i name l = Some obj ->
  exists o, l !! (obj - i)%nat = Some o /\ (i <= obj)%nat
            /\ lower (sw_name o) = lower name.
Proof.
  revert i. induction l as [| o l IH]; intros i; [done |]. simpl.
  destruct (String.eqb _ _) eqn:He.
  - intros [= <-]. exists o. rewrite Nat.sub_diag.
    apply String.eqb_eq in He. done.
  - intros Hf. destruct (IH _ Hf) as (o' & Ho' & Hle & Hname).
    exists o'. split; [| split; [lia | done]].
    replace (obj - i)%nat with (S (obj - S i)) by lia. done.
Qed.

Lemma find_switch_spec (name : string) (w : World) (obj : nat) :
  find_switch name w = Some obj ->
  exists o, machine_switches w !! obj = Some o
            /\ lower (sw_name o) = lower name.
Proof.
  intros Hf. apply find_switch_from_spec in Hf as (o & Ho & _ & Hn).
  rewrite Nat.sub_0_r in Ho. eauto.
Qed.

Lemma normalize_logical_01 (invert : bool) (state : Z) (logical : bool) :
  fst (normalize invert state logical) = 0
  \/ fst (normalize invert state logical) = 1.
Proof.
  unfold normalize. destruct (truthy state), invert, logical; simpl; auto.
Qed.

Lemma normalize_hw_01 (invert : bool) (state : Z) (logical : bool) :
  snd (normalize invert state logical) = 0
  \/ snd (normalize invert state logical) = 1.
Proof.
  unfold normalize. destruct (truthy state), invert, logical; simpl; auto.
Qed.

Ltac step_obj Ho :=
  repeat first
    [ rewrite set_obj_set_obj
    | rewrite (get_obj_set_obj _ _ _ _ Ho)
    | progress simpl rbind ].

(** ** The recycle gate *)



(** ** The duplicate-state branch *)

(** Claim C10.  When the store already records the incoming logical state
    and the recycle gate lets the call through, the call changes nothing
    but the device: [hw_state] and [state] are written, and for an
    activation [recycle_clear_time] moves to [now + recycle_secs].  The
    store, the registry, the timed queue, the timers and the monitors are
    as before. *)
Theorem duplicate_state_only_touches_device
    `{Environment} (fuel : nat) (obj : nat) (state : Z) (logical : bool)
    (w : World) (o : Switch) (s : SwitchState) :
  machine_switches w !! obj = Some o ->
  switches w !! lower (sw_name o) = Some s ->
  ss_state s = fst (normalize (sw_invert o) state logical) ->
  (fst (normalize (sw_invert o) state logical) = 1 ->
   (sw_recycle_clear_time o <= get_time w)%Q) ->
  let st := fst (normalize (sw_invert o) state logical) in
  let hw_state := snd (normalize (sw_invert o) state logical) in
  exists w' o',
    process_switch_obj fuel obj state logical w = Ok w'
    /\ w' = set_obj obj o' w
    /\ sw_hw_state o' = hw_state
    /\ sw_state o' = st
    /\ sw_recycle_clear_time o'
       = (if st =? 1 then (get_time w + sw_recycle_secs o)%Q
          else sw_recycle_clear_time o)
    /\ sw_recycle_jitter_count o' = sw_recycle_jitter_count o
    /\ switches w' = switches w
    /\ registered_switches w' = registered_switches w
    /\ active_timed_switches w' = active_timed_switches w
    /\ clock_timers w' = clock_timers w
    /\ monitors w' = monitors w.
Proof.
  intros Ho Hs Hdup Hgate st hw_state. subst st hw_state.
  unfold process_switch_obj. rewrite (get_obj_lookup _ _ _ Ho). simpl rbind.
  destruct (normalize_logical_01 (sw_invert o) state logical) as [H0 | H1].
  - destruct (normalize (sw_invert o) state logical) as [st hw] eqn:Hn.
    simpl in *. rewrite H0 in *. clear H0.
    change (truthy 0) with false. cbv iota. simpl rbind. cbv iota.
    step_obj Ho.
    unfold lookup_switch. simpl. rewrite Hs. simpl rbind. rewrite Hdup. simpl.
    eexists _, _. repeat split.
  - destruct (normalize (sw_invert o) state logical) as [st hw] eqn:Hn.
    simpl in *. rewrite H1 in *. clear H1. specialize (Hgate eq_refl).
    change (truthy 1) with true. cbv iota.
    unfold _check_recycle_time.
    rewrite (get_obj_set_obj _ _ _ _ Ho). simpl rbind.
    assert (Qle_bool (sw_recycle_clear_time o) (clock_time w) = true) as ->.
    { by apply Qle_bool_iff. }
    simpl rbind. cbv iota. simpl negb. cbv iota.
    step_obj Ho.
    unfold lookup_switch. simpl. rewrite Hs. simpl rbind. rewrite Hdup. simpl.
    eexists _, _. repeat split.
Qed.

Lemma duplicate_state_only_touches_device_witness :
  exists w' o',
    process_switch_obj (H := quiet) 1 0 1 false pop_after_window = Ok w'
    /\ machine_switches w' = [o']
    /\ sw_recycle_clear_time o' = ((7 # 10) + (1 # 2))%Q
    /\ switches w' = switches pop_after_window.
Proof.
  destruct (duplicate_state_only_touches_device (H := quiet) 1 0 1 false
              pop_after_window
              (mkSwitch "pop" "pop" "p" "2" false 1 1 (1 # 2) (1 # 2) 0)
              (mkSwitchState 1 0))
    as (w' & o' & Hrun & Hw' & _ & _ & Hrct & _ & Hsw & _).
  - vm_compute. reflexivity.
  - vm_compute. reflexivity.
  - vm_compute. reflexivity.
  - intros _. vm_compute. discriminate.
  - exists w', o'. rewrite Hw'. repeat split; try assumption.
    rewrite <- Hw'. assumption.
Defined.

(** ** Insertion into the timed queue *)

Lemma py_min_is_Some (xs : list Q) : xs <> [] -> is_Some (py_min xs).
Proof. destruct xs; [done | by eexists]. Qed.

Lemma fd_set_not_nil {V : Type} (k : Q) (v : V) (d : fdict V) :
  fd_keys (fd_set k v d) <> [].
Proof.
  destruct d as [| [k' v'] d]; simpl; [done |].
  destruct (Qeq_bool k' k); done.
Qed.

(** [_add_timed_switch_handler] cannot fail; it appends the pending to the
    bucket of its deadline and, besides, only touches the timers. *)
Lemma _add_timed_switch_handler_ok
    (time : Q) (tsh : TimedSwitchHandler) (w : World) :
  exists w',
    _add_timed_switch_handler time tsh w = Ok w'
    /\ active_timed_switches w'
       = fd_set time (default [] (fd_get time (active_timed_switches w)) ++ [tsh])
           (active_timed_switches w)
    /\ switches w' = switches w
    /\ registered_switches w' = registered_switches w
    /\ machine_switches w' = machine_switches w
    /\ monitors w' = monitors w
    /\ clock_time w' = clock_time w
    /\ futures w' = futures w
    /\ handler_lists w' = handler_lists w
    /\ loop_ready w' = loop_ready w
    /\ next_oid w' = next_oid w.
Proof.
  unfold _add_timed_switch_handler, get_next_timed_switch_event.
  set (queue := fd_set time _ (active_timed_switches w)).
  destruct (py_min_is_Some (fd_keys queue)) as [t Ht];
    [apply fd_set_not_nil |].
  destruct (timed_switch_handler_delay _) as [h |]; simpl; rewrite Ht; simpl;
    eexists; repeat split.
Qed.

(** ** Rounding a time that is not negative *)

Lemma py_round_nonneg (x : Q) : (0 <= x)%Q -> 0 <= py_round x.
Proof.
  intros Hx. pose proof (py_round_near x) as [Hlo _].
  destruct (Z_lt_le_dec (py_round x) 0) as [Hneg |]; [| done].
  assert (inject_Z (py_round x) <= inject_Z (-1))%Q as Hle.
  { rewrite <- Zle_Qle. lia. }
  change (inject_Z (-1)) with (-1)%Q in Hle. lra.
Qed.

(** ** The three outcomes of [process_switch_obj] *)

Lemma process_switch_obj_cases
    `{Environment} (fuel obj : nat) (state : Z) (logical : bool) (w : World)
    (o : Switch) :
  machine_switches w !! obj = Some o ->
  let st := fst (normalize (sw_invert o) state logical) in
  let hw := snd (normalize (sw_invert o) state logical) in
  process_switch_obj fuel obj state logical w
  = if truthy st && negb (Qle_bool (sw_recycle_clear_time o) (get_time w))
    then
      Ok (snd (schedule_once (RecyclePassed obj st logical hw)
                 (sw_recycle_clear_time o - get_time w)
                 (set_obj obj
                    (with_recycle_jitter_count (sw_recycle_jitter_count o + 1)
                       (with_hw_state hw o)) w)))
    else
      let w1 := set_obj obj (accepted_device st hw (get_time w) o) w in
      s <- lookup_switch (sw_name o) w ;;
      if ss_state s =? st then Ok w1
      else
        w2 <- _call_handlers (sw_name o) st (set_state (sw_name o) st false w1) ;;
        notify_monitors fuel 0 (change_of obj st)
          (_cancel_timed_handlers (sw_name o) st w2).
Proof.
  intros Ho st hw. subst st hw.
  unfold process_switch_obj. rewrite (get_obj_lookup _ _ _ Ho). simpl rbind.
  destruct (normalize_logical_01 (sw_invert o) state logical) as [H0 | H1];
    destruct (normalize (sw_invert o) state logical) as [st hw] eqn:Hn;
    simpl in *; subst st.
  - change (truthy 0) with false. cbv iota. simpl rbind. cbv iota.
    step_obj Ho. unfold accepted_device. change (truthy 0) with false.
    cbv iota. simpl. reflexivity.
  - change (truthy 1) with true. cbv iota.
    unfold _check_recycle_time. step_obj Ho.
    simpl. unfold get_time.
    destruct (Qle_bool (sw_recycle_clear_time o) (clock_time w)); simpl.
    + step_obj Ho. unfold accepted_device. change (truthy 1) with true.
      cbv iota. simpl. reflexivity.
    + step_obj Ho. reflexivity.
Qed.

(** ** What handlers and the queue leave alone *)

Section Frames.
Context `{Environment} {B : Type} (proj : World -> B).
Hypothesis Hqueue : untouched_by_queue proj.
Hypothesis Henv : env_preserves proj.

Lemma frame_add_timed (time : Q) (tsh : TimedSwitchHandler) (w w' : World) :
  _add_timed_switch_handler time tsh w = Ok w' -> proj w' = proj w.
Proof using Hqueue.
  destruct Hqueue as (Ha & Ht & Hn & Hd & _).
  unfold _add_timed_switch_handler, get_next_timed_switch_event.
  destruct (py_min _) as [t |]; [| destruct (timed_switch_handler_delay _); done].
  destruct (timed_switch_handler_delay _) as [h |]; simpl;
    intros [= <-]; unfold unschedule; by rewrite ?Hd, ?Hn, ?Ht, ?Ha.
Qed.

Lemma frame_cancel (name : string) (state : Z) (w : World) :
  proj (_cancel_timed_handlers name state w) = proj w.
Proof using Hqueue.
  destruct Hqueue as (Ha & _).
  unfold _cancel_timed_handlers.
  apply (fold_set_active_frame proj
           (fun w k => fd_set k _ (active_timed_switches w))).
  exact Ha.
Qed.

Lemma frame_wait_handler (f : nat) (ms : Z) (name : string) (w w' : World) :
  _wait_handler f ms name w = Ok w' -> proj w' = proj w.
Proof using Hqueue.
  destruct Hqueue as (_ & _ & _ & _ & Hf & Hr).
  unfold _wait_handler, future_done, future_set_result, future_finish, get_future.
  destruct (futures w !! f) as [fu |]; [| done]. simpl.
  destruct (fut_state fu), set_result_by_keyword; simpl; try done;
    intros [= <-]; by rewrite ?Hr, ?Hf.
Qed.

Lemma frame_run_callback (callback : Callback) (w w' : World) :
  run_callback callback w = Ok w' -> proj w' = proj w.
Proof using Hqueue Henv.
  destruct Henv as [Huser _].
  destruct callback; simpl; eauto using frame_wait_handler.
Qed.

Lemma frame_call_handlers_loop (name : string) (state : Z)
    (entries : list RegisteredSwitch) (w w' : World) :
  call_handlers_loop name state entries w = Ok w' -> proj w' = proj w.
Proof using Hqueue Henv.
  revert w. induction entries as [| entry entries IH]; intros w.
  - by intros [= <-].
  - simpl. destruct (lookup_registered _ w) as [live |]; [| done]. simpl.
    destruct (negb _); [apply IH |].
    destruct (truthy _).
    + destruct (_add_timed_switch_handler _ _ w) as [w1 |] eqn:Hadd; [| done].
      simpl. intros Hrest. rewrite (IH _ Hrest).
      by eapply frame_add_timed.
    + destruct (run_callback _ w) as [w1 |] eqn:Hrun; [| done].
      simpl. intros Hrest. rewrite (IH _ Hrest).
      by eapply frame_run_callback.
Qed.

Lemma frame_call_handlers (name : string) (state : Z) (w w' : World) :
  _call_handlers name state w = Ok w' -> proj w' = proj w.
Proof using Hqueue Henv.
  unfold _call_handlers.
  destruct (registered_switches w !! _); [| by intros [= <-]].
  apply frame_call_handlers_loop.
Qed.

Lemma frame_notify_monitors (fuel i : nat)
    (change : World -> result MonitoredSwitchChange) (w w' : World) :
  notify_monitors fuel i change w = Ok w' -> proj w' = proj w.
Proof using Henv.
  destruct Henv as [_ Hmon].
  revert i w. induction fuel as [| fuel IH]; intros i w; simpl;
    (destruct (monitors w !! i) as [m |]; [| by intros [= <-]]); [done |].
  destruct (change w) as [c |]; [| done]. simpl.
  destruct (run_monitor m c w) as [w1 |] eqn:Hrun; [| done].
  simpl. intros Hrest. rewrite (IH _ _ Hrest). by eapply Hmon.
Qed.

(** On the accepted path, what is left of an observation is what the
    controller itself wrote before it called out. *)
Lemma frame_accepted (fuel obj : nat) (st : Z) (name : string) (w1 w' : World) :
  (w2 <- _call_handlers name st w1 ;;
   notify_monitors fuel 0 (change_of obj st)
     (_cancel_timed_handlers name st w2)) = Ok w' ->
  proj w' = proj w1.
Proof using Hqueue Henv.
  destruct (_call_handlers name st w1) as [w2 |] eqn:Hcall; [| done].
  simpl. intros Hmon. rewrite (frame_notify_monitors _ _ _ _ _ Hmon).
  rewrite frame_cancel. by eapply frame_call_handlers.
Qed.
End Frames.

Lemma untouched_store_entry (key : string) :
  untouched_by_queue (fun w => switches w !! key).
Proof. repeat split. Qed.

Lemma untouched_clock_time : untouched_by_queue clock_time.
Proof. repeat split. Qed.

Lemma untouched_device (obj : nat) :
  untouched_by_queue (fun w => machine_switches w !! obj).
Proof. repeat split. Qed.

Lemma gate_open (st : Z) (o : Switch) (w : World) :
  st = 0 \/ st = 1 ->
  (st = 1 -> (sw_recycle_clear_time o <= get_time w)%Q) ->
  truthy st && negb (Qle_bool (sw_recycle_clear_time o) (get_time w)) = false.
Proof.
  intros [-> | ->] Hgate; [done |].
  rewrite (proj2 (Qle_bool_iff _ _) (Hgate eq_refl)). done.
Qed.

(** ** Accepted transitions *)

(** Claim C1.  When [process_switch] accepts a transition (the recycle
    gate does not reject it and the store holds the other state) and the
    handlers and monitors it fires leave the store entry and the clock
    alone, the store entry of the switch afterwards holds the logical
    state dispatched and the clock reading of the call, so that
    [ms_since_change] at that reading is 0. *)
Theorem accepted_transition_sets_store
    `{Environment} (fuel : nat) (name : string) (state : Z) (logical : bool)
    (w w' : World) (obj : nat) (o : Switch) (s : SwitchState) :
  find_switch name w = Some obj ->
  machine_switches w !! obj = Some o ->
  switches w !! lower name = Some s ->
  let st := fst (normalize (sw_invert o) state logical) in
  (st = 1 -> (sw_recycle_clear_time o <= get_time w)%Q) ->
  ss_state s <> st ->
  env_preserves (fun w => switches w !! lower name) ->
  env_preserves clock_time ->
  process_switch fuel name state logical w = Ok w' ->
  switches w' !! lower name = Some (mkSwitchState st (get_time w))
  /\ get_time w' = get_time w
  /\ ms_since_change name w' = Ok 0.
Proof.
  intros Hfind Ho Hs st Hgate Hnew Hstore Hclock.
  destruct (find_switch_spec _ _ _ Hfind) as (o' & Ho' & Hname).
  rewrite Ho in Ho'. injection Ho' as <-.
  unfold process_switch. rewrite Hfind.
  rewrite (process_switch_obj_cases _ _ _ _ _ _ Ho). fold st.
  rewrite gate_open by (done || apply normalize_logical_01).
  unfold lookup_switch at 1. rewrite Hname, Hs. simpl rbind.
  rewrite (proj2 (Z.eqb_neq _ _) Hnew).
  intros Hrun.
  pose proof (frame_accepted _ (untouched_store_entry (lower name)) Hstore
                _ _ _ _ _ _ Hrun) as Hentry.
  pose proof (frame_accepted _ untouched_clock_time Hclock
                _ _ _ _ _ _ Hrun) as Htime.
  simpl in Hentry, Htime. rewrite Hname, lookup_insert_eq in Hentry.
  split; [exact Hentry |]. split; [exact Htime |].
  unfold ms_since_change, lookup_switch. rewrite Hentry. simpl.
  unfold get_time in *. rewrite Htime. f_equal.
  apply py_round_integer. change (inject_Z 0) with 0%Q. lra.
Qed.

Lemma quiet_preserves {B : Type} (proj : World -> B) :
  env_preserves (H := quiet) proj.
Proof. split; simpl; intros; congruence. Qed.

Lemma accepted_transition_sets_store_witness :
  exists w',
    process_switch (H := quiet) 1 "s" 1 false one_switch = Ok w'
    /\ switches w' !! "s" = Some (mkSwitchState 1 0)
    /\ ms_since_change "s" w' = Ok 0.
Proof.
  destruct (process_switch (H := quiet) 1 "s" 1 false one_switch)
    as [w' | e] eqn:Hrun; [| vm_compute in Hrun; discriminate].
  exists w'. split; [reflexivity |].
  destruct (accepted_transition_sets_store (H := quiet) 1 "s" 1 false
              one_switch w' 0 (new_switch "s" "1" false 0)
              (mkSwitchState 0 (-100000)))
    as (Hentry & _ & Hms).
  - vm_compute. reflexivity.
  - vm_compute. reflexivity.
  - vm_compute. reflexivity.
  - intros _. vm_compute. discriminate.
  - vm_compute. discriminate.
  - apply quiet_preserves.
  - apply quiet_preserves.
  - exact Hrun.
  - split; [exact Hentry | exact Hms].
Defined.

(** ** Inversion *)

(** Claim C3.  For a raw input [state] in {0, 1}: on an inverted switch a
    logical input is dispatched as [state] with the wire level
    [state XOR 1], and a physical input is dispatched as [state XOR 1]
    with the wire level [state]; on a switch that is not inverted both
    are [state].  Whatever the outcome of the call (rejected, duplicate
    or accepted), the device's [hw_state] afterwards is that wire level.
    Unless the call is rejected by the recycle gate, the device's [state]
    and the state held by the store are the logical state; a rejected
    call leaves both as they were.  The handlers and monitors fired are
    assumed not to write the device or the store entry. *)
Theorem hw_state_follows_wire
    `{Environment} (fuel obj : nat) (state : Z) (logical : bool)
    (w w' : World) (o : Switch) :
  machine_switches w !! obj = Some o ->
  state = 0 \/ state = 1 ->
  env_preserves (fun w => machine_switches w !! obj) ->
  env_preserves (fun w => switches w !! lower (sw_name o)) ->
  process_switch_obj fuel obj state logical w = Ok w' ->
  let st := if sw_invert o && negb logical then Z.lxor state 1 else state in
  let hw := if sw_invert o && logical then Z.lxor state 1 else state in
  exists o',
    machine_switches w' !! obj = Some o'
    /\ sw_hw_state o' = hw
    /\ ((sw_state o' = st
         /\ exists s', switches w' !! lower (sw_name o) = Some s'
                       /\ ss_state s' = st)
        \/ (st = 1 /\ (get_time w < sw_recycle_clear_time o)%Q
            /\ sw_state o' = sw_state o
            /\ switches w' = switches w)).
Proof.
  intros Ho Hstate Hdev Hstore Hrun st hw.
  assert (normalize (sw_invert o) state logical = (st, hw)) as Hn.
  { subst st hw. unfold normalize.
    destruct Hstate as [-> | ->]; destruct (sw_invert o), logical; done. }
  rewrite (process_switch_obj_cases _ _ _ _ _ _ Ho) in Hrun.
  rewrite Hn in Hrun. simpl fst in Hrun. simpl snd in Hrun.
  assert (obj < length (machine_switches w))%nat as Hlt
    by (by eapply lookup_lt_Some).
  destruct (truthy st && negb _) eqn:Hgate.
  - injection Hrun as <-. simpl.
    rewrite list_lookup_insert_eq by done.
    eexists. split; [reflexivity |]. split; [reflexivity |].
    right. apply andb_true_iff in Hgate as [Hst Hle].
    split; [| split; [| done]].
    + subst st. destruct Hstate as [-> | ->];
        destruct (sw_invert o), logical; done.
    + apply negb_true_iff in Hle. apply Qnot_le_lt. intros Hle'.
      apply Qle_bool_iff in Hle'. congruence.
  - assert (sw_hw_state (accepted_device st hw (get_time w) o) = hw
            /\ sw_state (accepted_device st hw (get_time w) o) = st)
      as [Hhw Hst].
    { unfold accepted_device. destruct (truthy st); done. }
    unfold lookup_switch in Hrun at 1.
    destruct (switches w !! lower (sw_name o)) as [s |] eqn:Hs; [| done].
    simpl in Hrun.
    destruct (ss_state s =? st) eqn:Hdup.
    + injection Hrun as <-. simpl.
      rewrite list_lookup_insert_eq by done.
      eexists. split; [reflexivity |]. split; [exact Hhw |].
      left. split; [exact Hst |]. exists s. split; [exact Hs |].
      by apply Z.eqb_eq.
    + pose proof (frame_accepted _ (untouched_device obj) Hdev
                    _ _ _ _ _ _ Hrun) as Hframe.
      pose proof (frame_accepted _
                    (untouched_store_entry (lower (sw_name o))) Hstore
                    _ _ _ _ _ _ Hrun) as Hentry.
      simpl in Hframe, Hentry.
      rewrite list_lookup_insert_eq in Hframe by done.
      rewrite lookup_insert_eq in Hentry.
      eexists. split; [exact Hframe |]. split; [exact Hhw |].
      left. split; [exact Hst |]. eexists. split; [exact Hentry |]. done.
Qed.

Lemma hw_state_follows_wire_witness :
  exists w1 o1 w2 o2 s2,
    process_switch_obj (H := quiet) 1 0 1 false tilt_closed = Ok w1
    /\ machine_switches w1 !! 0%nat = Some o1
    /\ sw_hw_state o1 = 1 /\ sw_state o1 = 0
    /\ process_switch_obj (H := quiet) 1 0 1 true tilt_closed = Ok w2
    /\ machine_switches w2 !! 0%nat = Some o2
    /\ sw_hw_state o2 = 0 /\ sw_state o2 = 1
    /\ switches w2 !! "tilt" = Some s2 /\ ss_state s2 = 1.
Proof.
  destruct (process_switch_obj (H := quiet) 1 0 1 false tilt_closed)
    as [w1 | e1] eqn:Hrun1; [| vm_compute in Hrun1; discriminate].
  destruct (process_switch_obj (H := quiet) 1 0 1 true tilt_closed)
    as [w2 | e2] eqn:Hrun2; [| vm_compute in Hrun2; discriminate].
  destruct (hw_state_follows_wire (H := quiet) 1 0 1 false tilt_closed w1
              (new_switch "tilt" "4" true 0))
    as (o1 & Ho1 & Hhw1 & Hst1).
  { vm_compute. reflexivity. }
  { by right. }
  { apply quiet_preserves. }
  { apply quiet_preserves. }
  { exact Hrun1. }
  destruct (hw_state_follows_wire (H := quiet) 1 0 1 true tilt_closed w2
              (new_switch "tilt" "4" true 0))
    as (o2 & Ho2 & Hhw2 & Hst2).
  { vm_compute. reflexivity. }
  { by right. }
  { apply quiet_preserves. }
  { apply quiet_preserves. }
  { exact Hrun2. }
  destruct Hst1 as [[Hst1 _] | (Hone & _)];
    [| vm_compute in Hone; discriminate].
  destruct Hst2 as [(Hst2 & s2 & Hs2 & Hss2) | (_ & Hlt & _)];
    [| vm_compute in Hlt; discriminate].
  exists w1, o1, w2, o2, s2.
  split; [reflexivity |]. split; [exact Ho1 |].
  split; [exact Hhw1 |]. split; [exact Hst1 |].
  split; [reflexivity |]. split; [exact Ho2 |].
  split; [exact Hhw2 |]. split; [exact Hst2 |].
  split; [exact Hs2 | exact Hss2].
Defined.


(** ** Cancellation of pendings on a transition *)

(** Claim C2 does not hold of the code.  Two pendings that watch switch
    [s] for state 0 share the bucket of 1.1 s; the switch is activated
    again at 1.05 s, the transition is accepted, and the second pending is
    still queued afterwards. *)
Theorem cancel_skips_adjacent_pending :
  exists w_before w_after k first second,
    two_dwell_watchers = Ok w_before
    /\ active_timed_switches w_before = [(k, [first; second])]
    /\ first = mkTimedSwitchHandler (CbUser 1) "s" 0 100
    /\ second = mkTimedSwitchHandler (CbUser 2) "s" 0 100
    /\ process_switch (H := quiet) 1 "s" 1 false
         (set_clock_time (21 # 20) w_before) = Ok w_after
    /\ switches w_after !! "s" = Some (mkSwitchState 1 (21 # 20))
    /\ active_timed_switches w_after = [(k, [second])]
    /\ tsh_switch_name second = "s"
    /\ tsh_state second = Z.lxor 1 1.
Proof.
  eexists _, _, _, _, _.
  split; [vm_compute; reflexivity |].
  split; [vm_compute; reflexivity |].
  split; [reflexivity |].
  split; [reflexivity |].
  split; [vm_compute; reflexivity |].
  repeat split; vm_compute; reflexivity.
Qed.

(** ** The wake timer after a drain pass *)

(** Claim C9 does not hold of the code.  While the bucket of 1.0 s is
    drained, its handler registers a dwell handler whose pending is due at
    2.0 s; the pass then reschedules the wake timer from the buckets it saw
    at its start, for 5.0 s, later than the earliest deadline queued. *)
Theorem drain_overrides_earlier_wake :
  exists w_before w_after k5 k2 kept joined wake,
    wake_due = Ok w_before
    /\ fire_timer (H := joining) 1 1 w_before = Ok w_after
    /\ active_timed_switches w_after = [(k5, [kept]); (k2, [joined])]
    /\ tsh_callback joined = CbUser 9
    /\ (k5 == 5)%Q /\ (k2 == 2)%Q
    /\ py_min (fd_keys (active_timed_switches w_after)) = Some k2
    /\ clock_timers w_after = [wake]
    /\ t_action wake = TimedWake
    /\ (t_deadline wake == 5)%Q
    /\ ~ (t_deadline wake == k2)%Q.
Proof.
  eexists _, _, _, _, _, _, _.
  split; [vm_compute; reflexivity |].
  split; [vm_compute; reflexivity |].
  split; [reflexivity |].
  repeat split; try (vm_compute; reflexivity).
  vm_compute. discriminate.
Qed.

(** ** Cleanup after the wait future completes *)

(** Claim C8 does not hold of the code.  The future returned by
    [wait_for_any_switch(["a", "a"], 1, True, 100)] is cancelled while the
    bucket of 0.1 s holds two pendings of its second transient handler;
    the done-callback empties the registry bucket but leaves one of these
    pendings queued. *)
Theorem wait_cleanup_leaves_pending :
  exists future w w1 w2 h1 h2 k stale,
    repeated_wait = Ok (future, w)
    /\ handler_lists w !! 0%nat = Some [h1; h2]
    /\ future_cancel future w = Ok w1
    /\ loop_ready w1 = [(0%nat, future)]
    /\ run_ready w1 = Ok w2
    /\ (fut_state <$> futures w2 !! future) = Some FutCancelled
    /\ registered_switches w2 !! "a-1" = Some []
    /\ active_timed_switches w2 = [(k, [stale])]
    /\ stale = mkTimedSwitchHandler (sh_callback h2) (sh_switch_name h2)
                 (sh_state h2) (sh_ms h2).
Proof.
  eexists _, _, _, _, _, _, _, _.
  split; [vm_compute; reflexivity |].
  split; [vm_compute; reflexivity |].
  split; [vm_compute; reflexivity |].
  split; [vm_compute; reflexivity |].
  split; [vm_compute; reflexivity |].
  repeat split; vm_compute; reflexivity.
Qed.


(** What [_cancel_timed_handlers] does to the queue: each bucket goes
    through the enumerate-and-delete loop, which is [sweep].  So a pending
    that does not watch the opposite state of the switch is never removed,
    and all that do are removed from a bucket in which no two of them are
    neighbours. *)
Lemma _cancel_timed_handlers_sweeps (name : string) (state : Z) (w : World) :
  fd_wf (active_timed_switches w) = true ->
  _cancel_timed_handlers name state w
  = set_active_timed_switches
      (fd_map (sweep (cancels name state)) (active_timed_switches w)) w.
Proof.
  intros Hwf. unfold _cancel_timed_handlers.
  rewrite (fold_active_world
             (fun d k =>
                fd_set k
                  (cancel_bucket name state (length (default [] (fd_get k d)))
                     0 (default [] (fd_get k d))) d)).
  f_equal.
  rewrite (fold_left_pointwise _
             (fun d k =>
                fd_set k (sweep (cancels name state) (default [] (fd_get k d)))
                  d)).
  - apply (fd_fold_buckets (sweep (cancels name state)) []
             (active_timed_switches w) []); [done | constructor].
  - intros d k. by rewrite cancel_bucket_enumerate_del, enumerate_del_is_sweep.
Qed.


(** ** The wake timer on insertion *)

Lemma py_min_from_spec (m : Q) (xs : list Q) :
  (py_min_from m xs <= m)%Q
  /\ Forall (fun x => (py_min_from m xs <= x)%Q) xs
  /\ py_min_from m xs ∈ m :: xs.
Proof.
  revert m. induction xs as [| x xs IH]; intros m; simpl.
  - split; [lra |]. split; [constructor | apply list_elem_of_here].
  - destruct (Qlt_le_dec x m) as [Hlt | Hle];
      [destruct (IH x) as (Hm & Hall & Hin)
      | destruct (IH m) as (Hm & Hall & Hin)].
    + split; [lra |]. split; [by constructor |].
      by apply list_elem_of_further.
    + split; [done |]. split; [constructor; [lra | done] |].
      apply elem_of_cons in Hin as [-> | Hin];
        [apply list_elem_of_here |].
      by do 2 apply list_elem_of_further.
Qed.

(** [min(keys)] is a key and no key is smaller. *)
Lemma py_min_least (xs : list Q) (m : Q) :
  py_min xs = Some m -> m ∈ xs /\ Forall (fun x => (m <= x)%Q) xs.
Proof.
  destruct xs as [| x xs]; [done |]. simpl. intros [= <-].
  destruct (py_min_from_spec x xs) as (Hm & Hall & Hin).
  split; [done | by constructor].
Qed.



(** ** Fuel of the monitor loop *)

Lemma notify_monitors_more_fuel
    `{Environment} (fuel extra i : nat)
    (change : World -> result MonitoredSwitchChange) (w w' : World) :
  notify_monitors fuel i change w = Ok w' ->
  notify_monitors (fuel + extra) i change w = Ok w'.
Proof.
  revert i w. induction fuel as [| fuel IH]; intros i w; simpl.
  - destruct (monitors w !! i) eqn:Hm; [done |]. intros [= <-].
    destruct extra; simpl; by rewrite Hm.
  - destruct (monitors w !! i) as [m |]; [| done].
    destruct (change w) as [c |]; [| done]. simpl.
    destruct (run_monitor m c w) as [w1 |]; [| done]. simpl. apply IH.
Qed.

(** With monitors that return and leave the monitor list alone, one unit
    of fuel per monitor is enough. *)
Lemma notify_monitors_enough_fuel
    `{Environment} (fuel i : nat)
    (change : World -> result MonitoredSwitchChange) (w : World) :
  (forall m c w, exists w', run_monitor m c w = Ok w'
                            /\ monitors w' = monitors w) ->
  (forall w, exists c, change w = Ok c) ->
  (length (monitors w) <= i + fuel)%nat ->
  exists w', notify_monitors fuel i change w = Ok w'.
Proof.
  intros Hmon Hchange. revert i w.
  induction fuel as [| fuel IH]; intros i w Hlen; simpl.
  - rewrite lookup_ge_None_2 by lia. eauto.
  - destruct (monitors w !! i) as [m |]; [| eauto].
    destruct (Hchange w) as [c ->]. simpl.
    destruct (Hmon m c w) as (w1 & -> & Hsame). simpl.
    apply IH. rewrite Hsame. lia.
Qed.

(** ** The wait primitive: what holds of the code *)

(** A handler that fires after the future is done sets no second result. *)
Lemma _wait_handler_after_done
    `{Environment} (f : nat) (ms : Z) (name : string) (w : World)
    (fu : Future) :
  futures w !! f = Some fu ->
  fut_state fu <> FutPending ->
  _wait_handler f ms name w = Ok w.
Proof.
  intros Hf Hdone. unfold _wait_handler, future_done, get_future.
  rewrite Hf. simpl. by destruct (fut_state fu).
Qed.

Lemma first_in_state_set_futures
    (names : list string) (state ms : Z) (fs : list Future) (w : World) :
  first_in_state names state ms (set_futures fs w)
  = first_in_state names state ms w.
Proof.
  induction names as [| n names IH]; [done |]. simpl.
  change (is_state n state (Some ms) (set_futures fs w))
    with (is_state n state (Some ms) w).
  destruct (is_state n state (Some ms) w) as [[|] |]; simpl; done.
Qed.

(** [first_in_state] finds the first listed switch that is in the state. *)
Lemma first_in_state_first
    (names : list string) (state ms : Z) (w : World) (n : string) :
  first_in_state names state ms w = Ok (Some n) ->
  exists pre post,
    names = pre ++ n :: post
    /\ is_state n state (Some ms) w = Ok true
    /\ Forall (fun m => is_state m state (Some ms) w = Ok false) pre.
Proof.
  induction names as [| m names IH]; [done |]. simpl.
  destruct (is_state m state (Some ms) w) as [[|] |] eqn:Hm; simpl; [| | done].
  - intros [= <-]. exists [], names. by repeat split.
  - intros Hrest. destruct (IH Hrest) as (pre & post & -> & Hn & Hpre).
    exists (m :: pre), post. repeat split; [done |]. by constructor.
Qed.

(** With [only_on_change] false and a listed switch already in the state,
    the future is returned resolved with the first such switch, and
    neither the registry nor the timed queue nor the event loop is
    touched. *)
Lemma wait_resolves_immediately
    (names : list string) (state ms : Z) (w : World) (n : string) :
  first_in_state names state ms w = Ok (Some n) ->
  exists w',
    wait_for_any_switch names state false ms w = Ok (length (futures w), w')
    /\ futures w'
       = futures w ++ [mkFuture (FutResult (mkWaitResult n (Some state) ms)) []]
    /\ registered_switches w' = registered_switches w
    /\ active_timed_switches w' = active_timed_switches w
    /\ handler_lists w' = handler_lists w
    /\ loop_ready w' = loop_ready w.
Proof.
  intros Hfirst. unfold wait_for_any_switch. simpl negb. cbv iota.
  rewrite first_in_state_set_futures, Hfirst. simpl rbind.
  unfold future_set_result, get_future. simpl.
  rewrite list_lookup_middle by done. simpl.
  eexists. split; [reflexivity |]. simpl.
  rewrite app_nil_r.
  replace (length (futures w)) with (length (futures w) + 0)%nat by lia.
  rewrite insert_app_r. simpl. done.
Qed.

(** Registration without [return_info] and keyword arguments appends one
    record to the bucket and hands back the key of that record. *)
Lemma add_switch_handler_plain
    (name : string) (callback : Callback) (state ms : Z) (w w' : World)
    (handler : SwitchHandler) :
  add_switch_handler name callback state ms false [] w = Ok (handler, w') ->
  handler = mkSwitchHandler name callback state ms
  /\ (exists l,
        registered_switches w !! lower (switch_key name state) = Some l
        /\ registered_switches w'
           = <[lower (switch_key name state) :=
                 l ++ [mkRegisteredSwitch ms callback]]> (registered_switches w))
  /\ handler_lists w' = handler_lists w
  /\ futures w' = futures w
  /\ loop_ready w' = loop_ready w
  /\ next_oid w' = next_oid w.
Proof.
  unfold add_switch_handler. simpl. unfold lookup_registered.
  destruct (registered_switches w !! lower (switch_key name state))
    as [l |] eqn:Hl; [| done].
  simpl rbind.
  set (w1 := set_registered_switches _ w).
  assert (forall r : result World,
            (r = Ok w1
             \/ (exists t v, r = _add_timed_switch_handler t v w1)
             \/ (exists e, r = Raise e)) ->
            (w2 <- r ;; Ok (mkSwitchHandler name callback state ms, w2))
            = Ok (handler, w') ->
            handler = mkSwitchHandler name callback state ms
            /\ (exists l0, Some l = Some l0
                  /\ registered_switches w'
                     = <[lower (switch_key name state) :=
                           l0 ++ [mkRegisteredSwitch ms callback]]>
                         (registered_switches w))
            /\ handler_lists w' = handler_lists w
            /\ futures w' = futures w
            /\ loop_ready w' = loop_ready w
            /\ next_oid w' = next_oid w) as Hcases.
  { intros r [-> | [(t & v & ->) | (e & ->)]]; [| | done].
    - simpl. intros [= <- <-]. split; [done |]. split; [by exists l |]. done.
    - destruct (_add_timed_switch_handler_ok t v w1)
        as (w2 & -> & _ & _ & Hreg & _ & _ & _ & Hfut & Hhl & Hready & Hoid).
      simpl. intros [= <- <-]. split; [done |].
      split; [exists l; by rewrite Hreg |].
      by rewrite Hfut, Hhl, Hready, Hoid. }
  apply Hcases.
  destruct (truthy ms); [| by left].
  destruct (ms_since_change name w1) as [since | e]; simpl; [| by eauto].
  destruct (since <? ms); [| by left].
  match goal with
  | |- context [rbind ?r _] => destruct r as [[|] | e]; simpl
  end; [| by left | by eauto].
  destruct (ms_since_change name w1) as [since' | e]; simpl; [| by eauto].
  right. left. eauto.
Qed.


(** Registered records stay registered while the wait handlers are added. *)
Lemma add_wait_handlers_keeps
    (handlers future : nat) (names : list string) (state ms : Z)
    (w w' : World) (key : string) (l : list RegisteredSwitch)
    (r : RegisteredSwitch) :
  add_wait_handlers handlers future names state ms w = Ok w' ->
  registered_switches w !! key = Some l -> r ∈ l ->
  exists l', registered_switches w' !! key = Some l' /\ r ∈ l'.
Proof.
  revert w l. induction names as [| n names IH]; intros w l.
  - intros [= <-]. eauto.
  - simpl. destruct (add_switch_handler _ _ _ _ _ _ _) as [[h w1] |] eqn:Hadd;
      [| done].
    simpl. intros Hrest Hl Hr.
    apply add_switch_handler_plain in Hadd
      as (_ & (l0 & Hl0 & Hreg) & _).
    simpl in Hl0, Hreg.
    destruct (decide (lower (switch_key n state) = key)) as [<- | Hne].
    + eapply (IH _ (l0 ++ [_])); [exact Hrest | |].
      * simpl. rewrite Hreg. apply lookup_insert_eq.
      * rewrite Hl in Hl0. injection Hl0 as <-.
        apply elem_of_app. by left.
    + eapply (IH _ l); [exact Hrest | | done].
      simpl. rewrite Hreg. by rewrite lookup_insert_ne.
Qed.

(** One transient handler per listed switch, in list order: its key is
    appended to the shared [handlers] list and its record is in the
    registry bucket of the switch. *)
Lemma add_wait_handlers_keys
    (handlers future : nat) (names : list string) (state ms : Z)
    (w w' : World) (hs0 : list SwitchHandler) :
  handler_lists w !! handlers = Some hs0 ->
  add_wait_handlers handlers future names state ms w = Ok w' ->
  exists hs,
    handler_lists w' !! handlers = Some (hs0 ++ hs)
    /\ Forall2 (transient_for future state ms) hs names
    /\ Forall (fun h =>
                 exists l,
                   registered_switches w'
                     !! lower (switch_key (sh_switch_name h) state) = Some l
                   /\ mkRegisteredSwitch ms (sh_callback h) ∈ l) hs
    /\ futures w' = futures w
    /\ loop_ready w' = loop_ready w.
Proof.
  revert w hs0. induction names as [| n names IH]; intros w hs0 Hhs.
  - intros [= <-]. exists []. rewrite app_nil_r.
    repeat split; [done | constructor | constructor].
  - simpl. destruct (add_switch_handler _ _ _ _ _ _ _) as [[h w1] |] eqn:Hadd;
      [| done].
    simpl. intros Hrest.
    apply add_switch_handler_plain in Hadd
      as (-> & (l0 & Hl0 & Hreg) & Hhl & Hfut & Hready & _).
    simpl in Hl0, Hreg, Hhl, Hfut, Hready.
    pose proof Hrest as Hrest0.
    eapply (IH _ (hs0 ++ [mkSwitchHandler n
                            (CbWait (next_oid w) future ms n) state ms]))
      in Hrest as (hs & Hhs' & Hall & Hreg' & Hfut' & Hready');
      [| cbn [handler_lists set_handler_lists];
         rewrite Hhl, list_lookup_alter_eq, Hhs; done].
    exists (mkSwitchHandler n (CbWait (next_oid w) future ms n) state ms :: hs).
    split; [by rewrite <- (assoc_L (++)) in Hhs' |].
    split; [constructor; [by eexists | done] |].
    split.
    + constructor; [| done]. simpl.
      eapply (add_wait_handlers_keeps _ _ _ _ _ _ _ _ (l0 ++ [_]));
        [exact Hrest0 | | apply elem_of_app; right; apply list_elem_of_here].
      simpl. rewrite Hreg. apply lookup_insert_eq.
    + simpl in Hfut', Hready'. by rewrite Hfut', Hready', Hfut, Hready.
Qed.

(** X17.  When the future is not resolved at once, it is returned pending
    with one done-callback, which holds the list of the keys of one
    transient handler per listed switch, all registered. *)
Lemma wait_registers_transient_handlers
    (names : list string) (state ms : Z) (only_on_change : bool)
    (w w' : World) (future : nat) :
  (only_on_change = true \/ first_in_state names state ms w = Ok None) ->
  wait_for_any_switch names state only_on_change ms w = Ok (future, w') ->
  future = length (futures w)
  /\ exists hs,
       handler_lists w' !! length (handler_lists w) = Some hs
       /\ Forall2 (transient_for future state ms) hs names
       /\ Forall (fun h =>
                    exists l,
                      registered_switches w'
                        !! lower (switch_key (sh_switch_name h) state) = Some l
                      /\ mkRegisteredSwitch ms (sh_callback h) ∈ l) hs
       /\ futures w' !! future
          = Some (mkFuture FutPending [length (handler_lists w)])
       /\ loop_ready w' = loop_ready w.
Proof.
  intros Hnone. unfold wait_for_any_switch.
  assert ((if negb only_on_change
           then first_in_state names state ms
                  (set_futures (futures w ++ [mkFuture FutPending []]) w)
           else Ok None) = Ok None) as ->.
  { destruct Hnone as [-> | Hnone]; [done |].
    rewrite first_in_state_set_futures, Hnone. by destruct only_on_change. }
  simpl rbind. unfold future_add_done_callback, get_future. simpl.
  rewrite list_lookup_middle by done. simpl.
  replace (length (futures w)) with (length (futures w) + 0)%nat at 2 by lia.
  rewrite insert_app_r. simpl.
  destruct (add_wait_handlers _ _ _ _ _ _) as [w2 |] eqn:Hadd; [| done].
  simpl. intros [= <- <-]. split; [done |].
  pose proof Hadd as Hadd0.
  eapply (add_wait_handlers_keys _ _ _ _ _ _ _ []) in Hadd
    as (hs & Hhs & Hall & Hreg & Hfut & Hready);
    [| simpl; apply list_lookup_middle; done].
  exists hs. simpl in *. rewrite Hfut, Hready.
  repeat split; try done.
  apply list_lookup_middle. done.
Qed.

(** * Further properties of the controller *)

(** ** Queries *)

Lemma truthy_or_zero (m : Z) : (if truthy m then m else 0) = m.
Proof. unfold truthy. destruct (Z.eqb_spec m 0) as [-> |]; done. Qed.

Lemma py_round_ge (k : Z) (x : Q) : (inject_Z k <= x)%Q -> k <= py_round x.
Proof.
  intros Hk. pose proof (py_round_near x) as [Hlo _].
  destruct (Z_lt_le_dec (py_round x) k) as [Hlt |]; [| done].
  assert (inject_Z (py_round x) <= inject_Z (k - 1))%Q as Hle.
  { rewrite <- Zle_Qle. lia. }
  unfold Z.sub in Hle. rewrite inject_Z_plus, inject_Z_opp in Hle.
  change (inject_Z 1) with 1%Q in Hle. exfalso. lra.
Qed.

(** X1.  A switch that has been in a state for [ms] milliseconds has been
    in it for every shorter time. *)
Theorem is_state_shorter_dwell
    (switch_name : string) (state ms ms' : Z) (w : World) :
  ms' <= ms ->
  is_state switch_name state (Some ms) w = Ok true ->
  is_state switch_name state (Some ms') w = Ok true.
Proof.
  intros Hle. unfold is_state. rewrite !truthy_or_zero.
  destruct (lookup_switch switch_name w) as [s |]; [| done]. simpl.
  destruct (ss_state s =? state); [| done].
  destruct (ms_since_change switch_name w) as [since |]; [| done]. simpl.
  intros [= Hms]. f_equal. apply Z.leb_le. apply Z.leb_le in Hms. lia.
Qed.

Lemma is_state_shorter_dwell_witness :
  is_state "slingshot" 1 (Some 100) slingshot_active = Ok true
  /\ is_state "slingshot" 1 (Some 40) slingshot_active = Ok true.
Proof.
  assert (is_state "slingshot" 1 (Some 100) slingshot_active = Ok true)
    as Hlong by (vm_compute; reflexivity).
  split; [exact Hlong |].
  apply (is_state_shorter_dwell "slingshot" 1 100 40 slingshot_active);
    [lia | exact Hlong].
Defined.

(** X2.  For a switch in the store whose last change is not in the future,
    [is_active] and [is_inactive] without a dwell just compare the stored
    state with 1 and with 0; and whatever the dwells asked for, a switch
    is never reported both active and inactive. *)
Theorem is_active_is_inactive
    (switch_name : string) (w : World) (s : SwitchState) :
  switches w !! lower switch_name = Some s ->
  (ss_time s <= get_time w)%Q ->
  is_active switch_name None w = Ok (ss_state s =? 1)
  /\ is_inactive switch_name None w = Ok (ss_state s =? 0)
  /\ forall ms1 ms2,
       ~ (is_active switch_name ms1 w = Ok true
          /\ is_inactive switch_name ms2 w = Ok true).
Proof.
  intros Hs Htime.
  assert (0 <= py_round ((get_time w - ss_time s) * 1000)) as Hsince.
  { apply py_round_nonneg. nra. }
  unfold is_active, is_inactive, is_state, ms_since_change, lookup_switch.
  rewrite Hs. simpl.
  split; [| split].
  - destruct (ss_state s =? 1); [| done]. f_equal. by apply Z.leb_le.
  - destruct (ss_state s =? 0); [| done]. f_equal. by apply Z.leb_le.
  - intros ms1 ms2 [Hon Hoff].
    destruct (Z.eqb_spec (ss_state s) 1) as [H1 |]; [| done].
    destruct (Z.eqb_spec (ss_state s) 0) as [H0 |]; [| done].
    lia.
Qed.

Lemma is_active_is_inactive_witness :
  is_active "slingshot" None slingshot_active = Ok true
  /\ is_inactive "slingshot" None slingshot_active = Ok false.
Proof.
  destruct (is_active_is_inactive "slingshot" slingshot_active
              (mkSwitchState 1 0)) as (Hon & Hoff & _).
  - vm_compute. reflexivity.
  - vm_compute. discriminate.
  - split; [exact Hon | exact Hoff].
Defined.

(** ** Registration of a switch *)

Lemma lower_app (a b : string) : lower (a ++ b) = (lower a ++ lower b)%string.
Proof. induction a as [| c a IH]; simpl; [done | by rewrite IH]. Qed.

Lemma string_app_inv_head (a b c : string) :
  (a ++ b)%string = (a ++ c)%string -> b = c.
Proof. induction a as [| x a IH]; simpl; [done |]. intros [= H]. by apply IH. Qed.

Lemma bucket_keys_differ (name : string) :
  lower (name ++ "-0") <> lower (name ++ "-1").
Proof.
  rewrite !lower_app. intros Heq. apply string_app_inv_head in Heq.
  vm_compute in Heq. discriminate.
Qed.

Lemma switch_key_0 (name : string) : switch_key name 0 = (name ++ "-0")%string.
Proof. reflexivity. Qed.

Lemma switch_key_1 (name : string) : switch_key name 1 = (name ++ "-1")%string.
Proof. reflexivity. Qed.

(** X3.  [register_switch], whatever was registered before: both buckets
    of the switch are empty afterwards and the store holds the switch as
    inactive since the sentinel time, so that with a clock that is not
    negative the switch counts as inactive for any dwell up to 10^8 ms
    and as not active. *)
Theorem register_switch_ready (name : string) (ms : Z) (w : World) :
  (0 <= get_time w)%Q ->
  ms <= 100000000 ->
  let w' := register_switch name w in
  registered_switches w' !! lower (switch_key name 0) = Some []
  /\ registered_switches w' !! lower (switch_key name 1) = Some []
  /\ lookup_switch name w' = Ok (mkSwitchState 0 (-100000))
  /\ is_inactive name (Some ms) w' = Ok true
  /\ is_active name (Some ms) w' = Ok false.
Proof.
  intros Hnow Hms w'.
  assert (switches w' !! lower name = Some (mkSwitchState 0 (-100000)))
    as Hstore.
  { subst w'. unfold register_switch, set_state. simpl.
    apply lookup_insert_eq. }
  split; [| split; [| split; [| split]]].
  - subst w'. unfold register_switch, set_state. simpl.
    rewrite switch_key_0, lookup_insert_ne by (symmetry; apply bucket_keys_differ).
    apply lookup_insert_eq.
  - subst w'. unfold register_switch, set_state. simpl.
    rewrite switch_key_1. apply lookup_insert_eq.
  - unfold lookup_switch. by rewrite Hstore.
  - unfold is_inactive, is_state, ms_since_change, lookup_switch.
    rewrite Hstore. simpl. rewrite truthy_or_zero. f_equal.
    apply Z.leb_le.
    transitivity 100000000; [done |].
    apply py_round_ge. subst w'. unfold get_time in *. simpl.
    change (inject_Z 100000000) with (100000000)%Q. lra.
  - unfold is_active, is_state, lookup_switch. rewrite Hstore. done.
Qed.

Lemma register_switch_ready_witness :
  is_inactive "s" (Some 5000) (register_switch "s" pop_in_window) = Ok true
  /\ registered_switches (register_switch "s" pop_in_window) !! "s-1" = Some [].
Proof.
  destruct (register_switch_ready "s" 5000 pop_in_window)
    as (_ & H1 & _ & Hoff & _).
  - vm_compute. discriminate.
  - lia.
  - split; [exact Hoff | exact H1].
Defined.

(** ** Registration of a handler *)



(** ** Monitors *)

Lemma set_monitors_same (w : World) : set_monitors (monitors w) w = w.
Proof. by destruct w. Qed.

(** X5.  [add_monitor] keeps the monitor list free of duplicates: the
    monitor is in the list afterwards, every monitor that was in it still
    is, in the same order, and adding a monitor twice is adding it once. *)
Theorem add_monitor_no_duplicates (monitor : nat) (w : World) :
  NoDup (monitors w) ->
  NoDup (monitors (add_monitor monitor w))
  /\ monitor ∈ monitors (add_monitor monitor w)
  /\ (exists tail, monitors (add_monitor monitor w) = monitors w ++ tail)
  /\ add_monitor monitor (add_monitor monitor w) = add_monitor monitor w.
Proof.
  intros Hnodup. unfold add_monitor at 1 2 3 5.
  case_bool_decide as Hin.
  - split; [done |]. split; [done |].
    split; [exists []; by rewrite app_nil_r |].
    unfold add_monitor. by rewrite bool_decide_eq_true_2.
  - simpl. split; [| split; [| split]].
    + apply NoDup_app. split; [done |]. split; [| apply NoDup_singleton].
      intros x Hx Hx'. apply list_elem_of_singleton in Hx' as ->. done.
    + apply elem_of_app. right. apply list_elem_of_here.
    + by eexists.
    + unfold add_monitor. simpl.
      rewrite bool_decide_eq_true_2
        by (apply elem_of_app; right; apply list_elem_of_here).
      by rewrite bool_decide_eq_false_2.
Qed.

Lemma add_monitor_no_duplicates_witness :
  monitors (add_monitor 4 (add_monitor 4 (add_monitor 2 one_switch))) = [2; 4]%nat.
Proof.
  destruct (add_monitor_no_duplicates 4 (add_monitor 2 one_switch))
    as (_ & _ & _ & Htwice).
  - vm_compute. apply NoDup_singleton.
  - rewrite Htwice. vm_compute. reflexivity.
Defined.

Lemma filter_all {A : Type} (P : A -> Prop) `{forall x, Decision (P x)}
    (l : list A) :
  (forall y, y ∈ l -> P y) -> filter P l = l.
Proof.
  induction l as [| y l IH]; [done |]. intros Hall.
  rewrite filter_cons_True by (apply Hall, list_elem_of_here).
  f_equal. apply IH. intros z Hz. by apply Hall, list_elem_of_further.
Qed.

Lemma py_remove_filter {A : Type} `{EqDecision A} (x : A) (l : list A) :
  NoDup l -> py_remove x l = filter (fun y => y <> x) l.
Proof.
  induction l as [| y l IH]; [done |]. intros Hnodup.
  apply NoDup_cons in Hnodup as [Hy Hnodup]. simpl.
  case_bool_decide as Hyx.
  - subst y. rewrite filter_cons_False by (intros Hne; by apply Hne).
    symmetry. apply filter_all. intros z Hz ->. done.
  - rewrite filter_cons_True by done. f_equal. by apply IH.
Qed.

(** X6.  [remove_monitor] undoes [add_monitor] of a monitor that was not
    registered; on a list without duplicates it removes the monitor and
    keeps the others in their order; a monitor that is not registered is
    ignored. *)
Theorem remove_monitor_undoes_add (monitor : nat) (w : World) :
  NoDup (monitors w) ->
  (monitor ∉ monitors w ->
   remove_monitor monitor (add_monitor monitor w) = w
   /\ remove_monitor monitor w = w)
  /\ monitors (remove_monitor monitor w)
     = filter (fun m => m <> monitor) (monitors w)
  /\ monitor ∉ monitors (remove_monitor monitor w).
Proof.
  intros Hnodup.
  assert (monitors (remove_monitor monitor w)
          = filter (fun m => m <> monitor) (monitors w)) as Hfilter.
  { unfold remove_monitor. case_bool_decide as Hin; simpl.
    - by apply py_remove_filter.
    - symmetry. apply filter_all. intros m Hm ->. done. }
  split; [| split; [exact Hfilter |]].
  - intros Hnew. split.
    + unfold add_monitor. rewrite bool_decide_eq_false_2 by done.
      unfold remove_monitor. simpl.
      rewrite bool_decide_eq_true_2
        by (apply elem_of_app; right; apply list_elem_of_here).
      rewrite py_remove_first by done. rewrite app_nil_r.
      by destruct w.
    + unfold remove_monitor. by rewrite bool_decide_eq_false_2.
  - rewrite Hfilter. intros Hin. apply list_elem_of_filter in Hin as [Hne _].
    by apply Hne.
Qed.

Lemma remove_monitor_undoes_add_witness :
  remove_monitor 4 (add_monitor 4 (add_monitor 2 one_switch))
  = add_monitor 2 one_switch
  /\ monitors (remove_monitor 2 (add_monitor 4 (add_monitor 2 one_switch)))
     = [4%nat].
Proof.
  split.
  - apply (remove_monitor_undoes_add 4 (add_monitor 2 one_switch)).
    + vm_compute. apply NoDup_singleton.
    + vm_compute. intros Hin. apply list_elem_of_singleton in Hin. discriminate.
  - vm_compute. reflexivity.
Defined.

(** ** The next timed event *)

(** X7.  [get_next_timed_switch_event] raises [AssertionError] on an empty
    timed queue; otherwise it returns one of the deadlines of the queue,
    and no deadline of the queue is earlier.  A bucket that has been
    emptied still counts. *)
Theorem get_next_timed_switch_event_least (w : World) :
  (active_timed_switches w = [] ->
   get_next_timed_switch_event w = Raise AssertionError)
  /\ (active_timed_switches w <> [] ->
      exists t,
        get_next_timed_switch_event w = Ok t
        /\ t ∈ fd_keys (active_timed_switches w)
        /\ Forall (fun k => (t <= k)%Q) (fd_keys (active_timed_switches w))).
Proof.
  unfold get_next_timed_switch_event. split.
  - intros ->. done.
  - intros Hne.
    destruct (py_min_is_Some (fd_keys (active_timed_switches w))) as [t Ht].
    { destruct (active_timed_switches w); [done | discriminate]. }
    rewrite Ht. exists t. split; [done |]. by apply py_min_least.
Qed.

(** X8.  [_add_timed_switch_handler] never fails.  Afterwards the bucket
    of the deadline is what it was (empty, if there was none) with the
    pending appended, the buckets of all other deadlines are what they
    were, and the deadlines of the queue are still pairwise different. *)
Theorem _add_timed_switch_handler_bucket
    (time : Q) (tsh : TimedSwitchHandler) (w : World) :
  exists w',
    _add_timed_switch_handler time tsh w = Ok w'
    /\ fd_get time (active_timed_switches w')
       = Some (default [] (fd_get time (active_timed_switches w)) ++ [tsh])
    /\ (forall k, Qeq_bool time k = false ->
                  fd_get k (active_timed_switches w')
                  = fd_get k (active_timed_switches w))
    /\ (fd_wf (active_timed_switches w) = true ->
        fd_wf (active_timed_switches w') = true).
Proof.
  destruct (_add_timed_switch_handler_ok time tsh w) as (w' & Hrun & Hq & _).
  exists w'. split; [exact Hrun |]. rewrite Hq.
  split; [apply fd_get_set_eq |].
  split; [intros k Hk; by apply fd_get_set_ne | apply fd_wf_set].
Qed.

(** ** Synchronisation with the hardware *)

Lemma read_level_with_state (hw : string -> gmap string Z) (v : Z) (o : Switch) :
  read_level hw (with_state v o) = read_level hw o.
Proof. done. Qed.

Lemma with_state_same (v : Z) (o : Switch) : with_state v o = o <-> v = sw_state o.
Proof.
  split.
  - intros Heq. by apply (f_equal sw_state) in Heq.
  - intros ->. by destruct o.
Qed.

Lemma read_switches_ok (hw : string -> gmap string Z) (l : list Switch) :
  Forall (fun o => is_Some (read_level hw o)) l ->
  read_switches hw l = Ok (map (fun o => with_state (hw_logical hw o) o) l).
Proof.
  induction l as [| o l IH]; [done |]. intros Hall.
  apply Forall_cons in Hall as [[level Hlevel] Hall]. simpl.
  unfold read_switch at 1, hw_logical at 1. rewrite Hlevel. simpl.
  by rewrite IH.
Qed.

Lemma read_switches_missing (hw : string -> gmap string Z) (l : list Switch) :
  Exists (fun o => read_level hw o = None) l ->
  read_switches hw l = Raise AssertionError.
Proof.
  induction l as [| o l IH]; intros Hex; [by apply Exists_nil in Hex |].
  simpl. unfold read_switch at 1.
  destruct (read_level hw o) as [level |] eqn:Hlevel; [| done]. simpl.
  apply Exists_cons in Hex as [Hhere | Hlater]; [congruence |].
  by rewrite IH.
Qed.

Lemma read_switches_inv (hw : string -> gmap string Z) (l l' : list Switch) :
  read_switches hw l = Ok l' ->
  Forall (fun o => is_Some (read_level hw o)) l
  /\ l' = map (fun o => with_state (hw_logical hw o) o) l.
Proof.
  intros Hrun.
  assert (Forall (fun o => is_Some (read_level hw o)) l) as Hall.
  { apply Forall_forall. intros o Ho.
    destruct (read_level hw o) as [level |] eqn:Hlevel; [by eexists |].
    rewrite read_switches_missing in Hrun; [done |].
    apply Exists_exists. eauto. }
  split; [done |]. rewrite read_switches_ok in Hrun by done. congruence.
Qed.

Lemma set_machine_switches_same (w : World) :
  set_machine_switches (machine_switches w) w = w.
Proof. by destruct w. Qed.

Lemma update_switches_from_hw_settled
    (hw : string -> gmap string Z) (w : World) :
  Forall (fun o => is_Some (read_level hw o)) (machine_switches w) ->
  let w' := set_machine_switches
              (map (fun o => with_state (hw_logical hw o) o)
                 (machine_switches w)) w in
  update_switches_from_hw hw w' = Ok w'.
Proof.
  intros Hall w'. unfold update_switches_from_hw.
  rewrite read_switches_ok.
  - subst w'. simpl. rewrite map_map. simpl. f_equal.
  - subst w'. apply Forall_map. simpl. exact Hall.
Qed.

Lemma states_match_same (l : list Switch) :
  states_match l (map sw_state l) = true.
Proof. induction l as [| o l IH]; [done |]. simpl. by rewrite Z.eqb_refl. Qed.

(** X9.  [update_switches_from_hw] raises [AssertionError] when a platform
    does not report the number of one of its switches.  Otherwise it sets
    the [state] of every device to the raw level of its number, inverted
    for a normally-closed switch, and touches neither another attribute
    of a device nor the controller; a second update changes nothing. *)
Theorem update_switches_from_hw_outcome
    (hw : string -> gmap string Z) (w : World) :
  (Exists (fun o => read_level hw o = None) (machine_switches w) ->
   update_switches_from_hw hw w = Raise AssertionError)
  /\ (Forall (fun o => is_Some (read_level hw o)) (machine_switches w) ->
      exists w',
        update_switches_from_hw hw w = Ok w'
        /\ w' = set_machine_switches
                  (map (fun o => with_state (hw_logical hw o) o)
                     (machine_switches w)) w
        /\ update_switches_from_hw hw w' = Ok w').
Proof.
  unfold update_switches_from_hw. split.
  - intros Hex. by rewrite read_switches_missing.
  - intros Hall. rewrite read_switches_ok by done. simpl.
    eexists. split; [reflexivity |]. split; [reflexivity |].
    by apply update_switches_from_hw_settled.
Qed.

Lemma states_match_map (f : Switch -> Z) (l : list Switch) :
  states_match (map (fun o => with_state (f o) o) l) (map sw_state l) = true
  <-> map (fun o => with_state (f o) o) l = l.
Proof.
  induction l as [| o l IH]; [done |]. simpl.
  rewrite andb_true_iff, Z.eqb_eq, IH. split.
  - intros [Ho Hl]. rewrite Hl. f_equal. by apply with_state_same.
  - intros [= Ho Hl]. split; [| done]. by apply with_state_same.
Qed.

(** X10.  [verify_switches] answers [True] exactly when no device state
    had to change; whatever the answer, every device state afterwards is
    the state the hardware gives (the method does overwrite the devices),
    the store, the registry, the timed queue and the monitors are as
    before, and a second verification answers [True]. *)
Theorem verify_switches_outcome
    (hw : string -> gmap string Z) (w w' : World) (ok : bool) :
  verify_switches hw w = Ok (ok, w') ->
  (ok = true <-> w' = w)
  /\ Forall (fun o => sw_state o = hw_logical hw o) (machine_switches w')
  /\ switches w' = switches w
  /\ registered_switches w' = registered_switches w
  /\ active_timed_switches w' = active_timed_switches w
  /\ monitors w' = monitors w
  /\ verify_switches hw w' = Ok (true, w').
Proof.
  unfold verify_switches, update_switches_from_hw.
  destruct (read_switches hw (machine_switches w)) as [l |] eqn:Hread; [| done].
  simpl. intros [= <- <-].
  apply read_switches_inv in Hread as [Hall ->].
  split; [| split; [| split; [| split; [| split; [| split]]]]]; try done.
  - rewrite states_match_map. split.
    + intros ->. apply set_machine_switches_same.
    + intros Heq. apply (f_equal machine_switches) in Heq. exact Heq.
  - apply Forall_map. simpl. apply Forall_forall. done.
  - pose proof (update_switches_from_hw_settled hw w Hall) as Hsettled.
    simpl in Hsettled. unfold update_switches_from_hw in Hsettled.
    simpl in Hsettled.
    destruct (read_switches hw _) as [l' |]; [| done].
    simpl in Hsettled. injection Hsettled as Hl'.
    simpl. rewrite Hl'. f_equal. f_equal. apply states_match_same.
Qed.

Lemma verify_switches_outcome_witness :
  exists w',
    verify_switches two_levels tilt_and_s = Ok (false, w')
    /\ map sw_state (machine_switches w') = [1; 1]
    /\ switches w' = switches tilt_and_s
    /\ verify_switches two_levels w' = Ok (true, w').
Proof.
  destruct (verify_switches two_levels tilt_and_s) as [[ok w'] | e] eqn:Hrun;
    [| vm_compute in Hrun; discriminate].
  destruct (verify_switches_outcome two_levels tilt_and_s w' ok Hrun)
    as (_ & _ & Hsw & _ & _ & _ & Hagain).
  assert (ok = false /\ map sw_state (machine_switches w') = [1; 1])
    as [-> Hstates].
  { vm_compute in Hrun. injection Hrun as <- <-. split; reflexivity. }
  exists w'. repeat split; assumption.
Defined.

Lemma fold_set_state_frame {B : Type} (proj : World -> B) (l : list Switch)
    (w : World) :
  (forall s x, proj (set_switches s x) = proj x) ->
  proj (fold_left
          (fun w switch => set_state (sw_name switch) (sw_state switch) true w)
          l w) = proj w.
Proof.
  intros Hproj. revert w. induction l as [| o l IH]; intros w; [done |].
  simpl. rewrite IH. apply Hproj.
Qed.

Lemma fold_set_state_other (key : string) (l : list Switch) (w : World) :
  key ∉ map (fun o => lower (sw_name o)) l ->
  switches
    (fold_left
       (fun w switch => set_state (sw_name switch) (sw_state switch) true w)
       l w) !! key = switches w !! key.
Proof.
  revert w. induction l as [| o l IH]; intros w; [done |]. simpl.
  intros Hnot. apply not_elem_of_cons in Hnot as [Hne Hnot].
  rewrite IH by done. simpl. by rewrite lookup_insert_ne.
Qed.

Lemma fold_set_state_entry (o : Switch) (l : list Switch) (w : World) :
  NoDup (map (fun o => lower (sw_name o)) l) ->
  o ∈ l ->
  switches
    (fold_left
       (fun w switch => set_state (sw_name switch) (sw_state switch) true w)
       l w) !! lower (sw_name o)
  = Some (mkSwitchState (sw_state o) (-100000)).
Proof.
  revert w. induction l as [| a l IH]; intros w Hnodup Hin;
    [by apply elem_of_nil in Hin |].
  simpl in Hnodup. apply NoDup_cons in Hnodup as [Ha Hnodup].
  simpl. apply elem_of_cons in Hin as [-> | Hin].
  - rewrite fold_set_state_other by done. simpl. apply lookup_insert_eq.
  - by apply IH.
Qed.

(** What initialisation leaves: the devices as the hardware gives them,
    one store entry for each, the rest of the controller as it was. *)
Lemma initialize_switches_inv
    (hw : string -> gmap string Z) (w w' : World) :
  NoDup (map (fun o => lower (sw_name o)) (machine_switches w)) ->
  _initialize_switches hw w = Ok w' ->
  machine_switches w'
  = map (fun o => with_state (hw_logical hw o) o) (machine_switches w)
  /\ (forall o, o ∈ machine_switches w' ->
                sw_state o = hw_logical hw o
                /\ switches w' !! lower (sw_name o)
                   = Some (mkSwitchState (hw_logical hw o) (-100000)))
  /\ registered_switches w' = registered_switches w
  /\ active_timed_switches w' = active_timed_switches w
  /\ clock_timers w' = clock_timers w
  /\ monitors w' = monitors w.
Proof.
  intros Hnodup. unfold _initialize_switches, update_switches_from_hw.
  destruct (read_switches hw (machine_switches w)) as [l |] eqn:Hread; [| done].
  simpl. intros [= <-].
  apply read_switches_inv in Hread as [Hall ->].
  set (l := map _ (machine_switches w)).
  assert (NoDup (map (fun o => lower (sw_name o)) l)) as Hnodup'.
  { subst l. rewrite map_map. simpl. exact Hnodup. }
  rewrite (fold_set_state_frame machine_switches),
    (fold_set_state_frame registered_switches),
    (fold_set_state_frame active_timed_switches),
    (fold_set_state_frame clock_timers),
    (fold_set_state_frame monitors) by done.
  simpl. split; [done |]. split; [| done].
  intros o Ho.
  assert (sw_state o = hw_logical hw o) as Hstate.
  { subst l. apply list_elem_of_fmap in Ho as (o0 & -> & _). done. }
  split; [exact Hstate |].
  rewrite <- Hstate. by apply fold_set_state_entry.
Qed.

(** X11.  After [_initialize_switches], on a machine whose switch names
    differ (case-insensitively), every device has the state that the
    hardware gives and the store holds it with the sentinel time, so that
    the time since the last change of every switch is at least 10^8 ms
    when the clock is not negative; the registry, the timed queue, the
    timers and the monitors are untouched: initialisation dispatches
    nothing. *)
Theorem _initialize_switches_store
    (hw : string -> gmap string Z) (w w' : World) :
  NoDup (map (fun o => lower (sw_name o)) (machine_switches w)) ->
  _initialize_switches hw w = Ok w' ->
  (forall o, o ∈ machine_switches w' ->
             sw_state o = hw_logical hw o
             /\ lookup_switch (sw_name o) w'
                = Ok (mkSwitchState (hw_logical hw o) (-100000))
             /\ ((0 <= get_time w')%Q ->
                 exists since, ms_since_change (sw_name o) w' = Ok since
                               /\ 100000000 <= since))
  /\ registered_switches w' = registered_switches w
  /\ active_timed_switches w' = active_timed_switches w
  /\ clock_timers w' = clock_timers w
  /\ monitors w' = monitors w.
Proof.
  intros Hnodup Hinit.
  destruct (initialize_switches_inv hw w w' Hnodup Hinit)
    as (_ & Hstore & Hrest).
  split; [| exact Hrest].
  intros o Ho. destruct (Hstore o Ho) as [Hstate Hentry].
  split; [exact Hstate |].
  unfold ms_since_change, lookup_switch. rewrite Hentry.
  split; [done |]. intros Hnow. eexists. split; [reflexivity |].
  apply py_round_ge. simpl. unfold get_time in *.
  change (inject_Z 100000000) with (100000000)%Q. lra.
Qed.

Lemma _initialize_switches_store_witness :
  exists w',
    _initialize_switches two_levels tilt_and_s = Ok w'
    /\ switches w' !! "tilt" = Some (mkSwitchState 1 (-100000))
    /\ switches w' !! "s" = Some (mkSwitchState 1 (-100000))
    /\ registered_switches w' = registered_switches tilt_and_s.
Proof.
  destruct (_initialize_switches two_levels tilt_and_s) as [w' | e] eqn:Hrun;
    [| vm_compute in Hrun; discriminate].
  destruct (_initialize_switches_store two_levels tilt_and_s w')
    as (_ & Hreg & _).
  - vm_compute. repeat constructor; intros Hin.
    + apply list_elem_of_singleton in Hin. discriminate.
    + by apply elem_of_nil in Hin.
  - exact Hrun.
  - exists w'. split; [reflexivity |].
    vm_compute in Hrun. injection Hrun as <-.
    split; [vm_compute; reflexivity |].
    split; [vm_compute; reflexivity |]. exact Hreg.
Defined.

(** X12.  Replaying to the controller the level that the hardware had at
    initialisation dispatches nothing: the call takes the duplicate-state
    branch, and the store, the registry, the timed queue, the timers and
    the monitors are as initialisation left them. *)
Theorem replay_after_initialize
    `{Environment} (hw : string -> gmap string Z) (fuel obj : nat)
    (level : Z) (w w' : World) (o : Switch) :
  NoDup (map (fun o => lower (sw_name o)) (machine_switches w)) ->
  _initialize_switches hw w = Ok w' ->
  machine_switches w' !! obj = Some o ->
  read_level hw o = Some level ->
  level = 0 \/ level = 1 ->
  (sw_recycle_clear_time o <= get_time w')%Q ->
  exists w'',
    process_switch_obj fuel obj level false w' = Ok w''
    /\ switches w'' = switches w'
    /\ registered_switches w'' = registered_switches w'
    /\ active_timed_switches w'' = active_timed_switches w'
    /\ clock_timers w'' = clock_timers w'
    /\ monitors w'' = monitors w'.
Proof.
  intros Hnodup Hinit Ho Hlevel Hbit Hgate.
  destruct (initialize_switches_inv hw w w' Hnodup Hinit)
    as (_ & Hstore & _).
  destruct (Hstore o (list_elem_of_lookup_2 _ _ _ Ho)) as [_ Hentry].
  rewrite (process_switch_obj_cases _ _ _ _ _ _ Ho).
  rewrite gate_open by (apply normalize_logical_01 || (intros _; exact Hgate)).
  unfold lookup_switch. rewrite Hentry. simpl rbind.
  assert (hw_logical hw o = fst (normalize (sw_invert o) level false)) as ->.
  { unfold hw_logical, normalize. rewrite Hlevel. simpl.
    destruct Hbit as [-> | ->], (sw_invert o); done. }
  simpl. rewrite Z.eqb_refl.
  eexists. split; [reflexivity |]. done.
Qed.

Lemma replay_after_initialize_witness :
  exists w'',
    process_switch_obj (H := quiet) 1 0 0 false tilt_and_s_initialized = Ok w''
    /\ switches w'' = switches tilt_and_s_initialized
    /\ monitors w'' = monitors tilt_and_s_initialized.
Proof.
  destruct (replay_after_initialize (H := quiet) two_levels 1 0 0 tilt_and_s
              tilt_and_s_initialized
              (with_state 1 (new_switch "tilt" "4" true 0)))
    as (w'' & Hrun & Hsw & _ & _ & _ & Hmon).
  - vm_compute. repeat constructor; intros Hin.
    + apply list_elem_of_singleton in Hin. discriminate.
    + by apply elem_of_nil in Hin.
  - vm_compute. reflexivity.
  - vm_compute. reflexivity.
  - vm_compute. reflexivity.
  - by left.
  - vm_compute. discriminate.
  - exists w''. split; [exact Hrun |]. split; [exact Hsw | exact Hmon].
Defined.

(** ** Dwell and the clock *)

Lemma py_round_mono (x y : Q) : (x <= y)%Q -> py_round x <= py_round y.
Proof.
  intros Hxy.
  pose proof (py_round_near x) as [_ Hx].
  pose proof (py_round_near y) as [Hy _].
  destruct (Z_lt_le_dec (py_round y) (py_round x)) as [Hlt |]; [| lia].
  exfalso.
  assert (inject_Z (py_round y + 1) <= inject_Z (py_round x))%Q as Hstep.
  { rewrite <- Zle_Qle. lia. }
  rewrite inject_Z_plus in Hstep. change (inject_Z 1) with 1%Q in Hstep.
  assert (Z.even (py_round x) = true) as Hex.
  { apply py_round_tie_even. right. lra. }
  assert (Z.even (py_round y) = true) as Hey.
  { apply py_round_tie_even. left. lra. }
  assert (py_round x = py_round y + 1) as Heq.
  { assert (inject_Z (py_round x) <= inject_Z (py_round y + 1))%Q as Hle.
    { rewrite inject_Z_plus. change (inject_Z 1) with 1%Q. lra. }
    rewrite <- Zle_Qle in Hle. lia. }
  rewrite Heq, Z.even_add, Hey in Hex. done.
Qed.

(** X13.  While the store entry of a switch is not rewritten, a dwell that
    has been reached stays reached as the clock advances. *)
Theorem is_state_stays_reached
    (switch_name : string) (state ms : Z) (t : Q) (w : World) :
  (get_time w <= t)%Q ->
  is_state switch_name state (Some ms) w = Ok true ->
  is_state switch_name state (Some ms) (set_clock_time t w) = Ok true.
Proof.
  intros Ht. unfold is_state, ms_since_change, lookup_switch. simpl.
  destruct (switches w !! lower switch_name) as [s |]; [| done]. simpl.
  destruct (ss_state s =? state); [| done].
  intros [= Hms]. f_equal. apply Z.leb_le. apply Z.leb_le in Hms.
  etransitivity; [exact Hms |]. apply py_round_mono.
  unfold get_time in *. simpl. nra.
Qed.

Lemma is_state_stays_reached_witness :
  is_state "slingshot" 1 (Some 100) (set_clock_time 2 slingshot_active) = Ok true.
Proof.
  apply (is_state_stays_reached "slingshot" 1 100 2 slingshot_active).
  - vm_compute. discriminate.
  - vm_compute. reflexivity.
Defined.

(** ** The wait primitive *)

(** X14.  [_wait_handler] passes the result to [set_result] by keyword.
    With the pure-Python [Future] the first transient handler that fires
    resolves a pending future with its switch name and dwell (and no
    state) and queues the done-callbacks on the loop, and any handler of
    the same future that fires afterwards changes nothing.  With the
    C-accelerated [Future] a transient handler that fires on a pending
    future raises [TypeError], so the future is not resolved. *)
Theorem _wait_handler_first_wins
    `{Environment} (f : nat) (ms : Z) (name : string) (w : World)
    (callbacks : list nat) :
  futures w !! f = Some (mkFuture FutPending callbacks) ->
  if set_result_by_keyword
  then
    exists w',
      _wait_handler f ms name w = Ok w'
      /\ futures w' !! f
         = Some (mkFuture (FutResult (mkWaitResult name None ms)) [])
      /\ loop_ready w' = loop_ready w ++ map (fun h => (h, f)) callbacks
      /\ registered_switches w' = registered_switches w
      /\ active_timed_switches w' = active_timed_switches w
      /\ forall ms' name', _wait_handler f ms' name' w' = Ok w'
  else _wait_handler f ms name w = Raise TypeError.
Proof.
  intros Hf. destruct set_result_by_keyword eqn:Hkw.
  2:{ unfold _wait_handler, future_done, get_future.
      rewrite Hf. simpl. by rewrite Hkw. }
  unfold _wait_handler at 1, future_done, future_set_result, get_future.
  rewrite Hf. simpl. rewrite Hkw.
  eexists. split; [reflexivity |]. simpl.
  assert (f < length (futures w))%nat as Hlt by (by eapply lookup_lt_Some).
  split; [by apply list_lookup_insert_eq |].
  repeat split.
  intros ms' name'. eapply _wait_handler_after_done.
  - simpl. by apply list_lookup_insert_eq.
  - done.
Qed.

Lemma _wait_handler_first_wins_witness :
  exists future w w1,
    wait_for_any_switch ["a"; "b"] 1 true 0 a_off_b_on = Ok (future, w)
    /\ _wait_handler (H := quiet) future 0 "a" w = Ok w1
    /\ loop_ready w1 = [(0%nat, future)]
    /\ _wait_handler (H := quiet) future 0 "b" w1 = Ok w1
    /\ _wait_handler (H := accelerated) future 0 "a" w = Raise TypeError.
Proof.
  destruct (wait_for_any_switch ["a"; "b"] 1 true 0 a_off_b_on)
    as [[future w] | e] eqn:Hwait; [| vm_compute in Hwait; discriminate].
  assert (futures w !! future = Some (mkFuture FutPending [0%nat])) as Hfut.
  { vm_compute in Hwait. injection Hwait as <- <-. vm_compute. reflexivity. }
  assert (loop_ready w = []) as Hloop.
  { vm_compute in Hwait. injection Hwait as <- <-. reflexivity. }
  pose proof (_wait_handler_first_wins (H := quiet) future 0 "a" w [0%nat]
                Hfut) as Hpy.
  pose proof (_wait_handler_first_wins (H := accelerated) future 0 "a" w
                [0%nat] Hfut) as Hc.
  simpl in Hpy, Hc.
  destruct Hpy as (w1 & Hrun & _ & Hready & _ & _ & Hagain).
  exists future, w, w1.
  split; [reflexivity |]. split; [exact Hrun |].
  split; [rewrite Hready, Hloop; reflexivity |].
  split; [apply Hagain | exact Hc].
Defined.

Lemma first_in_state_app
    (pre post : list string) (n : string) (state ms : Z) (w : World) :
  Forall (fun m => is_state m state (Some ms) w = Ok false) pre ->
  first_in_state (pre ++ n :: post) state ms w
  = (b <- is_state n state (Some ms) w ;;
     if b then Ok (Some n) else first_in_state post state ms w).
Proof.
  induction pre as [| m pre IH]; [done |]. intros Hall.
  apply Forall_cons in Hall as [Hm Hall]. simpl. rewrite Hm. simpl.
  by apply IH.
Qed.

(** X15.  With [only_on_change] false, [wait_for_any_switch] goes through
    the listed switches in order.  If the first switch that is not merely
    out of the state is in it, the future comes back resolved with that
    switch, the state and the dwell, and nothing is registered or queued;
    if instead that switch is missing from the store, the call raises
    [KeyError]. *)
Theorem wait_immediate_first_match
    (pre post : list string) (n : string) (state ms : Z) (w : World) :
  Forall (fun m => is_state m state (Some ms) w = Ok false) pre ->
  (is_state n state (Some ms) w = Ok true ->
   exists w',
     wait_for_any_switch (pre ++ n :: post) state false ms w
     = Ok (length (futures w), w')
     /\ futures w'
        = futures w
          ++ [mkFuture (FutResult (mkWaitResult n (Some state) ms)) []]
     /\ registered_switches w' = registered_switches w
     /\ active_timed_switches w' = active_timed_switches w
     /\ handler_lists w' = handler_lists w
     /\ loop_ready w' = loop_ready w)
  /\ (switches w !! lower n = None ->
      wait_for_any_switch (pre ++ n :: post) state false ms w
      = Raise KeyError).
Proof.
  intros Hpre. split.
  - intros Hn. apply wait_resolves_immediately.
    rewrite first_in_state_app by done. by rewrite Hn.
  - intros Hmissing. unfold wait_for_any_switch. simpl negb. cbv iota.
    rewrite first_in_state_set_futures, first_in_state_app by done.
    unfold is_state, lookup_switch. by rewrite Hmissing.
Qed.

Lemma wait_immediate_first_match_witness :
  exists w',
    wait_for_any_switch ["a"; "b"] 1 false 200 a_off_b_on = Ok (0%nat, w')
    /\ futures w' = [mkFuture (FutResult (mkWaitResult "b" (Some 1) 200)) []]
    /\ registered_switches w' = registered_switches a_off_b_on.
Proof.
  destruct (wait_immediate_first_match ["a"] [] "b" 1 200 a_off_b_on)
    as [Hhit _].
  - repeat constructor.
  - destruct Hhit as (w' & Hrun & Hfut & Hreg & _).
    + vm_compute. reflexivity.
    + exists w'. split; [exact Hrun |]. split; [exact Hfut | exact Hreg].
Defined.


Lemma wait_registers_transient_handlers_witness :
  exists future w' h1 h2,
    wait_for_any_switch ["a"; "b"] 1 true 0 a_off_b_on = Ok (future, w')
    /\ handler_lists w' !! 0%nat = Some [h1; h2]
    /\ sh_switch_name h1 = "a" /\ sh_switch_name h2 = "b"
    /\ futures w' !! future = Some (mkFuture FutPending [0%nat]).
Proof.
  destruct (wait_for_any_switch ["a"; "b"] 1 true 0 a_off_b_on)
    as [[future w'] | e] eqn:Hwait; [| vm_compute in Hwait; discriminate].
  destruct (wait_registers_transient_handlers ["a"; "b"] 1 0 true
              a_off_b_on w' future (or_introl eq_refl) Hwait)
    as (_ & hs & Hhs & Hall & _ & Hfut & _).
  apply Forall2_cons_inv_r in Hall as (h1 & hs1 & [oid1 ->] & Hall & ->).
  apply Forall2_cons_inv_r in Hall as (h2 & hs2 & [oid2 ->] & Hall & ->).
  apply Forall2_nil_inv_r in Hall as ->.
  eexists future, w', _, _. split; [reflexivity |].
  split; [exact Hhs |]. split; [reflexivity |]. split; [reflexivity |].
  exact Hfut.
Defined.

(** ** What cancellation and removal leave in the timed queue *)

Lemma fd_get_map {V : Type} (f : V -> V) (k : Q) (d : fdict V) :
  fd_get k (fd_map f d) = f <$> fd_get k d.
Proof.
  induction d as [| [k' v] d IH]; [done |]. simpl.
  destruct (Qeq_bool k' k); done.
Qed.

Lemma fd_keys_map {V : Type} (f : V -> V) (d : fdict V) :
  fd_keys (fd_map f d) = fd_keys d.
Proof. unfold fd_keys, fd_map. rewrite map_map. done. Qed.

Lemma fd_get_elem {V : Type} (k : Q) (v : V) (d : fdict V) :
  fd_get k d = Some v -> exists k', (k', v) ∈ d.
Proof.
  induction d as [| [k' v'] d IH]; [done |]. simpl.
  destruct (Qeq_bool k' k).
  - intros [= ->]. exists k'. apply list_elem_of_here.
  - intros Hget. destruct (IH Hget) as [k0 Hin]. exists k0.
    by apply list_elem_of_further.
Qed.

Lemma fd_map_same {V : Type} (f : V -> V) (d : fdict V) :
  Forall (fun kv => f (snd kv) = snd kv) d -> fd_map f d = d.
Proof.
  induction d as [| [k v] d IH]; [done |]. intros Hall.
  apply Forall_cons in Hall as [Hv Hall]. simpl in *.
  by rewrite Hv, IH.
Qed.

Lemma sweep_none {A : Type} (p : A -> bool) (l : list A) :
  Forall (fun x => p x = false) l -> sweep p l = l.
Proof.
  induction l as [| x l IH]; [done |]. intros Hall.
  apply Forall_cons in Hall as [Hx Hall]. simpl. by rewrite Hx, IH.
Qed.

(** In every bucket the enumerate-and-delete loop keeps, in their order,
    the pendings it is not after, and deletes all the others when no two
    of them are neighbours. *)
Lemma swept_queue (p : TimedSwitchHandler -> bool)
    (d : fdict (list TimedSwitchHandler)) :
  fd_keys (fd_map (sweep p) d) = fd_keys d
  /\ forall k v,
       fd_get k d = Some v ->
       exists v',
         fd_get k (fd_map (sweep p) d) = Some v'
         /\ filter (fun x => p x = false) v' = filter (fun x => p x = false) v
         /\ (no_adjacent p v = true -> v' = filter (fun x => p x = false) v).
Proof.
  split; [apply fd_keys_map |].
  intros k v Hget. exists (sweep p v).
  rewrite fd_get_map, Hget. split; [done |].
  split; [apply sweep_keeps_others | apply sweep_complete].
Qed.

(** X18.  [_cancel_timed_handlers] only rewrites the timed queue, and
    there it never drops a deadline and never removes a pending that
    watches another switch or the state just entered; from a bucket in
    which no two pendings for the opposite state are neighbours it
    removes all of them. *)
Theorem cancel_keeps_other_pendings (name : string) (state : Z) (w : World) :
  fd_wf (active_timed_switches w) = true ->
  let w' := _cancel_timed_handlers name state w in
  let kept := fun item => cancels name state item = false in
  fd_keys (active_timed_switches w') = fd_keys (active_timed_switches w)
  /\ (forall k v,
        fd_get k (active_timed_switches w) = Some v ->
        exists v',
          fd_get k (active_timed_switches w') = Some v'
          /\ filter kept v' = filter kept v
          /\ (no_adjacent (cancels name state) v = true -> v' = filter kept v))
  /\ switches w' = switches w
  /\ registered_switches w' = registered_switches w
  /\ clock_timers w' = clock_timers w
  /\ timed_switch_handler_delay w' = timed_switch_handler_delay w
  /\ monitors w' = monitors w.
Proof.
  intros Hwf w' kept. subst w'.
  rewrite _cancel_timed_handlers_sweeps by done. simpl.
  destruct (swept_queue (cancels name state) (active_timed_switches w))
    as [Hkeys Hbuckets].
  split; [exact Hkeys |]. split; [exact Hbuckets |]. done.
Qed.

Lemma cancel_keeps_other_pendings_witness :
  exists k1 k5,
    active_timed_switches (_cancel_timed_handlers "s" 0 wake_due_world)
    = [(k1, []); (k5, [mkTimedSwitchHandler (CbUser 5) "s3" 1 5000])]
    /\ fd_keys (active_timed_switches wake_due_world) = [k1; k5].
Proof.
  destruct (cancel_keeps_other_pendings "s" 0 wake_due_world) as (Hkeys & _).
  - vm_compute. reflexivity.
  - eexists _, _. split; [vm_compute; reflexivity |].
    rewrite <- Hkeys. vm_compute. reflexivity.
Defined.

(** What [remove_switch_handler] computes, bucket by bucket. *)
Lemma remove_switch_handler_effect
    (name : string) (callback : Callback) (state ms : Z) (w : World) :
  fd_wf (active_timed_switches w) = true ->
  remove_switch_handler name callback state ms w
  = set_active_timed_switches
      (fd_map (sweep (removes name callback state ms)) (active_timed_switches w))
      (match registered_switches w !! lower (switch_key name state) with
       | Some l =>
           set_registered_switches
             (<[lower (switch_key name state) :=
                  enumerate_remove (unregisters callback ms) (length l) 0 l]>
                (registered_switches w)) w
       | None => w
       end).
Proof.
  intros Hwf. unfold remove_switch_handler.
  set (w1 := match registered_switches w !! _ with
             | Some l => _
             | None => w
             end).
  assert (active_timed_switches w1 = active_timed_switches w) as Hact
    by (subst w1; by destruct (registered_switches w !! _)).
  rewrite (fold_active_world
             (fun d k =>
                fd_set k
                  (enumerate_del (removes name callback state ms)
                     (length (default [] (fd_get k d))) 0
                     (default [] (fd_get k d))) d)).
  rewrite Hact. f_equal.
  rewrite (fold_left_pointwise _
             (fun d k =>
                fd_set k
                  (sweep (removes name callback state ms)
                     (default [] (fd_get k d))) d)).
  - apply (fd_fold_buckets (sweep (removes name callback state ms)) []
             (active_timed_switches w) []); [done | constructor].
  - intros d k. by rewrite enumerate_del_is_sweep.
Qed.

(** X19.  [remove_switch_handler] leaves the store, the devices, the
    timers, the wake handle and the monitors alone, and in the timed queue
    it never drops a deadline (an emptied bucket stays) and never removes
    a pending of another handler; from a bucket in which no two pendings
    of the handler are neighbours it removes all of them. *)
Theorem remove_switch_handler_keeps_others
    (name : string) (callback : Callback) (state ms : Z) (w : World) :
  fd_wf (active_timed_switches w) = true ->
  let w' := remove_switch_handler name callback state ms w in
  let kept := fun entry => removes name callback state ms entry = false in
  fd_keys (active_timed_switches w') = fd_keys (active_timed_switches w)
  /\ (forall k v,
        fd_get k (active_timed_switches w) = Some v ->
        exists v',
          fd_get k (active_timed_switches w') = Some v'
          /\ filter kept v' = filter kept v
          /\ (no_adjacent (removes name callback state ms) v = true ->
              v' = filter kept v))
  /\ switches w' = switches w
  /\ machine_switches w' = machine_switches w
  /\ clock_timers w' = clock_timers w
  /\ timed_switch_handler_delay w' = timed_switch_handler_delay w
  /\ monitors w' = monitors w.
Proof.
  intros Hwf w' kept. subst w'.
  rewrite remove_switch_handler_effect by done. simpl.
  destruct (swept_queue (removes name callback state ms)
              (active_timed_switches w)) as [Hkeys Hbuckets].
  split; [exact Hkeys |]. split; [exact Hbuckets |].
  destruct (registered_switches w !! _); done.
Qed.

Lemma remove_switch_handler_keeps_others_witness :
  exists k1 k5,
    active_timed_switches
      (remove_switch_handler "s3" (CbUser 5) 1 5000 wake_due_world)
    = [(k1, [mkTimedSwitchHandler (CbUser 1) "s" 1 1000]); (k5, [])]
    /\ fd_keys (active_timed_switches wake_due_world) = [k1; k5].
Proof.
  destruct (remove_switch_handler_keeps_others "s3" (CbUser 5) 1 5000
              wake_due_world) as (Hkeys & _).
  - vm_compute. reflexivity.
  - eexists _, _. split; [vm_compute; reflexivity |].
    rewrite <- Hkeys. vm_compute. reflexivity.
Defined.

(** X20.  A handler without a dwell whose callback is new to its bucket
    and to the timed queue: registering it and removing it by the key that
    was handed back gives back the world as it was. *)
Theorem add_then_remove_restores
    (name : string) (callback : Callback) (state : Z) (w : World)
    (l : list RegisteredSwitch) :
  fd_wf (active_timed_switches w) = true ->
  registered_switches w !! lower (switch_key name state) = Some l ->
  mkRegisteredSwitch 0 callback ∉ l ->
  Forall (fun kv => Forall (fun entry => tsh_callback entry <> callback) (snd kv))
    (active_timed_switches w) ->
  exists handler w1,
    add_switch_handler name callback state 0 false [] w = Ok (handler, w1)
    /\ registered_switches w1 !! lower (switch_key name state)
       = Some (l ++ [mkRegisteredSwitch 0 callback])
    /\ remove_switch_handler_by_key handler w1 = w.
Proof.
  intros Hwf Hl Hnew Hqueue.
  unfold add_switch_handler, lookup_registered. simpl. rewrite Hl. simpl.
  eexists _, _. split; [reflexivity |]. simpl.
  split; [apply lookup_insert_eq |].
  unfold remove_switch_handler_by_key. simpl.
  rewrite remove_switch_handler_effect by done. simpl.
  rewrite lookup_insert_eq.
  destruct (enumerate_remove_spec (unregisters callback 0)
              (mkRegisteredSwitch 0 callback) l []) as [k Hk];
    [apply registered_match_iff | done |].
  rewrite Hk, iter_py_remove_notin by apply not_elem_of_nil.
  rewrite app_nil_r, insert_insert_eq, insert_id by done.
  rewrite fd_map_same; [clear; by destruct w |].
  eapply Forall_impl; [exact Hqueue |]. simpl. intros [k0 v] Hv. simpl in *.
  apply sweep_none. eapply Forall_impl; [exact Hv |]. simpl.
  intros entry Hne. unfold removes.
  rewrite (bool_decide_eq_false_2 _ Hne). by rewrite andb_false_r.
Qed.

Lemma add_then_remove_restores_witness :
  exists handler w1,
    add_switch_handler "s2" (CbUser 3) 1 0 false [] wake_due_world
    = Ok (handler, w1)
    /\ remove_switch_handler_by_key handler w1 = wake_due_world.
Proof.
  destruct (add_then_remove_restores "s2" (CbUser 3) 1 wake_due_world [])
    as (handler & w1 & Hadd & _ & Hback).
  - vm_compute. reflexivity.
  - vm_compute. reflexivity.
  - apply not_elem_of_nil.
  - vm_compute. repeat constructor; discriminate.
  - exists handler, w1. split; [exact Hadd | exact Hback].
Defined.

(** ** Hits on switches that are not configured *)

Lemma notify_monitors_run_each
    `{Environment} (fuel i : nat) (change : MonitoredSwitchChange) (w : World) :
  (forall m c w0 w1, run_monitor m c w0 = Ok w1 -> monitors w1 = monitors w0) ->
  (length (monitors w) <= i + fuel)%nat ->
  notify_monitors fuel i (fun _ => Ok change) w
  = run_each (drop i (monitors w)) change w.
Proof.
  intros Hkeep. revert i w.
  induction fuel as [| fuel IH]; intros i w Hlen; simpl.
  - rewrite lookup_ge_None_2 by lia. rewrite drop_ge by lia. done.
  - destruct (monitors w !! i) as [m |] eqn:Hm.
    + rewrite (drop_S _ _ _ Hm). simpl.
      destruct (run_monitor m change w) as [w1 |] eqn:Hrun; [| done].
      simpl. pose proof (Hkeep _ _ _ _ Hrun) as Hsame.
      rewrite IH by (rewrite Hsame; lia). by rewrite Hsame.
    + apply lookup_ge_None_1 in Hm. rewrite drop_ge by lia. done.
Qed.

(** X21.  A hit on a name that is not configured is an [AssertionError].
    A hit on a hardware number that is not configured is shown to the
    monitors and to nobody else: every registered monitor is called once,
    in the order of registration, with the record
    [(name = num, label = platform-num, platform, num, state)] that
    carries the raw state (the monitors being assumed to leave the monitor
    list alone, and the fuel to cover the list).  So without monitors
    nothing changes, and every observation of the world that the monitors
    leave alone is unchanged. *)
Theorem unconfigured_hits
    `{Environment} (fuel : nat) (name num platform : string) (state : Z)
    (logical : bool) (w : World) :
  (find_switch name w = None ->
   process_switch fuel name state logical w = Raise AssertionError)
  /\ (find_by_num 0 num platform (machine_switches w) = None ->
      ((forall m c w0 w1,
          run_monitor m c w0 = Ok w1 -> monitors w1 = monitors w0) ->
       (length (monitors w) <= fuel)%nat ->
       process_switch_by_num fuel num state platform logical w
       = run_each (monitors w)
           (mkMonitoredSwitchChange num (platform ++ "-" ++ num) platform
              num state) w)
      /\ (monitors w = [] ->
          process_switch_by_num fuel num state platform logical w = Ok w)
      /\ forall (B : Type) (proj : World -> B) (w' : World),
           env_preserves proj ->
           process_switch_by_num fuel num state platform logical w = Ok w' ->
           proj w' = proj w).
Proof.
  split.
  - intros Hnone. unfold process_switch. by rewrite Hnone.
  - intros Hnone. unfold process_switch_by_num. rewrite Hnone.
    split; [| split].
    + intros Hkeep Hfuel.
      by rewrite notify_monitors_run_each by (done || lia).
    + intros Hmon. destruct fuel; simpl; by rewrite Hmon.
    + intros B proj w' Henv Hrun.
      by eapply (frame_notify_monitors proj Henv).
Qed.

Lemma unconfigured_hits_witness :
  find_by_num 0 "9" "p" (machine_switches one_monitor) = None
  /\ monitors one_monitor = [5%nat]
  /\ exists w',
       process_switch_by_num (H := recording) 1 "9" 1 "p" false one_monitor
       = Ok w'
       /\ switches w' !! "p-9" = Some (mkSwitchState 1 0)
       /\ switches one_monitor !! "p-9" = None.
Proof.
  split; [vm_compute; reflexivity |]. split; [vm_compute; reflexivity |].
  destruct (unconfigured_hits (H := recording) 1 "s" "9" "p" 1 false
              one_monitor) as [_ Hnum].
  destruct Hnum as (Hrun & _ & _); [vm_compute; reflexivity |].
  eexists. split.
  - rewrite Hrun.
    + vm_compute. reflexivity.
    + intros m c w0 w1. simpl. intros Hm. injection Hm as <-. reflexivity.
    + vm_compute. lia.
  - split; vm_compute; reflexivity.
Defined.

(** ** The recycle window *)

(** X22.  An activation that passes the recycle gate, whether it is
    dispatched or is a duplicate, moves [recycle_clear_time] to
    [now + recycle_secs] (the handlers and monitors fired being assumed not
    to write the device); while the device stays so, every activation that
    arrives before that time is rejected: it counts one jitter and leaves
    the store, the registry, the timed queue and the monitors alone. *)
Theorem activation_opens_recycle_window
    `{Environment} (fuel obj : nat) (state : Z) (logical : bool)
    (w w1 : World) (o : Switch) :
  machine_switches w !! obj = Some o ->
  fst (normalize (sw_invert o) state logical) = 1 ->
  (sw_recycle_clear_time o <= get_time w)%Q ->
  env_preserves (fun w => machine_switches w !! obj) ->
  process_switch_obj fuel obj state logical w = Ok w1 ->
  exists o1,
    machine_switches w1 !! obj = Some o1
    /\ sw_recycle_clear_time o1 = (get_time w + sw_recycle_secs o)%Q
    /\ forall fuel' state' logical' w2,
         machine_switches w2 !! obj = Some o1 ->
         fst (normalize (sw_invert o1) state' logical') = 1 ->
         (get_time w2 < get_time w + sw_recycle_secs o)%Q ->
         exists w3 o3,
           process_switch_obj fuel' obj state' logical' w2 = Ok w3
           /\ machine_switches w3 !! obj = Some o3
           /\ sw_recycle_jitter_count o3 = sw_recycle_jitter_count o1 + 1
           /\ sw_state o3 = sw_state o1
           /\ switches w3 = switches w2
           /\ registered_switches w3 = registered_switches w2
           /\ active_timed_switches w3 = active_timed_switches w2
           /\ monitors w3 = monitors w2.
Proof.
  intros Ho Hst Hgate Hdev Hrun.
  assert (obj < length (machine_switches w))%nat as Hlt
    by (by eapply lookup_lt_Some).
  set (hw := snd (normalize (sw_invert o) state logical)).
  exists (accepted_device 1 hw (get_time w) o).
  split; [| split].
  - rewrite (process_switch_obj_cases _ _ _ _ _ _ Ho) in Hrun.
    rewrite Hst in Hrun. fold hw in Hrun.
    rewrite gate_open in Hrun by (by right || done).
    destruct (lookup_switch (sw_name o) w) as [s |]; [| done].
    simpl in Hrun. destruct (ss_state s =? 1).
    + injection Hrun as <-. simpl. by apply list_lookup_insert_eq.
    + pose proof (frame_accepted _ (untouched_device obj) Hdev
                    _ _ _ _ _ _ Hrun) as Hframe.
      simpl in Hframe. rewrite Hframe. by apply list_lookup_insert_eq.
  - done.
  - intros fuel' state' logical' w2 Ho2 Hst2 Hnow2.
    assert (obj < length (machine_switches w2))%nat as Hlt2
      by (by eapply lookup_lt_Some).
    rewrite (process_switch_obj_cases _ _ _ _ _ _ Ho2). rewrite Hst2.
    assert (Qle_bool
              (sw_recycle_clear_time (accepted_device 1 hw (get_time w) o))
              (get_time w2) = false) as ->.
    { apply not_true_is_false. rewrite Qle_bool_iff. simpl. lra. }
    simpl. eexists _, _. split; [reflexivity |]. simpl.
    split; [by apply list_lookup_insert_eq |]. done.
Qed.

Lemma activation_opens_recycle_window_witness :
  exists w1 w3 o3,
    process_switch_obj (H := quiet) 1 0 1 false
      (init_world 0 [new_switch "pop" "2" false (1 # 2)]) = Ok w1
    /\ process_switch_obj (H := quiet) 1 0 1 false (set_clock_time (1 # 5) w1)
       = Ok w3
    /\ machine_switches w3 !! 0%nat = Some o3
    /\ sw_recycle_jitter_count o3 = 1
    /\ switches w3 = switches w1.
Proof.
  destruct (process_switch_obj (H := quiet) 1 0 1 false
              (init_world 0 [new_switch "pop" "2" false (1 # 2)]))
    as [w1 | e] eqn:Hrun; [| vm_compute in Hrun; discriminate].
  destruct (activation_opens_recycle_window (H := quiet) 1 0 1 false
              (init_world 0 [new_switch "pop" "2" false (1 # 2)]) w1
              (new_switch "pop" "2" false (1 # 2)))
    as (o1 & Ho1 & _ & Hnext).
  - vm_compute. reflexivity.
  - vm_compute. reflexivity.
  - vm_compute. discriminate.
  - apply quiet_preserves.
  - exact Hrun.
  - destruct (Hnext 1%nat 1 false (set_clock_time (1 # 5) w1))
      as (w3 & o3 & Hrun3 & Ho3 & Hjit & _ & Hsw & _).
    + exact Ho1.
    + vm_compute in Hrun. injection Hrun as <-.
      vm_compute in Ho1. injection Ho1 as <-. vm_compute. reflexivity.
    + vm_compute. reflexivity.
    + exists w1, w3, o3. split; [reflexivity |]. split; [exact Hrun3 |].
      split; [exact Ho3 |]. split; [| exact Hsw].
      rewrite Hjit. vm_compute in Hrun. injection Hrun as <-.
      vm_compute in Ho1. injection Ho1 as <-. reflexivity.
Defined.

(** ** The retry of a rejected activation *)

(** X23.  The recycle timer replays a rejected activation as state 1 with
    the caller's [logical] flag.  When it fires with the wire level it
    recorded still on the device, the window over and the switch inactive
    in the store: on a switch that is not inverted, or for an activation
    that was given as a logical state, the store entry becomes (1, now);
    on an inverted switch whose activation was given as a wire level the
    replay is normalised to state 0, so nothing is dispatched, the store
    stays as it is and the device is left with wire level 1. *)
Theorem retry_after_recycle
    `{Environment} (fuel obj : nat) (logical : bool) (hw_state : Z)
    (w w' : World) (o : Switch) (s : SwitchState) :
  machine_switches w !! obj = Some o ->
  find_switch (sw_name o) w = Some obj ->
  sw_hw_state o = hw_state ->
  switches w !! lower (sw_name o) = Some s ->
  ss_state s = 0 ->
  (sw_recycle_clear_time o <= get_time w)%Q ->
  env_preserves (fun w => switches w !! lower (sw_name o)) ->
  _recycle_passed fuel obj 1 logical hw_state w = Ok w' ->
  if sw_invert o && negb logical
  then w' = set_obj obj (with_state 0 (with_hw_state 1 o)) w
  else switches w' !! lower (sw_name o)
       = Some (mkSwitchState 1 (get_time w)).
Proof.
  intros Ho Hfind Hhw Hs Hs0 Hgate Hstore.
  unfold _recycle_passed. rewrite (get_obj_lookup _ _ _ Ho). simpl rbind.
  rewrite (proj2 (Z.eqb_eq _ _) Hhw).
  unfold process_switch. rewrite Hfind.
  rewrite (process_switch_obj_cases _ _ _ _ _ _ Ho).
  rewrite gate_open by (done || apply normalize_logical_01).
  unfold lookup_switch at 1. rewrite Hs. simpl rbind. rewrite Hs0.
  destruct (sw_invert o) eqn:Hinv, logical; simpl.
  - intros Hrun.
    pose proof (frame_accepted _ (untouched_store_entry (lower (sw_name o)))
                  Hstore _ _ _ _ _ _ Hrun) as Hentry.
    simpl in Hentry. by rewrite lookup_insert_eq in Hentry.
  - unfold accepted_device. simpl. by intros [= <-].
  - intros Hrun.
    pose proof (frame_accepted _ (untouched_store_entry (lower (sw_name o)))
                  Hstore _ _ _ _ _ _ Hrun) as Hentry.
    simpl in Hentry. by rewrite lookup_insert_eq in Hentry.
  - intros Hrun.
    pose proof (frame_accepted _ (untouched_store_entry (lower (sw_name o)))
                  Hstore _ _ _ _ _ _ Hrun) as Hentry.
    simpl in Hentry. by rewrite lookup_insert_eq in Hentry.
Qed.

Lemma retry_after_recycle_witness :
  exists w',
    _recycle_passed (H := quiet) 1 0 1 false 0 tilt_retry_due = Ok w'
    /\ switches w' = switches tilt_retry_due
    /\ (sw_hw_state <$> machine_switches w' !! 0%nat) = Some 1.
Proof.
  destruct (_recycle_passed (H := quiet) 1 0 1 false 0 tilt_retry_due)
    as [w' | e] eqn:Hrun; [| vm_compute in Hrun; discriminate].
  exists w'. split; [reflexivity |].
  pose proof (retry_after_recycle (H := quiet) 1 0 false 0 tilt_retry_due w'
                (new_switch "tilt" "4" true 0) (mkSwitchState 0 (-100000)))
    as Hretry.
  simpl in Hretry. rewrite Hretry.
  - split; vm_compute; reflexivity.
  - vm_compute. reflexivity.
  - vm_compute. reflexivity.
  - reflexivity.
  - vm_compute. reflexivity.
  - reflexivity.
  - vm_compute. discriminate.
  - apply quiet_preserves.
  - exact Hrun.
Defined.

(** ** Dispatch to handlers that want a dwell *)








(** ** A drain pass whose handlers leave the queue alone *)















(** ** Binary64: ints that are floats *)

Lemma digits2_pos_size (m : positive) : SpecFloat.digits2_pos m = Pos.size m.
Proof. induction m as [m IH | m IH |]; simpl; by rewrite ?IH. Qed.

Lemma digits2_pos_le_53 (m : positive) :
  Zpos m < 2 ^ 53 -> Zpos (SpecFloat.digits2_pos m) <= 53.
Proof.
  intros Hm. rewrite digits2_pos_size.
  pose proof (Pos.size_le m) as Hsize.
  apply Pos2Z.pos_le_pos in Hsize. rewrite Pos2Z.inj_pow in Hsize.
  change (Zpos m~0) with (2 * Zpos m) in Hsize.
  destruct (Z_lt_le_dec 53 (Zpos (Pos.size m))) as [Hgt |]; [| done].
  exfalso.
  assert (2 ^ 54 <= 2 ^ Zpos (Pos.size m)) by (apply Z.pow_le_mono_r; lia).
  change (2 ^ 54) with (2 * 2 ^ 53) in *. lia.
Qed.

Lemma iter_xO_value (m k : positive) :
  Zpos (Pos.iter xO m k) = Zpos m * 2 ^ Zpos k.
Proof.
  induction k as [| k IH] using Pos.peano_ind.
  - simpl. lia.
  - rewrite Pos.iter_succ, Pos2Z.inj_succ, Z.pow_succ_r by lia.
    change (Zpos (Pos.iter xO m k)~0) with (2 * Zpos (Pos.iter xO m k)).
    rewrite IH. lia.
Qed.

Lemma iter_xO_digits (m k : positive) :
  Zpos (SpecFloat.digits2_pos (Pos.iter xO m k))
  = Zpos (SpecFloat.digits2_pos m) + Zpos k.
Proof.
  induction k as [| k IH] using Pos.peano_ind.
  - simpl. lia.
  - rewrite Pos.iter_succ. simpl SpecFloat.digits2_pos.
    rewrite !Pos2Z.inj_succ, IH. lia.
Qed.

Lemma binary_round_aux_canonical (s : bool) (mz : positive) (ez : Z) :
  Zpos (SpecFloat.digits2_pos mz) = 53 ->
  -1074 <= ez <= 971 ->
  SpecFloat.binary_round_aux Binary64.prec Binary64.emax s (Zpos mz) ez
    SpecFloat.loc_Exact
  = SpecFloat.S754_finite s mz ez.
Proof.
  intros Hd He.
  unfold SpecFloat.binary_round_aux, SpecFloat.shr_fexp, SpecFloat.fexp,
    SpecFloat.emin, Binary64.prec, Binary64.emax.
  simpl SpecFloat.Zdigits2. rewrite Hd.
  replace (Z.max (53 + ez - 53) (3 - 1024 - 53) - ez) with 0 by lia.
  simpl. rewrite Hd.
  replace (Z.max (53 + ez - 53) (3 - 1024 - 53) - ez) with 0 by lia.
  simpl. by rewrite (proj2 (Z.leb_le _ _)) by lia.
Qed.

Lemma binary_round_small (s : bool) (m : positive) :
  Zpos m < 2 ^ 53 ->
  exists mz ez,
    SpecFloat.binary_round Binary64.prec Binary64.emax s m 0
    = SpecFloat.S754_finite s mz ez
    /\ (Binary64.finite_value s mz ez
        == inject_Z (SpecFloat.cond_Zopp s (Zpos m)))%Q.
Proof.
  intros Hm. pose proof (digits2_pos_le_53 m Hm) as Hd.
  unfold SpecFloat.binary_round, SpecFloat.fexp, SpecFloat.emin,
    Binary64.prec, Binary64.emax.
  replace (Z.max (Zpos (SpecFloat.digits2_pos m) + 0 - 53) (3 - 1024 - 53))
    with (Zpos (SpecFloat.digits2_pos m) - 53) by lia.
  unfold SpecFloat.shl_align.
  destruct (Zpos (SpecFloat.digits2_pos m) - 53 - 0) as [| k | k] eqn:Hk;
    [| lia |].
  - exists m, 0. split.
    + apply binary_round_aux_canonical; lia.
    + unfold Binary64.finite_value. by rewrite Z.mul_1_r.
  - exists (Pos.iter xO m k), (Zpos (SpecFloat.digits2_pos m) - 53). split.
    + apply binary_round_aux_canonical; [| lia].
      rewrite iter_xO_digits. lia.
    + replace (Zpos (SpecFloat.digits2_pos m) - 53) with (Zneg k) by lia.
      unfold Binary64.finite_value, Qeq. simpl Qnum. simpl Qden.
      rewrite Pos2Z.inj_pow.
      destruct s; simpl SpecFloat.cond_Zopp.
      * change (Zneg (Pos.iter xO m k)) with (- Zpos (Pos.iter xO m k)).
        change (Zneg m) with (- Zpos m).
        rewrite iter_xO_value. lia.
      * rewrite iter_xO_value. lia.
Qed.

Lemma binary_normalize_exact (n : Z) (s : bool) :
  - 2 ^ 53 < n < 2 ^ 53 ->
  exists q,
    Binary64.value (SpecFloat.binary_normalize Binary64.prec Binary64.emax
                      n 0 s) = Some q
    /\ (q == inject_Z n)%Q.
Proof.
  intros Hn. destruct n as [| m | m]; simpl SpecFloat.binary_normalize.
  - exists 0%Q. done.
  - destruct (binary_round_small false m) as (mz & ez & -> & Hv); [lia |].
    eexists. split; [reflexivity | exact Hv].
  - destruct (binary_round_small true m) as (mz & ez & -> & Hv); [lia |].
    eexists. split; [reflexivity | exact Hv].
Qed.

Lemma py_round_between (a b : Z) (x : Q) :
  (inject_Z a <= x <= inject_Z b)%Q -> a <= py_round x <= b.
Proof.
  intros [Ha Hb].
  pose proof (py_round_mono _ _ Ha) as Hlo.
  pose proof (py_round_mono _ _ Hb) as Hhi.
  rewrite (py_round_integer a (inject_Z a)) in Hlo by reflexivity.
  rewrite (py_round_integer b (inject_Z b)) in Hhi by reflexivity.
  done.
Qed.

(** [round(x, 0)] of a float within [2^52] of zero is the float of an
    integer: the one nearest to the value of [x], the even one at a tie. *)
Lemma round0_nearest_even (x : Binary64.float) (p : Q) :
  Binary64.value x = Some p ->
  (inject_Z (- 2 ^ 52) <= p <= inject_Z (2 ^ 52))%Q ->
  exists q,
    Binary64.value (Binary64.round0 x) = Some q
    /\ (q == inject_Z (py_round p))%Q.
Proof.
  intros Hx Hp. destruct x as [s | s | | s m e]; try done.
  - injection Hx as <-. exists 0%Q. done.
  - simpl in Hx. injection Hx as <-. unfold Binary64.round0.
    destruct (0 <=? e) eqn:He.
    + simpl. eexists. split; [reflexivity |].
      destruct e as [| e | e]; [| | done]; unfold Binary64.finite_value;
        by rewrite (py_round_integer _ _ (Qeq_refl _)).
    + apply binary_normalize_exact.
      apply py_round_between in Hp. lia.
Qed.

(** ** Time since the last change *)

(** Claim C5, amended.  For a switch in the store, [ms_since_change] is
    the float of an integer: the integer nearest to the binary64 product
    [(now - last_change_time) * 1000.0], a product halfway between two
    integers going to the even one.  The difference and the product are
    rounded to binary64 before the integer is taken.  (For a product
    beyond [2^52] in size the float is an integer as it is.) *)
Theorem ms_since_change_rounds_half_even
    (switch_name : string) (w : Binary64.World) (s : Binary64.SwitchState)
    (product : Q) :
  Binary64.switches w !! lower switch_name = Some s ->
  Binary64.value
    (Binary64.fmul
       (Binary64.fsub (Binary64.get_time w) (Binary64.ss_time s))
       Binary64.thousand) = Some product ->
  (inject_Z (- 2 ^ 52) <= product <= inject_Z (2 ^ 52))%Q ->
  exists (r : Binary64.float) (q : Q) (n : Z),
    Binary64.ms_since_change switch_name w = Ok r
    /\ Binary64.value r = Some q
    /\ (q == inject_Z n)%Q
    /\ (product - (1 # 2) <= inject_Z n <= product + (1 # 2))%Q
    /\ ((inject_Z n == product - (1 # 2)
         \/ inject_Z n == product + (1 # 2))%Q ->
        Z.even n = true).
Proof.
  intros Hs Hproduct Hsize.
  destruct (round0_nearest_even _ _ Hproduct Hsize) as (q & Hq & Hn).
  eexists _, q, (py_round product).
  split; [| split; [exact Hq |]].
  - unfold Binary64.ms_since_change, Binary64.lookup_switch. rewrite Hs.
    reflexivity.
  - split; [exact Hn |]. split; [apply py_round_near | apply py_round_tie_even].
Qed.

Lemma ms_since_change_rounds_half_even_witness :
  exists (r : Binary64.float) (q : Q),
    Binary64.ms_since_change "slingshot"
      (Binary64.slingshot_active (Binary64.decimal 1 16)) = Ok r
    /\ Binary64.value r = Some q
    /\ (q == 62)%Q.
Proof.
  destruct (ms_since_change_rounds_half_even "slingshot"
              (Binary64.slingshot_active (Binary64.decimal 1 16))
              (Binary64.mkSwitchState 1 (Binary64.of_Z 0))
              (8796093022208000 # 140737488355328))
    as (r & q & n & Hrun & Hq & Hqn & [Hlo Hhi] & Htie).
  - vm_compute. reflexivity.
  - vm_compute. reflexivity.
  - split; vm_compute; discriminate.
  - exists r, q. split; [exact Hrun |]. split; [exact Hq |].
    rewrite Hqn.
    assert (62 <= n <= 63) as Hn.
    { split; rewrite Zle_Qle.
      - change (inject_Z 62) with 62%Q. lra.
      - change (inject_Z 63) with 63%Q. lra. }
    destruct (Z.eq_dec n 63) as [-> | Hne].
    + exfalso. assert (Z.even 63 = true) as Heven; [| done].
      apply Htie. right. reflexivity.
    + replace n with 62 by lia. reflexivity.
Defined.

(** Claim C5 as stated fails.  62.5 ms after the change the result is
    62.0, where rounding half away from zero gives 63.  And the result is
    not the rounding of the exact product either: with the clock at the
    float [0.0005], a little above 1/2000, the float product is 0.5 and
    the result is 0.0, where the exact product rounds to 1 both ways. *)
Lemma ms_since_change_not_half_away :
  Binary64.ms_since_change "slingshot"
    (Binary64.slingshot_active (Binary64.decimal 1 16))
  = Ok (Binary64.of_Z 62)
  /\ (exists c : Q,
        Binary64.value (Binary64.decimal 1 16) = Some c
        /\ (c == 1 # 16)%Q
        /\ round_half_away_from_zero ((c - 0) * 1000) = 63)
  /\ Binary64.ms_since_change "slingshot"
       (Binary64.slingshot_active (Binary64.decimal 5 10000))
     = Ok (Binary64.of_Z 0)
  /\ exists c : Q,
       Binary64.value (Binary64.decimal 5 10000) = Some c
       /\ (5 # 10000 < c)%Q
       /\ py_round ((c - 0) * 1000) = 1
       /\ round_half_away_from_zero ((c - 0) * 1000) = 1.
Proof.
  split; [vm_compute; reflexivity |].
  split.
  { eexists. split; [vm_compute; reflexivity |].
    split; vm_compute; reflexivity. }
  split; [vm_compute; reflexivity |].
  eexists. split; [vm_compute; reflexivity |].
  split; [| split]; vm_compute; reflexivity.
Qed.

(** ** Registration while the switch already dwells *)

Lemma float_of_int_small (n : Z) :
  - 2 ^ 53 < n < 2 ^ 53 -> Binary64.float_of_int n = Ok (Binary64.of_Z n).
Proof.
  intros Hn. unfold Binary64.float_of_int, Binary64.of_Z.
  destruct n as [| m | m]; simpl SpecFloat.binary_normalize; [done | |].
  - destruct (binary_round_small false m) as (mz & ez & -> & _); [lia | done].
  - destruct (binary_round_small true m) as (mz & ez & -> & _); [lia | done].
Qed.

Lemma b64_fd_set_not_nil {V : Type} (k : Binary64.float) (v : V)
    (d : Binary64.fdict V) :
  Binary64.fd_keys (Binary64.fd_set k v d) <> [].
Proof.
  destruct d as [| [k' v'] d]; simpl; [done |].
  destruct (Binary64.feqb k' k); done.
Qed.

Lemma b64_add_timed_switch_handler_ok
    (time : Binary64.float) (tsh : TimedSwitchHandler) (w : Binary64.World) :
  exists w',
    Binary64._add_timed_switch_handler time tsh w = Ok w'
    /\ Binary64.active_timed_switches w'
       = Binary64.fd_set time
           (default [] (Binary64.fd_get time (Binary64.active_timed_switches w))
            ++ [tsh])
           (Binary64.active_timed_switches w)
    /\ Binary64.switches w' = Binary64.switches w
    /\ Binary64.registered_switches w' = Binary64.registered_switches w
    /\ Binary64.clock_time w' = Binary64.clock_time w.
Proof.
  unfold Binary64._add_timed_switch_handler,
    Binary64.get_next_timed_switch_event.
  set (queue := Binary64.fd_set time _ (Binary64.active_timed_switches w)).
  assert (exists t, Binary64.py_min (Binary64.fd_keys queue) = Some t)
    as [t Ht].
  { pose proof (b64_fd_set_not_nil time
                  (default [] (Binary64.fd_get time
                                 (Binary64.active_timed_switches w)) ++ [tsh])
                  (Binary64.active_timed_switches w)) as Hne.
    fold queue in Hne. destruct (Binary64.fd_keys queue); [done |].
    by eexists. }
  destruct (Binary64.timed_switch_handler_delay _) as [h |]; simpl;
    rewrite Ht; simpl; eexists; repeat split.
Qed.

(** Claim C7, amended.  Registering a handler with a dwell [ms > 0] on a
    known switch: when the switch is in [state] and the time since its
    change, [since = ms_since_change], is at least 0 and less than [ms],
    one pending for [(switch_name, state, ms, callback)] is appended to
    the bucket of the deadline [now + (ms - since) / 1000.0], a binary64
    sum of a binary64 quotient; when the switch is in the other state, or
    [since] is negative, or [since] has reached [ms], the timed queue is
    left as it was.  The deadline is built from the time since the change
    in whole milliseconds, not from the time of the change. *)
Theorem late_join_pending
    (switch_name : string) (callback : Callback) (state ms : Z)
    (return_info : bool) (callback_kwargs : list (string * string))
    (w : Binary64.World) (s : Binary64.SwitchState)
    (l : list RegisteredSwitch) :
  0 < ms < 2 ^ 53 ->
  state = 0 \/ state = 1 ->
  Binary64.registered_switches w !! lower (switch_key switch_name state)
  = Some l ->
  Binary64.switches w !! lower switch_name = Some s ->
  let since :=
    Binary64.round0
      (Binary64.fmul
         (Binary64.fsub (Binary64.get_time w) (Binary64.ss_time s))
         Binary64.thousand) in
  let deadline :=
    Binary64.fadd (Binary64.get_time w)
      (Binary64.fdiv (Binary64.fsub (Binary64.of_Z ms) since)
         Binary64.thousand) in
  exists handler w',
    Binary64.add_switch_handler switch_name callback state ms return_info
      callback_kwargs w = Ok (handler, w')
    /\ Binary64.ms_since_change switch_name w = Ok since
    /\ (Binary64.ss_state s = state ->
        Binary64.int_le_float 0 since = true ->
        Binary64.float_lt_int since ms = true ->
        Binary64.active_timed_switches w'
        = Binary64.fd_set deadline
            (default []
               (Binary64.fd_get deadline (Binary64.active_timed_switches w))
             ++ [mkTimedSwitchHandler (sh_callback handler) switch_name
                   state ms])
            (Binary64.active_timed_switches w))
    /\ (Binary64.ss_state s <> state
        \/ Binary64.int_le_float 0 since = false
        \/ Binary64.float_lt_int since ms = false ->
        Binary64.active_timed_switches w' = Binary64.active_timed_switches w).
Proof.
  intros Hms Hstate Hl Hs since deadline.
  assert (Binary64.ms_since_change switch_name w = Ok since) as Hmsc.
  { unfold Binary64.ms_since_change, Binary64.lookup_switch. by rewrite Hs. }
  assert (truthy ms = true) as Htruthy.
  { unfold truthy. apply negb_true_iff, Z.eqb_neq. lia. }
  unfold Binary64.add_switch_handler.
  set (wrapped := if negb (bool_decide (callback_kwargs = [])) && return_info
                  then _ else _).
  destruct wrapped as [cb w0] eqn:Hwrapped.
  assert (Binary64.switches w0 = Binary64.switches w
          /\ Binary64.get_time w0 = Binary64.get_time w
          /\ Binary64.active_timed_switches w0
             = Binary64.active_timed_switches w
          /\ Binary64.registered_switches w0 = Binary64.registered_switches w)
    as (Hsw0 & Hnow0 & Hact0 & Hreg0).
  { subst wrapped.
    destruct (negb (bool_decide (callback_kwargs = []))), return_info;
      simpl in Hwrapped; injection Hwrapped as <- <-; done. }
  unfold Binary64.lookup_registered. rewrite Hreg0, Hl. simpl rbind.
  rewrite Htruthy.
  unfold Binary64.ms_since_change at 1, Binary64.lookup_switch. simpl.
  rewrite Hsw0, Hs. simpl rbind.
  unfold Binary64.get_time in *. rewrite Hnow0. fold since.
  destruct (Binary64.float_lt_int since ms) eqn:Hlt.
  - unfold Binary64.is_active, Binary64.is_inactive, Binary64.is_state,
      Binary64.ms_since_change, Binary64.lookup_switch.
    simpl. rewrite Hsw0, Hs. simpl rbind.
    unfold Binary64.get_time. rewrite Hnow0. fold since.
    destruct (decide (Binary64.ss_state s = state
                      /\ Binary64.int_le_float 0 since = true))
      as [[Hin Hge] | Hout].
    + assert ((a <- (if state =? 1
                     then if Binary64.ss_state s =? 1
                          then Ok (Binary64.int_le_float 0 since)
                          else Ok false
                     else Ok false) ;;
               if a then Ok true
               else if state =? 0
                    then if Binary64.ss_state s =? 0
                         then Ok (Binary64.int_le_float 0 since)
                         else Ok false
                    else Ok false) = Ok true) as ->.
      { rewrite Hin, Hge. destruct Hstate as [-> | ->]; done. }
      simpl rbind. cbv iota.
      rewrite float_of_int_small by lia. simpl rbind.
      match goal with
      | |- context [Binary64._add_timed_switch_handler ?t ?v ?w1] =>
          destruct (b64_add_timed_switch_handler_ok t v w1)
            as (w' & Hrun & Hq & _)
      end.
      rewrite Hrun. simpl rbind. simpl in Hq. rewrite Hact0 in Hq.
      eexists _, _. split; [reflexivity |]. split; [done |].
      split; [intros _ _ _; exact Hq |].
      intros [Hne | [Hneg | Hge']]; congruence.
    + assert ((a <- (if state =? 1
                     then if Binary64.ss_state s =? 1
                          then Ok (Binary64.int_le_float 0 since)
                          else Ok false
                     else Ok false) ;;
               if a then Ok true
               else if state =? 0
                    then if Binary64.ss_state s =? 0
                         then Ok (Binary64.int_le_float 0 since)
                         else Ok false
                    else Ok false) = Ok false) as ->.
      { destruct (decide (Binary64.ss_state s = state)) as [Hin | Hne].
        - assert (Binary64.int_le_float 0 since = false) as ->.
          { apply not_true_is_false. intros Hge. by apply Hout. }
          rewrite Hin. destruct Hstate as [-> | ->]; done.
        - destruct Hstate as [-> | ->]; simpl;
            rewrite (proj2 (Z.eqb_neq _ _) Hne); done. }
      simpl rbind. cbv iota.
      eexists _, _. split; [reflexivity |]. split; [done |].
      split; [intros Hin Hge _; exfalso; by apply Hout |]. intros _. done.
  - simpl rbind.
    eexists _, _. split; [reflexivity |]. split; [done |].
    split; [intros _ _ Hlt'; congruence |]. intros _. done.
Qed.

Lemma late_join_pending_witness :
  exists handler w',
    Binary64.add_switch_handler "slingshot" (CbUser 3) 1 300 false []
      (Binary64.slingshot_active (Binary64.decimal 1 10))
    = Ok (handler, w')
    /\ Binary64.ms_since_change "slingshot"
         (Binary64.slingshot_active (Binary64.decimal 1 10))
       = Ok (Binary64.of_Z 100)
    /\ Binary64.active_timed_switches w'
       = [(Binary64.fadd (Binary64.decimal 1 10) (Binary64.decimal 200 1000),
           [mkTimedSwitchHandler (CbUser 3) "slingshot" 1 300])].
Proof.
  destruct (late_join_pending "slingshot" (CbUser 3) 1 300 false []
              (Binary64.slingshot_active (Binary64.decimal 1 10))
              (Binary64.mkSwitchState 1 (Binary64.of_Z 0)) [])
    as (handler & w' & Hrun & Hsince & Hin & _).
  - lia.
  - right. reflexivity.
  - vm_compute. reflexivity.
  - vm_compute. reflexivity.
  - exists handler, w'. split; [exact Hrun |].
    split; [rewrite Hsince; vm_compute; reflexivity |].
    rewrite Hin.
    + assert (sh_callback handler = CbUser 3) as ->.
      { vm_compute in Hrun. injection Hrun as <- _. reflexivity. }
      vm_compute. reflexivity.
    + reflexivity.
    + vm_compute. reflexivity.
    + vm_compute. reflexivity.
Defined.

(** Claim C7 as stated fails: the deadline is not the time at which the
    switch will have dwelt [ms].  [slingshot] is activated at 0.0 and
    watched for 300 ms, so that time is the float 0.3, at which
    [is_state] reports the dwell as reached.  Registered at 0.1, the
    handler gets the deadline 0.1 + 0.2, the float above 0.3.  Registered
    at 205/2048 s, the time since the change counts as 100 ms and the
    deadline is later than 0.3 by more than 0.09 ms; registered at
    103/1024 s it counts as 101 ms and the deadline is earlier than 0.3 by
    more than 0.4 ms. *)
Lemma late_join_not_at_dwell_time :
  exists (k1 k2 k3 : Binary64.float) (v2 v3 : Q),
    Binary64.is_state "slingshot" 1 (Some 300)
      (Binary64.slingshot_active (Binary64.decimal 3 10)) = Ok true
    /\ Binary64.late_join_deadlines (Binary64.decimal 1 10) = Ok [k1]
    /\ Binary64.fltb (Binary64.decimal 3 10) k1 = true
    /\ Binary64.ms_since_change "slingshot"
         (Binary64.slingshot_active (Binary64.decimal 205 2048))
       = Ok (Binary64.of_Z 100)
    /\ Binary64.late_join_deadlines (Binary64.decimal 205 2048) = Ok [k2]
    /\ Binary64.value k2 = Some v2
    /\ ((3 # 10) + (9 # 100000) < v2)%Q
    /\ Binary64.ms_since_change "slingshot"
         (Binary64.slingshot_active (Binary64.decimal 103 1024))
       = Ok (Binary64.of_Z 101)
    /\ Binary64.late_join_deadlines (Binary64.decimal 103 1024) = Ok [k3]
    /\ Binary64.value k3 = Some v3
    /\ (v3 < (3 # 10) - (4 # 10000))%Q.
Proof.
  eexists _, _, _, _, _.
  split; [vm_compute; reflexivity |].
  split; [vm_compute; reflexivity |].
  split; [vm_compute; reflexivity |].
  split; [vm_compute; reflexivity |].
  split; [vm_compute; reflexivity |].
  split; [vm_compute; reflexivity |].
  split; [vm_compute; reflexivity |].
  split; [vm_compute; reflexivity |].
  split; [vm_compute; reflexivity |].
  split; [vm_compute; reflexivity |].
  vm_compute. reflexivity.
Qed.
